(** * zampy: ERA5 retrieval and normalisation

    A shallow embedding of [zampy/datasets/utils.py] and
    [zampy/datasets/era5.py], and the properties of the request batcher,
    the retrieval loop, the normaliser and the dataset facade. *)

From Stdlib Require Import ZArith QArith List String Ascii Lia Bool Sorted.
From stdpp Require Import base option list list_numbers gmap strings pretty.

Local Close Scope Q_scope.
Local Open Scope Z_scope.

(** * Calendar dates

    [TimeBounds] holds two [np.datetime64] values of day resolution, as in
    [np.datetime64("1940-01-01")]; a date is a civil (proleptic Gregorian)
    triple, which is what [date.year] and [date.month] read. *)

Module Calendar.

Record date := mkdate { year : Z; month : Z; day : Z }.

Definition is_leap_year (y : Z) : bool :=
  ((y mod 4 =? 0) && negb (y mod 100 =? 0)) || (y mod 400 =? 0).

Definition days_in_month (y m : Z) : Z :=
  if m =? 2 then (if is_leap_year y then 29 else 28)
  else if (m =? 4) || (m =? 6) || (m =? 9) || (m =? 11) then 30
  else 31.

Definition valid_date (d : date) : Prop :=
  1 <= month d <= 12 /\ 1 <= day d <= days_in_month (year d) (month d).

(** Chronological order on dates ([<=], [<] and [==] of timestamps). *)
Definition date_leb (a b : date) : bool :=
  (year a <? year b)
  || ((year a =? year b)
      && ((month a <? month b) || ((month a =? month b) && (day a <=? day b)))).

Definition date_eqb (a b : date) : bool :=
  (year a =? year b) && (month a =? month b) && (day a =? day b).

Definition date_ltb (a b : date) : bool := date_leb a b && negb (date_eqb a b).

Definition date_le (a b : date) : Prop := date_leb a b = true.
Definition date_lt (a b : date) : Prop := date_ltb a b = true.

(** pandas holds a timestamp as a count of nanoseconds in 64 bits, from
    [Timestamp.min] (1677-09-21 00:12:43.145224193) to [Timestamp.max]
    (2262-04-11 23:47:16.854775807): a date, taken at midnight, fits when
    it is between 1677-09-22 and 2262-04-11.  [pd.date_range] raises
    [OutOfBoundsDatetime] as soon as a bound, or a date that a step of
    the month-end offset computes, does not fit. *)
Definition timestamp_fits (d : date) : bool :=
  date_leb (mkdate 1677 9 22) d && date_leb d (mkdate 2262 4 11).

(** The dates of the years 1678 to 2261: for them every timestamp that
    [pd.date_range] computes fits (a month-end step from such a date
    stays between 1677-12-31 and 2262-01-31).  The model of
    [pd.date_range] below is its behaviour on these dates; it has no
    overflow, and says nothing of bounds outside them. *)
Definition representable (d : date) : Prop := 1678 <= year d <= 2261.

(** ** The month-end offset of pandas (frequency ["M"]) *)

(** [shift_month stamp months day_opt="end"]: [//] and [%] are floor
    division and its remainder, as [Z.div] and [Z.modulo] for a positive
    divisor. *)
Definition shift_month (stamp : date) (months : Z) : date :=
  let dy := (month stamp + months) / 12 in
  let m := (month stamp + months) mod 12 in
  let '(m, dy) := if m =? 0 then (12, dy - 1) else (m, dy) in
  let y := year stamp + dy in
  mkdate y m (days_in_month y m).

Definition is_on_offset (d : date) : bool :=
  day d =? days_in_month (year d) (month d).

(** [roll_convention other n compare]. *)
Definition roll_convention (other n compare : Z) : Z :=
  if (0 <? n) && (other <? compare) then n - 1
  else if (n <=? 0) && (compare <? other) then n + 1
  else n.

(** [MonthEnd(n)._apply(other)]. *)
Definition MonthEnd_apply (n : Z) (other : date) : date :=
  let compare_day := days_in_month (year other) (month other) in
  shift_month other (roll_convention (day other) n compare_day).

Definition rollforward (d : date) : date :=
  if is_on_offset d then d else MonthEnd_apply 1 d.

Definition rollback (d : date) : date :=
  if is_on_offset d then d else MonthEnd_apply (-1) d.

(** The [while cur <= end] loop of pandas' range generator.  The loop is
    not structural; [fuel] bounds the number of iterations, and
    [generate_range] below supplies one more than the number of months
    from [start] to [end].  (The generator's check that the offset
    increments the date never fires, see [MonthEnd_apply_increases].) *)
Fixpoint generate_loop (fuel : nat) (cur end_ : date) : list date :=
  match fuel with
  | O => []
  | S fuel' =>
      if date_leb cur end_ then
        cur :: (if date_eqb cur end_ then []
                else generate_loop fuel' (MonthEnd_apply 1 cur) end_)
      else []
  end.

Definition month_index (d : date) : Z := 12 * year d + (month d - 1).

(** [pd.date_range(start=..., end=..., freq="M")]. *)
Definition date_range (start end_ : date) : list date :=
  let '(start', end') :=
    if negb (is_on_offset start) then (rollforward start, end_)
    else if negb (is_on_offset end_) then (start, rollback end_)
    else (start, end_) in
  if date_ltb end' start' then []
  else generate_loop (Z.to_nat (month_index end' - month_index start' + 1))
                     start' end'.

(** The last day of the month with index [i] (see [month_index]), and
    the position of a date on the time line. *)
Definition month_end_of (i : Z) : date :=
  mkdate (i / 12) (i mod 12 + 1) (days_in_month (i / 12) (i mod 12 + 1)).

Definition ordinal (d : date) : Z := 32 * month_index d + day d.

(** The index of the last month whose end is not after [d]. *)
Definition last_month_end_upto (d : date) : Z :=
  if is_on_offset d then month_index d else month_index d - 1.

End Calendar.

(** * Request batcher *)

(** Modelled from the spec: the class [TimeBounds] of
    [zampy.datasets.dataset_protocol] is not among the sources.  The spec
    has it as "(start, end) timestamps"; the sources build it from two
    dates, [TimeBounds(np.datetime64("1940-01-01"),
    np.datetime64("2023-06-30"))]. *)
Record TimeBounds := mkTimeBounds {
  tb_start : Calendar.date;
  tb_end : Calendar.date
}.

(** Python's [str] on an [int]. *)
Definition str (z : Z) : string := pretty z.

(** A calendar month-end boundary: a valid date that is the last day of
    its month. *)
Definition month_end_boundary (d : Calendar.date) : Prop :=
  Calendar.valid_date d
  /\ Calendar.day d = Calendar.days_in_month (Calendar.year d) (Calendar.month d).

Definition year_month (date : Calendar.date) : string * string :=
  (str (Calendar.year date), str (Calendar.month date)).

Definition time_bounds_to_year_month (time_bounds : TimeBounds)
  : list (string * string) :=
  let date_range :=
    Calendar.date_range (tb_start time_bounds) (tb_end time_bounds) in
  map year_month date_range.

(** * Exceptions and Python containers *)

Inductive error :=
| KeyError (key : string)
| IndexError
| TypeError (msg : string)
| ValueError (msg : string)
| FileNotFoundError (path : list string)
| IsADirectoryError (path : list string)
| FileExistsError (path : list string)
| ValidationError (msg : string)
| ExternalError (msg : string).

Inductive result (A : Type) :=
| Ok (a : A)
| Err (e : error).
Arguments Ok {A} a.
Arguments Err {A} e.

#[global] Instance result_ret : MRet result := fun _ a => Ok a.
#[global] Instance result_bind : MBind result := fun _ _ f m =>
  match m with Ok a => f a | Err e => Err e end.

(** A [dict] with string keys, in insertion order. *)
Definition dict (V : Type) := list (string * V).

Definition dict_keys {V} (d : dict V) : list string := map fst d.

Fixpoint dict_get {V} (d : dict V) (k : string) : option V :=
  match d with
  | [] => None
  | (k', v) :: d' => if String.eqb k' k then Some v else dict_get d' k
  end.

(** [k in d]. *)
Definition dict_mem {V} (d : dict V) (k : string) : bool :=
  match dict_get d k with Some _ => true | None => false end.

(** [d[k]], raising [KeyError]. *)
Definition getitem {V} (d : dict V) (k : string) : result V :=
  match dict_get d k with Some v => Ok v | None => Err (KeyError k) end.

(** [d[k] = v]: an existing key keeps its position. *)
Fixpoint dict_set {V} (d : dict V) (k : string) (v : V) : dict V :=
  match d with
  | [] => [(k, v)]
  | (k', v') :: d' =>
      if String.eqb k' k then (k, v) :: d' else (k', v') :: dict_set d' k v
  end.

(** * Normaliser *)

Definition var_reference_era5_to_zampy : dict string :=
  [ ("mtpr", "total_precipitation");
    ("strd", "surface_thermal_radiation_downwards");
    ("ssrd", "surface_solar_radiation_downwards");
    ("sp", "surface_pressure");
    ("u10", "eastward_component_of_wind");
    ("v10", "northward_component_of_wind");
    ("t2m", "air_temperature");
    ("d2m", "dewpoint_temperature") ].

Definition WATER_DENSITY : Q := 997 # 1.

(** An entry of [VARIABLE_REFERENCE_LOOKUP]: the unit and description of
    a canonical variable. *)
Module VariableRef.
Record t (Unit : Type) := make { unit : Unit; desc : string }.
Arguments make {Unit} unit desc.
Arguments unit {Unit} t.
Arguments desc {Unit} t.
End VariableRef.

Section Normalizer.

(** What xarray, pint and the variable registry of
    [zampy.reference.variables] provide: the payload of a data array
    (dimensions, coordinates and data), its division by a Python scalar,
    physical units with their [str], pint's conversion of a payload from
    the unit an attribute names to a target unit, and xarray's
    [keep_attrs] option for arithmetic. *)
Context {Values Unit : Type}.
Variable divide : Values -> Q -> Values.
Variable unit_str : Unit -> string.
Variable pint_to : string -> Unit -> Values -> result Values.
Variable keep_attrs : bool.

Variable VARIABLE_REFERENCE_LOOKUP : dict (VariableRef.t Unit).

Record DataArray := mkDataArray { values : Values; attrs : dict string }.

Definition Dataset := dict DataArray.

(** [ds.rename({old: new})]. *)
Definition rename (ds : Dataset) (old new : string) : result Dataset :=
  if negb (dict_mem ds old) then
    Err (ValueError "cannot rename: not a variable in this dataset")
  else if dict_mem ds new && negb (String.eqb new old) then
    Err (ValueError "the new name conflicts")
  else
    Ok (map (fun kv => (if String.eqb (fst kv) old then new else fst kv,
                        snd kv)) ds).

(** [da / c]: arithmetic drops the attributes unless [keep_attrs]. *)
Definition truediv (da : DataArray) (c : Q) : DataArray :=
  mkDataArray (divide (values da) c) (if keep_attrs then attrs da else []).

(** [ds[name].attrs[key] = value]. *)
Definition set_attr (ds : Dataset) (name key value : string)
  : result Dataset :=
  da ← getitem ds name;
  Ok (dict_set ds name (mkDataArray (values da) (dict_set (attrs da) key value))).

(** Modelled from the spec: [converter._convert_var] is not among the
    sources.  The spec has it as "a generic unit-conversion step" that
    applies "a further unit conversion to the registry's target unit" to
    the one variable it is given; the unit it converts from is the one
    the caller has just stamped on the variable's [units] attribute. *)
Definition _convert_var (data : Dataset) (var : string) (new_unit : Unit)
  : result Dataset :=
  da ← getitem data var;
  old_unit ← getitem (attrs da) "units";
  converted ← pint_to old_unit new_unit (values da);
  Ok (dict_set data var (mkDataArray converted (attrs da))).

Definition is_radiation (variable_name : string) : bool :=
  String.eqb variable_name "surface_solar_radiation_downwards"
  || String.eqb variable_name "surface_thermal_radiation_downwards".

(** The body of the [for variable in ds.variables] loop. *)
Definition parse_variable (variable : string) (ds : Dataset)
  : result Dataset :=
  match dict_get var_reference_era5_to_zampy variable with
  | None => Ok ds
  | Some variable_name =>
      ds ← rename ds variable variable_name;
      ds ← (if is_radiation variable_name then
              da ← getitem ds variable_name;
              Ok (dict_set ds variable_name (truediv da (3600 # 1)))
            else if String.eqb variable_name "total_precipitation" then
              da ← getitem ds variable_name;
              let ds := dict_set ds variable_name (truediv da WATER_DENSITY) in
              ds ← set_attr ds variable_name "units" "meter_per_second";
              ref ← getitem VARIABLE_REFERENCE_LOOKUP variable_name;
              _convert_var ds variable_name (VariableRef.unit ref)
            else Ok ds);
      ref ← getitem VARIABLE_REFERENCE_LOOKUP variable_name;
      ds ← set_attr ds variable_name "units" (unit_str (VariableRef.unit ref));
      ref ← getitem VARIABLE_REFERENCE_LOOKUP variable_name;
      set_attr ds variable_name "description" (VariableRef.desc ref)
  end.

(** The loop runs over the variables of the dataset as it was opened. *)
Fixpoint parse_variables (variables : list string) (ds : Dataset)
  : result Dataset :=
  match variables with
  | [] => Ok ds
  | variable :: rest =>
      ds ← parse_variable variable ds;
      parse_variables rest ds
  end.

(** What the body of the loop makes of the array of a registered
    variable, given its canonical name. *)
Definition normalise_array (variable_name : string) (da : DataArray)
  : result DataArray :=
  da ← (if is_radiation variable_name then Ok (truediv da (3600 # 1))
        else if String.eqb variable_name "total_precipitation" then
          let da := truediv da WATER_DENSITY in
          ref ← getitem VARIABLE_REFERENCE_LOOKUP variable_name;
          converted ← pint_to "meter_per_second" (VariableRef.unit ref)
                              (values da);
          Ok (mkDataArray converted
                          (dict_set (attrs da) "units" "meter_per_second"))
        else Ok da);
  ref ← getitem VARIABLE_REFERENCE_LOOKUP variable_name;
  Ok (mkDataArray (values da)
        (dict_set (dict_set (attrs da) "units"
                            (unit_str (VariableRef.unit ref)))
                  "description" (VariableRef.desc ref))).

(** The dataset with the entry named [name] replaced by [entry]. *)
Definition replace_entry (name : string) (entry : string * DataArray)
    (ds : Dataset) : Dataset :=
  map (fun kv => if String.eqb (fst kv) name then entry else kv) ds.

(** How an entry of the opened dataset and the entry at its place in
    the parsed dataset are related. *)
Definition normalised (old new : string * DataArray) : Prop :=
  match dict_get var_reference_era5_to_zampy (fst old) with
  | Some variable_name =>
      fst new = variable_name
      /\ normalise_array variable_name (snd old) = Ok (snd new)
  | None => new = old
  end.

(** [xr.open_dataset(file, chunks=...)]. *)
Variable open_dataset : list string -> result Dataset.

Definition parse_nc_file (file : list string) : result Dataset :=
  ds ← open_dataset file;
  parse_variables (dict_keys ds) ds.

End Normalizer.

(** * The file system, the remote service and the effects of a call *)

(** A [pathlib.Path], as its components. *)
Definition Path := list string.

(** [path / name] and [path.name], for a name that is one component (it
    holds no ["/"]; [pathlib] would split a name that does). *)
Definition path_join (path : Path) (name : string) : Path := path ++ [name].
Definition path_name (path : Path) : string := List.last path "".

Inductive node :=
| File (content : string)
| Dir.

(** Modelled from the spec: the class [SpatialBounds] of
    [zampy.datasets.dataset_protocol] is not among the sources.  The spec
    has it as "(north, east, south, west) scalars", the order in which
    [SpatialBounds(90, 180, -90, -180)] gives the bounds of the ERA5
    class; the sources read the fields [north], [west], [south] and
    [east]. *)
Record SpatialBounds := mkSpatialBounds {
  north : Q;
  east : Q;
  south : Q;
  west : Q
}.

(** The request dictionary handed to [c.retrieve]. *)
Module Request.
Record t := make {
  product_type : string;
  variable : list string;
  year : string;
  month : string;
  day : list string;
  time : list string;
  area : list Q;
  format : string
}.
End Request.

(** What the process does to the outside: the calls on the CDS client
    and on the result it returns, and the lines it prints. *)
Inductive event :=
| Retrieve (dataset : string) (request : Request.t)
| Download (target : Path)
| Print (msg : string).

(** The answer of [c.retrieve]: the size the server reports, and what
    [r.download] will transfer (or the exception it raises). *)
Record RemoteResult := mkRemoteResult {
  content_length : Z;
  payload : result string
}.

(** A [cdsapi.Client]; the answer to a request may depend on everything
    that happened before. *)
Record Client := mkClient {
  answer : list event -> string -> Request.t -> result RemoteResult
}.

Record World := mkWorld {
  nodes : gmap Path node;
  dir_st_size : Path -> Z;
  log : list event
}.

(** Computations that read and change the world and may raise. *)
Definition M (A : Type) : Type := World -> result A * World.

#[global] Instance M_ret : MRet M := fun _ a w => (Ok a, w).
#[global] Instance M_bind : MBind M := fun _ _ f m w =>
  match m w with
  | (Ok a, w') => f a w'
  | (Err e, w') => (Err e, w')
  end.

Definition lift {A} (r : result A) : M A := fun w => (r, w).

Definition emit (ev : event) : M unit :=
  fun w => (Ok tt, mkWorld (nodes w) (dir_st_size w) (log w ++ [ev])).

(** [print(msg)] and [tqdm.write(msg)]. *)
Definition print (msg : string) : M unit := emit (Print msg).

Fixpoint for_each {A} (items : list A) (body : A -> M unit) : M unit :=
  match items with
  | [] => mret tt
  | item :: rest => _ ← body item; for_each rest body
  end.

(** [c.retrieve(dataset, request)]. *)
Definition retrieve (c : Client) (dataset : string) (request : Request.t)
  : M RemoteResult :=
  fun w => (answer c (log w) dataset request,
            mkWorld (nodes w) (dir_st_size w)
                    (log w ++ [Retrieve dataset request])).

(** [r.download(target)]. *)
Definition download (r : RemoteResult) (target : Path) : M unit :=
  fun w =>
    let log' := log w ++ [Download target] in
    match payload r with
    | Ok body =>
        (Ok tt, mkWorld (<[target := File body]> (nodes w)) (dir_st_size w) log')
    | Err e => (Err e, mkWorld (nodes w) (dir_st_size w) log')
    end.

Definition get_file_size (fpath : Path) : M Z :=
  fun w =>
    (Ok (match nodes w !! fpath with
         | None => 0
         | Some (File content) => Z.of_nat (String.length content)
         | Some Dir => dir_st_size w fpath
         end), w).

(** Text that UTF-8 decodes to itself: every byte is below 128. *)
Fixpoint is_ascii (s : string) : bool :=
  match s with
  | EmptyString => true
  | String c s' => (nat_of_ascii c <? 128)%nat && is_ascii s'
  end.

(** [path.open(encoding="utf8")] followed by reading the text.  A file
    holds bytes, and the text read is these bytes: this is the reading of
    a file of ASCII text ([is_ascii]); bytes that are not valid UTF-8
    would raise [UnicodeDecodeError], which is not modelled. *)
Definition open_text (path : Path) : M string :=
  fun w =>
    (match nodes w !! path with
     | Some (File content) => Ok content
     | Some Dir => Err (IsADirectoryError path)
     | None => Err (FileNotFoundError path)
     end, w).

(** [path.mkdir(parents=True, exist_ok=True)]. *)
Definition mkdir_one (path : Path) : M unit :=
  fun w =>
    match nodes w !! path with
    | Some Dir => (Ok tt, w)
    | Some (File _) => (Err (FileExistsError path), w)
    | None => (Ok tt, mkWorld (<[path := Dir]> (nodes w)) (dir_st_size w) (log w))
    end.

Definition mkdir (path : Path) : M unit :=
  for_each (map (fun n => take n path) (seq 1 (length path))) mkdir_one.

(** ** Text of the configuration file *)

(** The line feed that follows a carriage return belongs to the same
    line break. *)
Definition skip_lf (s : string) : string :=
  match s with
  | String c s' => if Ascii.eqb c "010"%char then s' else s
  | EmptyString => s
  end.

(** [f.readline()] on a file opened in text mode: the line with its
    newline, and the rest of the file.  With universal newlines a line
    ends at a line feed, at a carriage return, or at the two in a row,
    and its end is read as one line feed. *)
Fixpoint readline (s : string) : string * string :=
  match s with
  | EmptyString => (EmptyString, EmptyString)
  | String c s' =>
      if Ascii.eqb c "010"%char then (String "010"%char EmptyString, s')
      else if Ascii.eqb c "013"%char
      then (String "010"%char EmptyString, skip_lf s')
      else let '(line, rest) := readline s' in (String c line, rest)
  end.

(** [s.split(":", 1)[1]]. *)
Fixpoint split_colon_1 (s : string) : result string :=
  match s with
  | EmptyString => Err IndexError
  | String c s' => if Ascii.eqb c ":"%char then Ok s' else split_colon_1 s'
  end.

(** [str.isspace] on a character of ASCII text. *)
Definition isspace (c : ascii) : bool :=
  let n := nat_of_ascii c in
  ((9 <=? n) && (n <=? 13) || (28 <=? n) && (n <=? 32))%nat.

Fixpoint lstrip (s : string) : string :=
  match s with
  | EmptyString => EmptyString
  | String c s' => if isspace c then lstrip s' else s
  end.

Definition strip (s : string) : string :=
  lstrip (String.rev (lstrip (String.rev s))).

(** * Retrieval client *)

Definition PRODUCT_FNAME : dict string :=
  [ ("reanalysis-era5-single-levels", "era5");
    ("reanalysis-era5-land", "era5-land") ].

Definition all_days : list string :=
  [ "01"; "02"; "03"; "04"; "05"; "06"; "07"; "08"; "09"; "10";
    "11"; "12"; "13"; "14"; "15"; "16"; "17"; "18"; "19"; "20";
    "21"; "22"; "23"; "24"; "25"; "26"; "27"; "28"; "29"; "30";
    "31" ].

Definition all_hours : list string :=
  [ "00:00"; "01:00"; "02:00"; "03:00"; "04:00"; "05:00"; "06:00";
    "07:00"; "08:00"; "09:00"; "10:00"; "11:00"; "12:00"; "13:00";
    "14:00"; "15:00"; "16:00"; "17:00"; "18:00"; "19:00"; "20:00";
    "21:00"; "22:00"; "23:00" ].

(** The dictionary literal of the request. *)
Definition make_request (cds_name year month : string)
    (spatial_bounds : SpatialBounds) : Request.t :=
  Request.make "reanalysis" [cds_name] year month all_days all_hours
    [ north spatial_bounds; west spatial_bounds;
      south spatial_bounds; east spatial_bounds ]
    "netcdf".

(** [itertools.product] of two sequences (under its progress bar). *)
Definition product {A B} (xs : list A) (ys : list B) : list (A * B) :=
  x ← xs; y ← ys; [(x, y)].

Definition target_name (fname variable year month : string) : string :=
  fname +:+ "_" +:+ variable +:+ "_" +:+ year +:+ "-" +:+ month +:+ ".nc".

Section CdsRequest.

(** [cdsapi.Client(url=..., key=..., verify=True, quiet=True)], and the
    module constant [CDSAPI_CONFIG_PATH] ([Path.home() / ".cdsapirc"]). *)
Variable cdsapi_Client : string -> string -> Client.
Variable CDSAPI_CONFIG_PATH : Path.

(** The body of the loop over [product(year_month_pairs, variables)]. *)
Definition cds_request_item (c : Client) (dataset fname : string)
    (spatial_bounds : SpatialBounds) (path : Path)
    (cds_var_names : dict string) (overwrite : bool)
    (item : (string * string) * string) : M unit :=
  let '((year, month), variable) := item in
  cds_name ← lift (getitem cds_var_names variable);
  r ← retrieve c dataset (make_request cds_name year month spatial_bounds);
  let fpath := path_join path (target_name fname variable year month) in
  size ← get_file_size fpath;
  if negb (size =? content_length r) || overwrite then
    _ ← download r fpath;
    print ("Download " +:+ path_name fpath +:+ " successfully.")
  else
    print ("File '" +:+ path_name fpath +:+ "' already exists, skipping...").

Definition read_config : M (string * string) :=
  text ← open_text CDSAPI_CONFIG_PATH;
  let '(line1, rest) := readline text in
  url ← lift (split_colon_1 line1);
  let '(line2, _) := readline rest in
  api_key ← lift (split_colon_1 line2);
  mret (strip url, strip api_key).

Definition cds_request (dataset : string) (variables : list string)
    (time_bounds : TimeBounds) (spatial_bounds : SpatialBounds)
    (path : Path) (cds_var_names : dict string) (overwrite : bool)
  : M unit :=
  fname ← lift (getitem PRODUCT_FNAME dataset);
  '(url, api_key) ← read_config;
  let c := cdsapi_Client url api_key in
  let year_month_pairs := time_bounds_to_year_month time_bounds in
  for_each (product year_month_pairs variables)
    (cds_request_item c dataset fname spatial_bounds path cds_var_names
                      overwrite).

End CdsRequest.

(** The requests sent to the service and the transfers started, as
    recorded in a log. *)
Definition retrieve_calls (events : list event) : list (string * Request.t) :=
  omap (fun ev => match ev with
                  | Retrieve dataset request => Some (dataset, request)
                  | _ => None
                  end) events.

Definition download_calls (events : list event) : list Path :=
  omap (fun ev => match ev with Download target => Some target | _ => None end)
       events.

(** The path an item of the loop is stored at, and the request made for
    it once its CDS name is known. *)
Definition item_path (path : Path) (fname : string)
    (item : (string * string) * string) : Path :=
  path_join path (target_name fname (snd item) (fst (fst item)) (snd (fst item))).

Definition item_request (cds_name : string) (spatial_bounds : SpatialBounds)
    (item : (string * string) * string) : Request.t :=
  make_request cds_name (fst (fst item)) (snd (fst item)) spatial_bounds.

(** * Dataset facade *)

(** The class attributes of a dataset that a download request is checked
    against ([raw_variables], [license] and [bib] play no part in it). *)
Module Dataset.
Record t := make {
  name : string;
  time_bounds : TimeBounds;
  spatial_bounds : SpatialBounds;
  variable_names : list string
}.
End Dataset.

Definition ERA5 : Dataset.t :=
  Dataset.make "era5"
    (mkTimeBounds (Calendar.mkdate 1940 1 1) (Calendar.mkdate 2023 6 30))
    (mkSpatialBounds (90 # 1) (180 # 1) (-90 # 1) (-180 # 1))
    [ "mean_total_precipitation_rate";
      "surface_thermal_radiation_downwards";
      "surface_solar_radiation_downwards";
      "surface_pressure";
      "10m_u_component_of_wind";
      "10m_v_component_of_wind" ].

Definition time_within (envelope request : TimeBounds) : bool :=
  Calendar.date_leb (tb_start envelope) (tb_start request)
  && Calendar.date_leb (tb_end request) (tb_end envelope).

Definition space_within (envelope request : SpatialBounds) : bool :=
  Qle_bool (north request) (north envelope)
  && Qle_bool (east request) (east envelope)
  && Qle_bool (south envelope) (south request)
  && Qle_bool (west envelope) (west request).

Definition variables_known (dataset : Dataset.t) (names : list string) : bool :=
  forallb (fun v => bool_decide (v ∈ Dataset.variable_names dataset)) names.

(** A request lies within the declared envelope of a dataset. *)
Definition within_envelope (dataset : Dataset.t) (time_bounds : TimeBounds)
    (spatial_bounds : SpatialBounds) (variable_names : list string) : bool :=
  variables_known dataset variable_names
  && time_within (Dataset.time_bounds dataset) time_bounds
  && space_within (Dataset.spatial_bounds dataset) spatial_bounds.

(** Modelled from the spec: [validation.validate_download_request] is not
    among the sources.  The spec has the facade "validate the request
    (bounds within the dataset's declared spatial/temporal extent, variable
    names recognized)" and raise a validation error when the "requested
    bounds/time range/variable names fall outside the dataset's declared
    envelope". *)
Definition validate_download_request (dataset : Dataset.t)
    (download_dir : Path) (time_bounds : TimeBounds)
    (spatial_bounds : SpatialBounds) (variable_names : list string)
  : M unit :=
  if negb (variables_known dataset variable_names) then
    lift (Err (ValidationError "variable names"))
  else if negb (time_within (Dataset.time_bounds dataset) time_bounds) then
    lift (Err (ValidationError "time bounds"))
  else if negb (space_within (Dataset.spatial_bounds dataset) spatial_bounds) then
    lift (Err (ValidationError "spatial bounds"))
  else mret tt.

(** ** Calls with keyword arguments *)

(** The values passed to [cds_request]. *)
Inductive pyobj :=
| PyStr (s : string)
| PyList (l : list string)
| PyBool (b : bool)
| PyPath (p : Path)
| PyTimeBounds (tb : TimeBounds)
| PySpatialBounds (sb : SpatialBounds)
| PyDict (d : dict string).

(** Python binds the keywords of a call to the parameters of the
    function: a keyword that names no parameter, or a parameter without
    default that is given no value, raises [TypeError]. *)
Definition bind_keywords (func : string) (params : list string)
    (kwargs : dict pyobj) : result (dict pyobj) :=
  match List.find (fun kv => negb (bool_decide (fst kv ∈ params))) kwargs with
  | Some kv =>
      Err (TypeError (func +:+ "() got an unexpected keyword argument '"
                           +:+ fst kv +:+ "'"))
  | None =>
      match List.find (fun p => negb (dict_mem kwargs p)) params with
      | Some p =>
          Err (TypeError (func +:+ "() missing required argument '"
                               +:+ p +:+ "'"))
      | None => Ok kwargs
      end
  end.

Definition wrong_type {A} (param : string) : result A :=
  Err (TypeError ("unexpected type of argument '" +:+ param +:+ "'")).

Definition arg_str (args : dict pyobj) (param : string) : result string :=
  a ← getitem args param;
  match a with PyStr s => Ok s | _ => wrong_type param end.
Definition arg_list (args : dict pyobj) (param : string) : result (list string) :=
  a ← getitem args param;
  match a with PyList l => Ok l | _ => wrong_type param end.
Definition arg_bool (args : dict pyobj) (param : string) : result bool :=
  a ← getitem args param;
  match a with PyBool b => Ok b | _ => wrong_type param end.
Definition arg_path (args : dict pyobj) (param : string) : result Path :=
  a ← getitem args param;
  match a with PyPath p => Ok p | _ => wrong_type param end.
Definition arg_time (args : dict pyobj) (param : string) : result TimeBounds :=
  a ← getitem args param;
  match a with PyTimeBounds tb => Ok tb | _ => wrong_type param end.
Definition arg_space (args : dict pyobj) (param : string)
  : result SpatialBounds :=
  a ← getitem args param;
  match a with PySpatialBounds sb => Ok sb | _ => wrong_type param end.
Definition arg_dict (args : dict pyobj) (param : string) : result (dict string) :=
  a ← getitem args param;
  match a with PyDict d => Ok d | _ => wrong_type param end.

(** The parameters of [def cds_request(...)]; none has a default. *)
Definition cds_request_params : list string :=
  [ "dataset"; "variables"; "time_bounds"; "spatial_bounds"; "path";
    "cds_var_names"; "overwrite" ].

Section Facade.

Variable cdsapi_Client : string -> string -> Client.
Variable CDSAPI_CONFIG_PATH : Path.

(** [json.dump] of the properties record. *)
Variable properties_json :
  SpatialBounds -> TimeBounds -> list string -> string.

(** A call of [utils.cds_request] with keyword arguments only. *)
Definition call_cds_request (kwargs : dict pyobj) : M unit :=
  args ← lift (bind_keywords "cds_request" cds_request_params kwargs);
  dataset ← lift (arg_str args "dataset");
  variables ← lift (arg_list args "variables");
  time_bounds ← lift (arg_time args "time_bounds");
  spatial_bounds ← lift (arg_space args "spatial_bounds");
  path ← lift (arg_path args "path");
  cds_var_names ← lift (arg_dict args "cds_var_names");
  overwrite ← lift (arg_bool args "overwrite");
  cds_request cdsapi_Client CDSAPI_CONFIG_PATH dataset variables
    time_bounds spatial_bounds path cds_var_names overwrite.

(** Modelled from the spec: [write_properties_file] of
    [zampy.datasets.dataset_protocol] is not among the sources.  The spec
    has a "persisted properties record: structured file containing
    spatial bounds, time bounds, and the list of requested variable
    names, written once per download invocation into the dataset's
    download directory"; the test reads it back from [properties.json]. *)
Definition write_properties_file (dataset_folder : Path)
    (spatial_bounds : SpatialBounds) (time_bounds : TimeBounds)
    (variable_names : list string) : M unit :=
  fun w =>
    (Ok tt,
     mkWorld (<[path_join dataset_folder "properties.json" :=
                  File (properties_json spatial_bounds time_bounds
                                        variable_names)]> (nodes w))
             (dir_st_size w) (log w)).

(** The keyword arguments [ERA5.download] passes to [utils.cds_request]. *)
Definition ERA5_cds_request_kwargs (variable_names : list string)
    (time_bounds : TimeBounds) (spatial_bounds : SpatialBounds)
    (download_folder : Path) (overwrite : bool) : dict pyobj :=
  [ ("product", PyStr "reanalysis-era5-single-levels");
    ("variables", PyList variable_names);
    ("time_bounds", PyTimeBounds time_bounds);
    ("spatial_bounds", PySpatialBounds spatial_bounds);
    ("path", PyPath download_folder);
    ("overwrite", PyBool overwrite) ].

(** [ERA5.download]. *)
Definition ERA5_download (download_dir : Path) (time_bounds : TimeBounds)
    (spatial_bounds : SpatialBounds) (variable_names : list string)
    (overwrite : bool) : M bool :=
  _ ← validate_download_request ERA5 download_dir time_bounds
        spatial_bounds variable_names;
  let download_folder := path_join download_dir (Dataset.name ERA5) in
  _ ← mkdir download_folder;
  _ ← call_cds_request
        (ERA5_cds_request_kwargs variable_names time_bounds spatial_bounds
                                 download_folder overwrite);
  _ ← write_properties_file download_folder spatial_bounds time_bounds
        variable_names;
  mret true.

End Facade.

(** [c in s], for one character. *)
Fixpoint contains (c : ascii) (s : string) : bool :=
  match s with
  | EmptyString => false
  | String c' s' => Ascii.eqb c' c || contains c s'
  end.

(** Text that holds no line break. *)
Definition single_line (s : string) : bool :=
  negb (contains "010"%char s || contains "013"%char s).

(** What [get_file_size] measures at a path. *)
Definition st_size (w : World) (fpath : Path) : Z :=
  match nodes w !! fpath with
  | None => 0
  | Some (File content) => Z.of_nat (String.length content)
  | Some Dir => dir_st_size w fpath
  end.

(** * Paths with another suffix *)

(** [name.rfind(".")], when there is a dot. *)
Fixpoint rfind_dot (name : string) : option nat :=
  match name with
  | EmptyString => None
  | String c name' =>
      match rfind_dot name' with
      | Some i => Some (S i)
      | None => if Ascii.eqb c "."%char then Some O else None
      end
  end.

(** [PurePath.suffix], on the name of the path: the part from the last
    dot on, unless that dot starts or ends the name. *)
Definition suffix (name : string) : string :=
  match rfind_dot name with
  | Some i =>
      if ((0 <? i) && (i <? String.length name - 1))%nat
      then String.substring i (String.length name - i) name
      else EmptyString
  | None => EmptyString
  end.

(** [s.startswith(".")]. *)
Definition starts_with_dot (s : string) : bool :=
  match s with
  | String c _ => Ascii.eqb c "."%char
  | EmptyString => false
  end.

(** [path.with_suffix(new_suffix)]. *)
Definition with_suffix (path : Path) (new_suffix : string) : result Path :=
  if contains "/"%char new_suffix then Err (ValueError "Invalid suffix")
  else if (negb (String.eqb new_suffix EmptyString)
           && negb (starts_with_dot new_suffix))
          || String.eqb new_suffix "."
  then Err (ValueError "Invalid suffix")
  else
    let name := path_name path in
    if String.eqb name EmptyString then Err (ValueError "empty name")
    else
      let old_suffix := suffix name in
      let name :=
        if String.eqb old_suffix EmptyString then name +:+ new_suffix
        else String.substring 0 (String.length name - String.length old_suffix)
                              name +:+ new_suffix in
      Ok (removelast path ++ [name]).

(** * Converting a downloaded file *)

Section Ingest.

Context {Values Unit : Type}.
Variable divide : Values -> Q -> Values.
Variable unit_str : Unit -> string.
Variable pint_to : string -> Unit -> Values -> result Values.
Variable keep_attrs : bool.
Variable VARIABLE_REFERENCE_LOOKUP : dict (VariableRef.t Unit).

(** What a path of the disk holds, as [xarray] sees it: a netCDF file
    with its dataset, a file that is not one, or a folder. *)
Inductive nc_node :=
| NcFile (ds : @Dataset Values)
| NotNc
| Folder.

(** The disk, and the lines printed. *)
Record Disk := mkDisk {
  disk_nodes : gmap Path nc_node;
  printed : list string
}.

(** [xr.open_dataset] on the disk. *)
Definition disk_open (d : Disk) (file : Path) : result (@Dataset Values) :=
  match disk_nodes d !! file with
  | Some (NcFile ds) => Ok ds
  | Some NotNc => Err (ValueError "not a netCDF file")
  | Some Folder => Err (IsADirectoryError file)
  | None => Err (FileNotFoundError file)
  end.

(** [path.exists()]. *)
Definition disk_exists (d : Disk) (path : Path) : bool :=
  match disk_nodes d !! path with Some _ => true | None => false end.

(** [path.is_dir()]; the path without components is the working
    directory. *)
Definition is_folder (d : Disk) (path : Path) : bool :=
  match path with
  | [] => true
  | _ => match disk_nodes d !! path with Some Folder => true | _ => false end
  end.

(** [ds.to_netcdf(path=path)], for a dataset that was opened lazily from
    [source]: the folder of [path] must exist, and [path] can be neither
    a folder nor the file the dataset is still read from. *)
Definition to_netcdf (ds : @Dataset Values) (source path : Path) (d : Disk)
  : result unit * Disk :=
  if negb (is_folder d (removelast path)) then (Err (FileNotFoundError path), d)
  else if is_folder d path then (Err (IsADirectoryError path), d)
  else if bool_decide (path = source)
  then (Err (ExternalError "PermissionError"), d)
  else (Ok tt, mkDisk (<[path := NcFile ds]> (disk_nodes d)) (printed d)).

(** [ingest_folder / file.with_suffix(".nc").name]. *)
Definition ingest_target (ingest_folder file : Path) : result Path :=
  renamed ← with_suffix file ".nc";
  Ok (path_join ingest_folder (path_name renamed)).

Definition convert_to_zampy (ingest_folder file : Path) (overwrite : bool)
    (d : Disk) : result unit * Disk :=
  match ingest_target ingest_folder file with
  | Err e => (Err e, d)
  | Ok ncfile =>
      if disk_exists d ncfile && negb overwrite then
        (Ok tt,
         mkDisk (disk_nodes d)
                (printed d ++ ["File '" +:+ path_name ncfile
                               +:+ "' already exists, skipping..."]))
      else
        match parse_nc_file divide unit_str pint_to keep_attrs
                            VARIABLE_REFERENCE_LOOKUP (disk_open d) file with
        | Err e => (Err e, d)
        | Ok ds => to_netcdf ds file ncfile d
        end
  end.

End Ingest.

(** * Downloading a URL *)

(** A [tqdm] progress bar: its description, its position [n] and its
    [total]. *)
Module Bar.
Record t := make {
  desc : string;
  n : Z;
  total : option Z;
  disable : bool
}.
End Bar.

(** [tqdm.update(n)]: the position moves by [n] unless the bar is
    disabled (what it returns says whether the display was refreshed). *)
Definition tqdm_update (self : Bar.t) (n : Z) : Bar.t :=
  if Bar.disable self then self
  else Bar.make (Bar.desc self) (Bar.n self + n) (Bar.total self)
                (Bar.disable self).

(** [TqdmUpdate.update_to(b, bsize, tsize)]. *)
Definition update_to (self : Bar.t) (b bsize : Z) (tsize : option Z) : Bar.t :=
  let self :=
    match tsize with
    | Some tsize => Bar.make (Bar.desc self) (Bar.n self) (Some tsize)
                             (Bar.disable self)
    | None => self
    end in
  tqdm_update self (b * bsize - Bar.n self).

(** [url.split("/")[-1]]. *)
Fixpoint last_segment (url : string) : string :=
  match url with
  | EmptyString => EmptyString
  | String c url' =>
      if contains "/"%char url' then last_segment url'
      else if Ascii.eqb c "/"%char then url'
      else url
  end.

Inductive http_event :=
| Head (url : string)
| UrlRetrieve (url : string) (filename : Path).

(** The answer to [requests.head]: the [Content-Length] header, if the
    response has one. *)
Record HeadResponse := mkHeadResponse {
  header_content_length : option string
}.

(** What [urlopen] delivers: what the calls of [fp.read(bs)] return or
    raise, one after the other (once they are used up, the empty block of
    the end of the stream), and the size the response declares ([-1] when
    it declares none). *)
Record Transfer := mkTransfer {
  reads : list (result string);
  declared_size : Z
}.

(** [while block := fp.read(bs)]: the blocks up to the first empty one,
    and the exception that ended the loop, if one did. *)
Fixpoint read_loop (reads : list (result string))
  : list string * option error :=
  match reads with
  | [] => ([], None)
  | Err e :: _ => ([], Some e)
  | Ok block :: reads' =>
      if String.eqb block EmptyString then ([], None)
      else let '(blocks, failure) := read_loop reads' in
           (block :: blocks, failure)
  end.

(** [path.is_dir()]; the path without components is the working
    directory. *)
Definition is_dir (w : World) (path : Path) : bool :=
  match path with
  | [] => true
  | _ => match nodes w !! path with Some Dir => true | _ => false end
  end.

(** Whether [open(filename, "wb")] succeeds: the file must not be a
    directory, and its directory must exist. *)
Definition open_wb (w : World) (filename : Path) : result unit :=
  if is_dir w filename then Err (IsADirectoryError filename)
  else if is_dir w (removelast filename) then Ok tt
  else Err (FileNotFoundError filename).

Record Web := mkWeb {
  head : list http_event -> string -> result HeadResponse;
  urlopen : list http_event -> string -> result Transfer
}.

(** The world of [download_url]: the files and the printed lines, the
    requests made, and the progress bars that were shown. *)
Record HttpWorld := mkHttpWorld {
  world : World;
  requests : list http_event;
  bars : list Bar.t
}.

Definition H (A : Type) : Type := HttpWorld -> result A * HttpWorld.

#[global] Instance H_ret : MRet H := fun _ a h => (Ok a, h).
#[global] Instance H_bind : MBind H := fun _ _ f m h =>
  match m h with
  | (Ok a, h') => f a h'
  | (Err e, h') => (Err e, h')
  end.

(** An action on the files, in the larger world. *)
Definition on_world {A} (m : M A) : H A :=
  fun h =>
    let '(r, w) := m (world h) in
    (r, mkHttpWorld w (requests h) (bars h)).

Section DownloadUrl.

(** The web as [requests] and [urllib] reach it, and Python's [int] on a
    string. *)
Variable web : Web.
Variable int : string -> result Z.

Definition get_url_size (url : string) : H Z :=
  fun h =>
    let h' := mkHttpWorld (world h) (requests h ++ [Head url]) (bars h) in
    match head web (requests h) url with
    | Err e => (Err e, h')
    | Ok response =>
        match header_content_length response with
        | None => (Err (KeyError "content-length"), h')
        | Some value => (int value, h')
        end
    end.

(** The calls [urlretrieve] makes on its report hook: block number 0
    before the first read, then one call after each block. *)
Definition report_blocks (t : Bar.t) (count : nat) (bs size : Z) : Bar.t :=
  fold_left (fun t blocknum => update_to t (Z.of_nat blocknum) bs (Some size))
            (seq 0 (S count)) t.

(** [with TqdmUpdate(...) as t: urlretrieve(url, filename=fpath,
    reporthook=t.update_to)]: the URL is opened, then the file; the
    blocks read are written to the file as they come; the bar is closed,
    and shown in its last state, however the block is left. *)
Definition urlretrieve_with_bar (url : string) (fpath : Path) : H unit :=
  fun h =>
    let t := Bar.make (last_segment url) 0 None false in
    let sent := requests h ++ [UrlRetrieve url fpath] in
    match urlopen web (requests h) url with
    | Err e => (Err e, mkHttpWorld (world h) sent (bars h ++ [t]))
    | Ok transfer =>
        match open_wb (world h) fpath with
        | Err e => (Err e, mkHttpWorld (world h) sent (bars h ++ [t]))
        | Ok _ =>
            let '(blocks, failure) := read_loop (reads transfer) in
            let content := String.concat EmptyString blocks in
            let bs := 8192 in
            let size := declared_size transfer in
            let t := report_blocks t (length blocks) bs size in
            let w := mkWorld (<[fpath := File content]> (nodes (world h)))
                             (dir_st_size (world h)) (log (world h)) in
            let h' := mkHttpWorld w sent (bars h ++ [t]) in
            match failure with
            | Some e => (Err e, h')
            | None =>
                if (0 <=? size) && (Z.of_nat (String.length content) <? size)
                then (Err (ExternalError "ContentTooShortError"), h')
                else (Ok tt, h')
            end
        end
    end.

Definition download_url (url : string) (fpath : Path) (overwrite : bool)
  : H unit :=
  file_size ← on_world (get_file_size fpath);
  url_size ← get_url_size url;
  if negb (file_size =? url_size) || overwrite then
    urlretrieve_with_bar url fpath
  else
    on_world (print ("File '" +:+ path_name fpath
                     +:+ "' already exists, skipping...")).

(** The size probe succeeds and gives [url_size]. *)
Definition probe_gives (h : HttpWorld) (url : string) (url_size : Z) : Prop :=
  exists response value,
    head web (requests h) url = Ok response
    /\ header_content_length response = Some value
    /\ int value = Ok url_size.

End DownloadUrl.

(** * A concrete setting

    Arrays of one rational number, units named by their string, a
    conversion that knows metres and millimetres per second, and a file
    that holds one variable of each kind. *)
Module Fixture.

Definition divide (v c : Q) : Q := Qred (v / c).

Definition unit_str (u : string) : string := u.

Definition pint_to (old_unit new_unit : string) (v : Q) : result Q :=
  if String.eqb old_unit new_unit then Ok v
  else if String.eqb old_unit "meter_per_second"
          && String.eqb new_unit "millimeter / second"
  then Ok (Qred (v * (1000 # 1)))
  else Err (ExternalError "cannot convert").

Definition VARIABLE_REFERENCE_LOOKUP : dict (VariableRef.t string) :=
  [ ("total_precipitation",
     VariableRef.make "millimeter / second" "Total precipitation");
    ("surface_solar_radiation_downwards",
     VariableRef.make "watt / meter ** 2" "Surface solar radiation");
    ("surface_thermal_radiation_downwards",
     VariableRef.make "watt / meter ** 2" "Surface thermal radiation");
    ("surface_pressure", VariableRef.make "pascal" "Surface pressure") ].

Definition raw_dataset : @Dataset Q :=
  [ ("time", mkDataArray (0 # 1)%Q [("standard_name", "time")]);
    ("mtpr", mkDataArray (1994 # 1)%Q [("units", "kg m**-2 s**-1")]);
    ("ssrd", mkDataArray (7200 # 1)%Q [("units", "J m**-2")]);
    ("sp", mkDataArray (101325 # 1)%Q [("units", "Pa")]);
    ("lai", mkDataArray (3 # 1)%Q [("units", "1")]) ].

Definition parse (open_dataset : list string -> result (@Dataset Q))
  : list string -> result (@Dataset Q) :=
  parse_nc_file divide unit_str pint_to false VARIABLE_REFERENCE_LOOKUP
                open_dataset.

Definition parsed_dataset : @Dataset Q :=
  Eval vm_compute in
    match parse (fun _ => Ok raw_dataset) [] with
    | Ok ds => ds
    | Err _ => []
    end.

Definition open_dataset (file : list string) : result (@Dataset Q) :=
  match file with
  | ["download"; "era5_2010-1.nc"] => Ok raw_dataset
  | ["ingest"; "era5_2010-1.nc"] => Ok parsed_dataset
  | _ => Err (FileNotFoundError file)
  end.

(** The configuration file of the test suite, a service that answers
    every request with three bytes, and the request of the test. *)
Definition cdsapirc : Path := ["home"; ".cdsapirc"].

Definition cdsapirc_text : string :=
  "url: a" +:+ String "010"%char "key: 123:abc-def".

Definition client (url api_key : string) : Client :=
  mkClient (fun _ _ _ => Ok (mkRemoteResult 3 (Ok "abc"))).

Definition january_2010 : TimeBounds :=
  mkTimeBounds (Calendar.mkdate 2010 1 1) (Calendar.mkdate 2010 1 31).

Definition bbox : SpatialBounds :=
  mkSpatialBounds (54 # 1) (56 # 1) (1 # 1) (3 # 1).

Definition cds_var_names : dict string :=
  [ ("2m_dewpoint_temperature", "2m_dewpoint_temperature");
    ("surface_pressure", "surface_pressure") ].

Definition fresh_world : World :=
  mkWorld {[ cdsapirc := File cdsapirc_text ]} (fun _ => 4096) [].

(** The same, with a three-byte file where the download would go. *)
Definition world_with_file : World :=
  mkWorld {[ cdsapirc := File cdsapirc_text;
             ["data"; "era5-land";
              "era5-land_2m_dewpoint_temperature_2010-1.nc"] := File "xyz" ]}
          (fun _ => 4096) [].

(** A service that reports an empty result. *)
Definition empty_client (url api_key : string) : Client :=
  mkClient (fun _ _ _ => Ok (mkRemoteResult 0 (Ok ""))).

Definition dewpoint_item : (string * string) * string :=
  (("2010", "1"), "2m_dewpoint_temperature").

Definition first_quarter_2010 : TimeBounds :=
  mkTimeBounds (Calendar.mkdate 2010 1 1) (Calendar.mkdate 2010 3 31).

(** Two runs of the loop on the same request: one that overwrites,
    against the service with three-byte answers, and one that does not,
    into another directory and against the service with empty answers. *)
Definition first_run : result unit * World :=
  cds_request client cdsapirc "reanalysis-era5-land"
    ["2m_dewpoint_temperature"; "surface_pressure"] first_quarter_2010
    bbox ["data"; "era5-land"] cds_var_names true fresh_world.

Definition second_run : result unit * World :=
  cds_request empty_client cdsapirc "reanalysis-era5-land"
    ["2m_dewpoint_temperature"; "surface_pressure"] first_quarter_2010
    bbox ["elsewhere"] cds_var_names false world_with_file.

Definition properties_json (sb : SpatialBounds) (tb : TimeBounds)
    (variable_names : list string) : string :=
  String.concat "," variable_names.

End Fixture.

(** More of the concrete setting: a disk with the downloaded file, and a
    web server that offers three bytes. *)
Module MoreFixture.

Definition disk : @Disk Q :=
  mkDisk {[ ["download"] := Folder;
            ["download"; "era5_2010-1.nc"] := NcFile Fixture.raw_dataset;
            ["ingest"] := Folder;
            ["standard"] := Folder ]} [].

(** The same disk once the file has been converted into [ingest]. *)
Definition disk_converted : @Disk Q :=
  mkDisk {[ ["download"] := Folder;
            ["download"; "era5_2010-1.nc"] := NcFile Fixture.raw_dataset;
            ["ingest"] := Folder;
            ["ingest"; "era5_2010-1.nc"] := NcFile Fixture.parsed_dataset;
            ["standard"] := Folder ]} [].

Definition convert (ingest_folder file : Path) (overwrite : bool)
    (d : @Disk Q) : result unit * @Disk Q :=
  convert_to_zampy Fixture.divide Fixture.unit_str Fixture.pint_to false
                   Fixture.VARIABLE_REFERENCE_LOOKUP ingest_folder file
                   overwrite d.

(** [int] on a string of decimal digits. *)
Definition digit (c : ascii) : option Z :=
  let n := Z.of_nat (nat_of_ascii c) in
  if (48 <=? n) && (n <=? 57) then Some (n - 48) else None.

Fixpoint int_digits (acc : Z) (s : string) : result Z :=
  match s with
  | EmptyString => Ok acc
  | String c s' =>
      match digit c with
      | Some d => int_digits (10 * acc + d) s'
      | None => Err (ValueError "invalid literal for int()")
      end
  end.

Definition int (s : string) : result Z :=
  match s with
  | EmptyString => Err (ValueError "invalid literal for int()")
  | _ => int_digits 0 s
  end.

Definition web : Web :=
  mkWeb (fun _ _ => Ok (mkHeadResponse (Some "3")))
        (fun _ _ => Ok (mkTransfer [Ok "ab"; Ok "c"] 3)).

(** A server whose responses carry no [Content-Length]. *)
Definition web_without_length : Web :=
  mkWeb (fun _ _ => Ok (mkHeadResponse None))
        (fun _ _ => Ok (mkTransfer [Ok "ab"; Ok "c"] (-1))).

Definition url : string := "https://example.org/data/tile_1.tif".

Definition fpath : Path := ["data"; "tile_1.tif"].

Definition no_files : HttpWorld :=
  mkHttpWorld (mkWorld {[ ["data"] := Dir ]} (fun _ => 4096) []) [] [].

Definition with_tile : HttpWorld :=
  mkHttpWorld (mkWorld {[ ["data"] := Dir; fpath := File "xyz" ]}
                       (fun _ => 4096) []) [] [].

Definition unknown_item : (string * string) * string :=
  (("2010", "1"), "no_such_variable").

(** The loop up to the item it cannot name. *)
Definition passes_before : result unit * World :=
  for_each [Fixture.dewpoint_item]
    (cds_request_item (Fixture.client "a" "123:abc-def") "reanalysis-era5-land"
                      "era5-land" Fixture.bbox ["data"; "era5-land"]
                      Fixture.cds_var_names true)
    Fixture.fresh_world.

End MoreFixture.

(** * Properties *)

Example batch_2010_01 :
  time_bounds_to_year_month
    (mkTimeBounds (Calendar.mkdate 2010 1 1) (Calendar.mkdate 2010 1 31)) = [("2010", "1")].
Proof. reflexivity. Qed.

Example batch_year_wrap :
  time_bounds_to_year_month
    (mkTimeBounds (Calendar.mkdate 2019 11 15) (Calendar.mkdate 2020 3 30))
  = [("2019", "11"); ("2019", "12"); ("2020", "1"); ("2020", "2")].
Proof. reflexivity. Qed.

Example batch_short_span :
  time_bounds_to_year_month
    (mkTimeBounds (Calendar.mkdate 2010 1 1) (Calendar.mkdate 2010 1 30)) = [].
Proof. reflexivity. Qed.

Module CalendarFacts.
Import Calendar.

Lemma days_in_month_bounds y m : 28 <= days_in_month y m <= 31.
Proof.
  unfold days_in_month.
  destruct (m =? 2); [destruct (is_leap_year y); lia|].
  destruct ((m =? 4) || (m =? 6) || (m =? 9) || (m =? 11)); lia.
Qed.

Lemma month_index_month_end_of i : month_index (month_end_of i) = i.
Proof. unfold month_index, month_end_of; simpl. Z.div_mod_to_equations. lia. Qed.

Lemma valid_month_end_of i : valid_date (month_end_of i).
Proof.
  unfold valid_date, month_end_of; simpl.
  pose proof (days_in_month_bounds (i / 12) (i mod 12 + 1)).
  pose proof (Z.mod_pos_bound i 12). lia.
Qed.

Lemma is_on_offset_month_end_of i : is_on_offset (month_end_of i) = true.
Proof. unfold is_on_offset, month_end_of; simpl. apply Z.eqb_refl. Qed.

Lemma on_offset_is_month_end d :
  valid_date d -> is_on_offset d = true -> d = month_end_of (month_index d).
Proof.
  destruct d as [y m dd]. unfold valid_date, is_on_offset, month_end_of, month_index.
  simpl. intros [Hm Hd] Hon. apply Z.eqb_eq in Hon.
  assert ((12 * y + (m - 1)) / 12 = y) as -> by (Z.div_mod_to_equations; lia).
  assert ((12 * y + (m - 1)) mod 12 + 1 = m) as -> by (Z.div_mod_to_equations; lia).
  congruence.
Qed.

Lemma shift_month_month_end d k :
  1 <= month d <= 12 -> shift_month d k = month_end_of (month_index d + k).
Proof.
  destruct d as [y m dd]. unfold shift_month, month_end_of, month_index. simpl.
  intros Hm.
  destruct ((m + k) mod 12 =? 0) eqn:E.
  - apply Z.eqb_eq in E.
    assert ((12 * y + (m - 1) + k) / 12 = y + ((m + k) / 12 - 1)) as ->
      by (Z.div_mod_to_equations; lia).
    assert ((12 * y + (m - 1) + k) mod 12 + 1 = 12) as ->
      by (Z.div_mod_to_equations; lia).
    reflexivity.
  - apply Z.eqb_neq in E.
    assert ((12 * y + (m - 1) + k) / 12 = y + (m + k) / 12) as ->
      by (Z.div_mod_to_equations; lia).
    assert ((12 * y + (m - 1) + k) mod 12 + 1 = (m + k) mod 12) as ->
      by (Z.div_mod_to_equations; lia).
    reflexivity.
Qed.

Lemma MonthEnd_apply_on_offset d :
  valid_date d -> is_on_offset d = true ->
  MonthEnd_apply 1 d = month_end_of (month_index d + 1).
Proof.
  intros [Hm Hd] Hon. unfold MonthEnd_apply, roll_convention.
  unfold is_on_offset in Hon. apply Z.eqb_eq in Hon.
  replace (day d <? days_in_month (year d) (month d)) with false
    by (symmetry; apply Z.ltb_ge; lia).
  replace (days_in_month (year d) (month d) <? day d) with false
    by (symmetry; apply Z.ltb_ge; lia).
  simpl. by apply shift_month_month_end.
Qed.

Lemma rollforward_month_end d :
  valid_date d -> rollforward d = month_end_of (month_index d).
Proof.
  intros Hv. unfold rollforward. destruct (is_on_offset d) eqn:Hon.
  - by apply on_offset_is_month_end.
  - destruct Hv as [Hm Hd]. unfold MonthEnd_apply, roll_convention.
    unfold is_on_offset in Hon. apply Z.eqb_neq in Hon.
    replace (day d <? days_in_month (year d) (month d)) with true
      by (symmetry; apply Z.ltb_lt; lia).
    simpl. rewrite shift_month_month_end by done. f_equal. lia.
Qed.

Lemma rollback_month_end d :
  valid_date d -> rollback d = month_end_of (last_month_end_upto d).
Proof.
  intros Hv. unfold rollback, last_month_end_upto.
  destruct (is_on_offset d) eqn:Hon.
  - by apply on_offset_is_month_end.
  - destruct Hv as [Hm Hd]. unfold MonthEnd_apply, roll_convention.
    replace (days_in_month (year d) (month d) <? day d) with false
      by (symmetry; apply Z.ltb_ge; lia).
    simpl. rewrite shift_month_month_end by done. f_equal.
Qed.

(** On valid dates the comparisons of timestamps are those of [ordinal]. *)
Lemma date_leb_ordinal a b :
  valid_date a -> valid_date b -> date_leb a b = (ordinal a <=? ordinal b).
Proof.
  intros [Ham Had] [Hbm Hbd].
  pose proof (days_in_month_bounds (year a) (month a)).
  pose proof (days_in_month_bounds (year b) (month b)).
  unfold date_leb, ordinal, month_index.
  destruct (year a <? year b) eqn:E1; simpl.
  { apply Z.ltb_lt in E1. symmetry. apply Z.leb_le. lia. }
  apply Z.ltb_ge in E1.
  destruct (year a =? year b) eqn:E2; simpl.
  2:{ apply Z.eqb_neq in E2. symmetry. apply Z.leb_gt. lia. }
  apply Z.eqb_eq in E2.
  destruct (month a <? month b) eqn:E3; simpl.
  { apply Z.ltb_lt in E3. symmetry. apply Z.leb_le. lia. }
  apply Z.ltb_ge in E3.
  destruct (month a =? month b) eqn:E4; simpl.
  2:{ apply Z.eqb_neq in E4. symmetry. apply Z.leb_gt. lia. }
  apply Z.eqb_eq in E4.
  destruct (day a <=? day b) eqn:E5.
  - apply Z.leb_le in E5. symmetry. apply Z.leb_le. lia.
  - apply Z.leb_gt in E5. symmetry. apply Z.leb_gt. lia.
Qed.

Lemma date_eqb_eq a b : date_eqb a b = true <-> a = b.
Proof.
  destruct a, b. unfold date_eqb. simpl.
  rewrite !andb_true_iff, !Z.eqb_eq. split; [intros [[-> ->] ->]; done|].
  intros [= -> -> ->]. done.
Qed.

Lemma ordinal_inj a b :
  valid_date a -> valid_date b -> ordinal a = ordinal b -> a = b.
Proof.
  destruct a as [y m d], b as [y' m' d']. unfold valid_date, ordinal, month_index.
  simpl. intros [? ?] [? ?] ?.
  pose proof (days_in_month_bounds y m).
  pose proof (days_in_month_bounds y' m').
  assert (y = y') by lia. subst.
  assert (m = m') by lia. subst.
  f_equal. lia.
Qed.

Lemma date_ltb_ordinal a b :
  valid_date a -> valid_date b -> date_ltb a b = (ordinal a <? ordinal b).
Proof.
  intros Ha Hb. unfold date_ltb. rewrite date_leb_ordinal by done.
  destruct (date_eqb a b) eqn:E.
  - apply date_eqb_eq in E. subst. simpl.
    rewrite Z.leb_refl, Z.ltb_irrefl. done.
  - assert (ordinal a <> ordinal b).
    { intros Ho. apply ordinal_inj in Ho; [|done..]. subst.
      assert (date_eqb b b = true) by by apply date_eqb_eq. congruence. }
    simpl. rewrite andb_true_r.
    destruct (ordinal a <=? ordinal b) eqn:E1, (ordinal a <? ordinal b) eqn:E2;
      try done; lia.
Qed.

(** A month end is not after [e] exactly when its month is not after the
    last month that ends by [e]. *)
Lemma month_end_le_iff i e :
  valid_date e ->
  ordinal (month_end_of i) <= ordinal e <-> i <= last_month_end_upto e.
Proof.
  intros [Hm Hd]. unfold last_month_end_upto, is_on_offset.
  pose proof (days_in_month_bounds (year e) (month e)).
  pose proof (days_in_month_bounds (i / 12) (i mod 12 + 1)).
  unfold ordinal at 1. rewrite month_index_month_end_of.
  unfold ordinal. simpl.
  destruct (decide (i = month_index e)) as [->|Hne].
  - assert (month_index e / 12 = year e) as ->
      by (unfold month_index; Z.div_mod_to_equations; lia).
    assert (month_index e mod 12 + 1 = month e) as ->
      by (unfold month_index; Z.div_mod_to_equations; lia).
    destruct (day e =? days_in_month (year e) (month e)) eqn:E.
    + apply Z.eqb_eq in E. lia.
    + apply Z.eqb_neq in E. lia.
  - destruct (day e =? days_in_month (year e) (month e)); lia.
Qed.

Lemma month_end_ge_iff i s :
  valid_date s ->
  ordinal s <= ordinal (month_end_of i) <-> month_index s <= i.
Proof.
  intros [Hm Hd].
  pose proof (days_in_month_bounds (year s) (month s)).
  pose proof (days_in_month_bounds (i / 12) (i mod 12 + 1)).
  unfold ordinal at 2. rewrite month_index_month_end_of.
  unfold ordinal. simpl.
  destruct (decide (i = month_index s)) as [->|Hne]; [|lia].
  assert (month_index s / 12 = year s) as ->
    by (unfold month_index; Z.div_mod_to_equations; lia).
  assert (month_index s mod 12 + 1 = month s) as ->
    by (unfold month_index; Z.div_mod_to_equations; lia).
  lia.
Qed.

(** The offset always moves a month end forward, so the generator's
    "did not increment date" check is dead code. *)
Lemma MonthEnd_apply_increases d :
  valid_date d -> is_on_offset d = true ->
  date_ltb d (MonthEnd_apply 1 d) = true.
Proof.
  intros Hv Hon. rewrite MonthEnd_apply_on_offset by done.
  rewrite date_ltb_ordinal by auto using valid_month_end_of.
  apply Z.ltb_lt.
  rewrite (on_offset_is_month_end d Hv Hon) at 1.
  pose proof (days_in_month_bounds (month_index d / 12) (month_index d mod 12 + 1)).
  pose proof (days_in_month_bounds ((month_index d + 1) / 12)
                                   ((month_index d + 1) mod 12 + 1)).
  unfold ordinal. rewrite !month_index_month_end_of. simpl. lia.
Qed.

(** With enough fuel the loop yields the month ends from [i] to the last
    one that is not after [e]. *)
Lemma generate_loop_spec fuel i e :
  valid_date e ->
  last_month_end_upto e - i + 1 <= Z.of_nat fuel ->
  generate_loop fuel (month_end_of i) e
  = map month_end_of (seqZ i (last_month_end_upto e - i + 1)).
Proof.
  intros He. revert i. induction fuel as [|fuel IH]; intros i Hfuel.
  - simpl. rewrite seqZ_nil by lia. done.
  - simpl. rewrite date_leb_ordinal by auto using valid_month_end_of.
    destruct (ordinal (month_end_of i) <=? ordinal e) eqn:Hle.
    + apply Z.leb_le in Hle. apply month_end_le_iff in Hle; [|done].
      rewrite seqZ_cons by lia. simpl. f_equal.
      destruct (date_eqb (month_end_of i) e) eqn:Heq.
      * apply date_eqb_eq in Heq. subst e.
        unfold last_month_end_upto.
        rewrite is_on_offset_month_end_of, month_index_month_end_of.
        rewrite seqZ_nil by lia. done.
      * rewrite MonthEnd_apply_on_offset
          by auto using valid_month_end_of, is_on_offset_month_end_of.
        rewrite month_index_month_end_of.
        rewrite IH by lia. f_equal. f_equal; lia.
    + apply Z.leb_gt in Hle.
      assert (¬ i <= last_month_end_upto e) as Hgt.
      { intros H. apply month_end_le_iff in H; [lia|done]. }
      rewrite seqZ_nil by lia. done.
Qed.

Lemma last_month_end_upto_month_end_of i :
  last_month_end_upto (month_end_of i) = i.
Proof.
  unfold last_month_end_upto.
  by rewrite is_on_offset_month_end_of, month_index_month_end_of.
Qed.

(** [date_range] is the list of month ends from the month of [start] to
    the last month that ends by [end_]. *)
Lemma date_range_spec start end_ :
  valid_date start -> valid_date end_ ->
  date_range start end_
  = map month_end_of
        (seqZ (month_index start)
              (last_month_end_upto end_ - month_index start + 1)).
Proof.
  intros Hs He. unfold date_range.
  assert (forall s' e',
    s' = month_end_of (month_index start) -> valid_date e' ->
    last_month_end_upto e' = last_month_end_upto end_ ->
    month_index e' <= month_index end_ ->
    (if date_ltb e' s' then []
     else generate_loop (Z.to_nat (month_index e' - month_index s' + 1)) s' e')
    = map month_end_of
        (seqZ (month_index start)
              (last_month_end_upto end_ - month_index start + 1))) as Hmain.
  { intros s' e' -> He' HK Hidx.
    rewrite date_ltb_ordinal by auto using valid_month_end_of.
    rewrite month_index_month_end_of.
    destruct (ordinal e' <? ordinal (month_end_of (month_index start))) eqn:Hlt.
    - apply Z.ltb_lt in Hlt.
      assert (¬ month_index start <= last_month_end_upto e') as Hgt.
      { intros H. apply month_end_le_iff in H; [lia|done]. }
      rewrite seqZ_nil by lia. done.
    - rewrite generate_loop_spec; [by rewrite HK|done|].
      unfold last_month_end_upto. destruct (is_on_offset e'); lia. }
  destruct (is_on_offset start) eqn:Hon; simpl.
  - destruct (is_on_offset end_) eqn:Hoe; simpl.
    + apply Hmain; [by apply on_offset_is_month_end|done|done|lia].
    + rewrite rollback_month_end by done.
      apply Hmain; [by apply on_offset_is_month_end|apply valid_month_end_of|..].
      * apply last_month_end_upto_month_end_of.
      * rewrite month_index_month_end_of. unfold last_month_end_upto.
        rewrite Hoe. lia.
  - apply Hmain; [by apply rollforward_month_end|done|done|lia].
Qed.

Lemma month_end_of_inj i j : month_end_of i = month_end_of j -> i = j.
Proof.
  intros H. rewrite <- (month_index_month_end_of i), <- (month_index_month_end_of j).
  by rewrite H.
Qed.

Lemma month_end_of_lt i j : i < j -> date_lt (month_end_of i) (month_end_of j).
Proof.
  intros Hij. unfold date_lt.
  rewrite date_ltb_ordinal by auto using valid_month_end_of.
  apply Z.ltb_lt.
  pose proof (days_in_month_bounds (i / 12) (i mod 12 + 1)).
  pose proof (days_in_month_bounds (j / 12) (j mod 12 + 1)).
  unfold ordinal. rewrite !month_index_month_end_of. simpl. lia.
Qed.

Lemma sorted_month_ends i n :
  StronglySorted date_lt (map month_end_of (seqZ i n)).
Proof.
  destruct (decide (n <= 0)) as [Hn|Hn].
  { rewrite seqZ_nil by done. constructor. }
  rewrite <- (Z2Nat.id n) by lia. generalize (Z.to_nat n) as k. clear n Hn.
  intros k. revert i. induction k as [|k IH]; intros i.
  - rewrite seqZ_nil by lia. constructor.
  - rewrite seqZ_cons by lia. simpl. constructor.
    + replace (Z.pred (Z.of_nat (S k))) with (Z.of_nat k) by lia. apply IH.
    + apply List.Forall_forall. intros d Hd. apply in_map_iff in Hd as (j & <- & Hj).
      apply list_elem_of_In, elem_of_seqZ in Hj. apply month_end_of_lt. lia.
Qed.

(** The dates of the years 1678 to 2261 fit a timestamp, and so does
    every date that a month-end step computes from one of them. *)
Lemma month_end_of_fits i :
  12 * 1678 - 1 <= i <= 12 * 2262 -> timestamp_fits (month_end_of i) = true.
Proof.
  intros Hi. unfold timestamp_fits, date_leb, month_end_of. cbn [year month day].
  pose proof (days_in_month_bounds (i / 12) (i mod 12 + 1)) as Hdays.
  pose proof (Z.mod_pos_bound i 12 ltac:(lia)) as Hmod.
  pose proof (Z.div_mod i 12 ltac:(lia)) as Hdiv.
  generalize dependent (days_in_month (i / 12) (i mod 12 + 1)).
  generalize dependent (i mod 12). generalize dependent (i / 12).
  intros y m Hm Hdiv dd Hdd.
  repeat match goal with
         | |- context [?a <? ?b] => destruct (Z.ltb_spec a b)
         | |- context [?a =? ?b] => destruct (Z.eqb_spec a b)
         | |- context [?a <=? ?b] => destruct (Z.leb_spec a b)
         end; cbn; try reflexivity; lia.
Qed.

Lemma representable_fits d :
  valid_date d -> representable d -> timestamp_fits d = true.
Proof.
  intros [Hm Hd] Hy. unfold representable in Hy.
  unfold timestamp_fits, date_leb. cbn [year month day].
  repeat match goal with
         | |- context [?a <? ?b] => destruct (Z.ltb_spec a b)
         | |- context [?a =? ?b] => destruct (Z.eqb_spec a b)
         | |- context [?a <=? ?b] => destruct (Z.leb_spec a b)
         end; cbn; try reflexivity; lia.
Qed.

Lemma month_end_steps_fit d n :
  valid_date d -> representable d -> n = 1 \/ n = -1 ->
  timestamp_fits (MonthEnd_apply n d) = true
  /\ timestamp_fits (rollforward d) = true
  /\ timestamp_fits (rollback d) = true.
Proof.
  intros Hv Hy Hn.
  assert (forall k, k = 1 \/ k = -1 ->
            timestamp_fits (MonthEnd_apply k d) = true) as Hstep.
  { intros k Hk. unfold MonthEnd_apply.
    rewrite shift_month_month_end by apply Hv.
    apply month_end_of_fits. unfold representable in Hy.
    unfold month_index, roll_convention.
    destruct Hv as [Hm _].
    destruct Hk as [->| ->];
      repeat match goal with
             | |- context [?a <? ?b] => destruct (Z.ltb_spec a b)
             | |- context [?a <=? ?b] => destruct (Z.leb_spec a b)
             end; cbn; lia. }
  split; [by apply Hstep|].
  unfold rollforward, rollback.
  destruct (is_on_offset d);
    (split; [try (by apply representable_fits); apply Hstep; by left
            |try (by apply representable_fits); apply Hstep; by right]).
Qed.

End CalendarFacts.

(** * Request batcher: one pair per month end *)

Lemma year_month_month_end_inj i j :
  year_month (Calendar.month_end_of i) = year_month (Calendar.month_end_of j) ->
  i = j.
Proof.
  unfold year_month, str. simpl. intros [= Hy Hm].
  apply (inj pretty) in Hy. apply (inj pretty) in Hm.
  Z.div_mod_to_equations. lia.
Qed.

(** C3: for valid time bounds that pandas can represent (both dates in
    the years 1678 to 2261), [time_bounds_to_year_month] returns the
    (year, month) strings of a list of dates that is strictly increasing in
    time and holds exactly the calendar month ends lying between start and
    end inclusive; so there is exactly one pair per month-end boundary, in
    chronological order, and no pair occurs twice. *)
Theorem time_bounds_to_year_month_month_ends (time_bounds : TimeBounds) :
  Calendar.valid_date (tb_start time_bounds) ->
  Calendar.valid_date (tb_end time_bounds) ->
  Calendar.representable (tb_start time_bounds) ->
  Calendar.representable (tb_end time_bounds) ->
  exists boundaries : list Calendar.date,
    time_bounds_to_year_month time_bounds = map year_month boundaries
    /\ StronglySorted Calendar.date_lt boundaries
    /\ (forall d, In d boundaries <->
                  month_end_boundary d
                  /\ Calendar.date_le (tb_start time_bounds) d
                  /\ Calendar.date_le d (tb_end time_bounds))
    /\ NoDup (time_bounds_to_year_month time_bounds).
Proof.
  intros Hs He _ _. destruct time_bounds as [start end_]. simpl in *.
  unfold time_bounds_to_year_month. simpl.
  rewrite CalendarFacts.date_range_spec by done.
  set (first := Calendar.month_index start).
  set (len := Calendar.last_month_end_upto end_ - first + 1).
  exists (map Calendar.month_end_of (seqZ first len)).
  split; [done|]. split; [apply CalendarFacts.sorted_month_ends|]. split.
  - intros d. rewrite in_map_iff. split.
    + intros (i & <- & Hi). apply list_elem_of_In, elem_of_seqZ in Hi.
      split; [split; [apply CalendarFacts.valid_month_end_of|done]|].
      unfold Calendar.date_le.
      rewrite !CalendarFacts.date_leb_ordinal
        by auto using CalendarFacts.valid_month_end_of.
      split; apply Z.leb_le.
      * apply CalendarFacts.month_end_ge_iff; [done|]. unfold first in Hi. lia.
      * apply CalendarFacts.month_end_le_iff; [done|]. unfold len in Hi. lia.
    + intros ([Hv Hd] & Hsd & Hde).
      assert (Calendar.is_on_offset d = true) as Hon
        by (by apply Z.eqb_eq).
      exists (Calendar.month_index d).
      split; [symmetry; by apply CalendarFacts.on_offset_is_month_end|].
      apply list_elem_of_In, elem_of_seqZ.
      unfold Calendar.date_le in *.
      rewrite CalendarFacts.date_leb_ordinal in Hsd, Hde by done.
      apply Z.leb_le in Hsd, Hde.
      rewrite (CalendarFacts.on_offset_is_month_end d Hv Hon) in Hsd, Hde.
      apply CalendarFacts.month_end_ge_iff in Hsd; [|done].
      apply CalendarFacts.month_end_le_iff in Hde; [|done].
      unfold first, len. lia.
  - rewrite map_map.
    apply (NoDup_fmap_2_strong (fun i => year_month (Calendar.month_end_of i))).
    + intros i j _ _. apply year_month_month_end_inj.
    + apply NoDup_seqZ.
Qed.

Lemma time_bounds_to_year_month_month_ends_witness :
  exists boundaries : list Calendar.date,
    time_bounds_to_year_month
      (mkTimeBounds (Calendar.mkdate 2019 11 15) (Calendar.mkdate 2020 3 30))
    = map year_month boundaries
    /\ StronglySorted Calendar.date_lt boundaries
    /\ (forall d, In d boundaries <->
                  month_end_boundary d
                  /\ Calendar.date_le (Calendar.mkdate 2019 11 15) d
                  /\ Calendar.date_le d (Calendar.mkdate 2020 3 30))
    /\ NoDup (time_bounds_to_year_month
                (mkTimeBounds (Calendar.mkdate 2019 11 15)
                              (Calendar.mkdate 2020 3 30))).
Proof.
  apply (time_bounds_to_year_month_month_ends
           (mkTimeBounds (Calendar.mkdate 2019 11 15) (Calendar.mkdate 2020 3 30)));
    unfold Calendar.valid_date, Calendar.representable; cbn; lia.
Defined.

(** * Python dictionaries *)

Lemma lookup_map {A B} (f : A -> B) (l : list A) (i : nat) :
  map f l !! i = f <$> l !! i.
Proof.
  revert i. induction l as [|x l IH]; intros [|i]; simpl; auto.
Qed.

Lemma bind_Ok {A B} (m : result A) (f : A -> result B) b :
  m ≫= f = Ok b -> exists a, m = Ok a /\ f a = Ok b.
Proof. destruct m; simpl; [eauto|discriminate]. Qed.

Lemma getitem_Ok {V} (d : dict V) k v : getitem d k = Ok v <-> dict_get d k = Some v.
Proof. unfold getitem. destruct (dict_get d k); split; congruence. Qed.

Lemma dict_get_Some_In {V} (d : dict V) k v : dict_get d k = Some v -> In (k, v) d.
Proof.
  induction d as [|[k' v'] d IH]; simpl; [done|].
  destruct (String.eqb_spec k' k) as [->|Hne].
  - intros [= ->]. by left.
  - intros H. right. by apply IH.
Qed.

Lemma dict_get_None {V} (d : dict V) k : dict_get d k = None <-> ~ In k (dict_keys d).
Proof.
  induction d as [|[k' v'] d IH]; simpl; [tauto|].
  destruct (String.eqb_spec k' k) as [->|Hne].
  - split; [done|]. intros H. destruct H. by left.
  - rewrite IH. tauto.
Qed.

Lemma dict_mem_In {V} (d : dict V) k : dict_mem d k = true <-> In k (dict_keys d).
Proof.
  unfold dict_mem. destruct (dict_get d k) eqn:E.
  - split; [|done]. intros _. apply dict_get_Some_In in E.
    apply in_map_iff. by exists (k, v).
  - apply dict_get_None in E. split; [done|tauto].
Qed.

Lemma In_dict_get {V} (d : dict V) k v :
  NoDup (dict_keys d) -> In (k, v) d -> dict_get d k = Some v.
Proof.
  induction d as [|[k' v'] d IH]; simpl; [done|].
  intros Hnd [[= -> ->]|Hin].
  - by rewrite String.eqb_refl.
  - apply NoDup_cons in Hnd as [Hk' Hnd].
    destruct (String.eqb_spec k' k) as [->|Hne]; [|by apply IH].
    destruct Hk'. apply list_elem_of_In, in_map_iff. by exists (k, v).
Qed.

Lemma dict_get_set_eq {V} (d : dict V) k v : dict_get (dict_set d k v) k = Some v.
Proof.
  induction d as [|[k' v'] d IH]; simpl.
  - by rewrite String.eqb_refl.
  - destruct (String.eqb_spec k' k) as [->|Hne]; simpl.
    + by rewrite String.eqb_refl.
    + by destruct (String.eqb_spec k' k).
Qed.

Lemma dict_get_set_ne {V} (d : dict V) k k' v :
  k <> k' -> dict_get (dict_set d k v) k' = dict_get d k'.
Proof.
  intros Hne. induction d as [|[k0 v0] d IH]; simpl.
  - by destruct (String.eqb_spec k k').
  - destruct (String.eqb_spec k0 k) as [->|Hne0]; simpl.
    + by destruct (String.eqb_spec k k').
    + by rewrite IH.
Qed.

(** * Normaliser *)

(** No canonical name is itself a raw code of the registry. *)
Lemma canonical_not_registered k c :
  dict_get var_reference_era5_to_zampy k = Some c ->
  dict_get var_reference_era5_to_zampy c = None.
Proof.
  intros H. apply dict_get_Some_In in H. simpl in H.
  repeat (destruct H as [[= <- <-]|H]; [reflexivity|]). destruct H.
Qed.

Lemma canonical_ne_raw k c : dict_get var_reference_era5_to_zampy k = Some c -> c <> k.
Proof.
  intros H ->. pose proof (canonical_not_registered _ _ H). congruence.
Qed.

(** Distinct raw codes have distinct canonical names. *)
Lemma canonical_inj k1 k2 c :
  dict_get var_reference_era5_to_zampy k1 = Some c ->
  dict_get var_reference_era5_to_zampy k2 = Some c ->
  k1 = k2.
Proof.
  intros H1 H2. apply dict_get_Some_In in H1, H2. simpl in H1, H2.
  repeat (destruct H1 as [H1|H1];
          [injection H1 as <- <-;
           repeat (destruct H2 as [H2|H2]; [congruence|]); destruct H2|]).
  destruct H1.
Qed.

Section NormalizerFacts.

Context {Values Unit : Type}.
Variable divide : Values -> Q -> Values.
Variable unit_str : Unit -> string.
Variable pint_to : string -> Unit -> Values -> result Values.
Variable keep_attrs : bool.
Variable VARIABLE_REFERENCE_LOOKUP : dict (VariableRef.t Unit).

Lemma normalise_array_unfold c (da : @DataArray Values) :
  normalise_array divide unit_str pint_to keep_attrs
                  VARIABLE_REFERENCE_LOOKUP c da
  = (da ← (if is_radiation c then
             Ok (truediv divide keep_attrs da (3600 # 1))
           else if String.eqb c "total_precipitation" then
             let da := truediv divide keep_attrs da WATER_DENSITY in
             ref ← getitem VARIABLE_REFERENCE_LOOKUP c;
             converted ← pint_to "meter_per_second" (VariableRef.unit ref)
                                 (values da);
             Ok (mkDataArray converted
                             (dict_set (attrs da) "units" "meter_per_second"))
           else Ok da);
     ref ← getitem VARIABLE_REFERENCE_LOOKUP c;
     Ok (mkDataArray (values da)
           (dict_set (dict_set (attrs da) "units"
                               (unit_str (VariableRef.unit ref)))
                     "description" (VariableRef.desc ref)))).
Proof. reflexivity. Qed.

Lemma normalised_unfold (old new : string * @DataArray Values) :
  normalised divide unit_str pint_to keep_attrs VARIABLE_REFERENCE_LOOKUP
             old new
  <-> match dict_get var_reference_era5_to_zampy (fst old) with
      | Some c =>
          fst new = c
          /\ normalise_array divide unit_str pint_to keep_attrs
                             VARIABLE_REFERENCE_LOOKUP c (snd old)
             = Ok (snd new)
      | None => new = old
      end.
Proof. reflexivity. Qed.

Lemma parse_variable_unfold n (ds : @Dataset Values) :
  parse_variable divide unit_str pint_to keep_attrs
                 VARIABLE_REFERENCE_LOOKUP n ds
  = match dict_get var_reference_era5_to_zampy n with
    | None => Ok ds
    | Some c =>
        ds ← rename ds n c;
        ds ← (if is_radiation c then
                da ← getitem ds c;
                Ok (dict_set ds c (truediv divide keep_attrs da (3600 # 1)))
              else if String.eqb c "total_precipitation" then
                da ← getitem ds c;
                let ds :=
                  dict_set ds c (truediv divide keep_attrs da WATER_DENSITY) in
                ds ← set_attr ds c "units" "meter_per_second";
                ref ← getitem VARIABLE_REFERENCE_LOOKUP c;
                _convert_var pint_to ds c (VariableRef.unit ref)
              else Ok ds);
        ref ← getitem VARIABLE_REFERENCE_LOOKUP c;
        ds ← set_attr ds c "units" (unit_str (VariableRef.unit ref));
        ref ← getitem VARIABLE_REFERENCE_LOOKUP c;
        set_attr ds c "description" (VariableRef.desc ref)
    end.
Proof. reflexivity. Qed.

Local Abbreviation parse_variable :=
  (parse_variable divide unit_str pint_to keep_attrs VARIABLE_REFERENCE_LOOKUP).
Local Abbreviation parse_variables :=
  (parse_variables divide unit_str pint_to keep_attrs VARIABLE_REFERENCE_LOOKUP).
Local Abbreviation normalise_array :=
  (normalise_array divide unit_str pint_to keep_attrs VARIABLE_REFERENCE_LOOKUP).
Local Abbreviation normalised :=
  (normalised divide unit_str pint_to keep_attrs VARIABLE_REFERENCE_LOOKUP).
Local Abbreviation Dataset := (@Dataset Values).
Local Abbreviation DataArray := (@DataArray Values).

Implicit Types (ds : Dataset) (da : DataArray).

Lemma dict_keys_replace_entry n c da ds :
  dict_keys (replace_entry n (c, da) ds)
  = map (fun k => if String.eqb k n then c else k) (dict_keys ds).
Proof.
  unfold dict_keys, replace_entry. rewrite !map_map. apply map_ext.
  intros [k v]. simpl. by destruct (String.eqb k n).
Qed.

Lemma rename_replace ds n c da :
  NoDup (dict_keys ds) -> dict_get ds n = Some da ->
  ~ In c (dict_keys ds) ->
  rename ds n c = Ok (replace_entry n (c, da) ds).
Proof.
  intros Hnd Hn Hc. unfold rename.
  assert (dict_mem ds n = true) as ->.
  { apply dict_mem_In. apply dict_get_Some_In in Hn.
    apply in_map_iff. by exists (n, da). }
  assert (dict_mem ds c = false) as ->.
  { destruct (dict_mem ds c) eqn:E; [|done]. by apply dict_mem_In in E. }
  simpl. f_equal. unfold replace_entry. apply map_ext_in.
  intros [k v] Hin. simpl. destruct (String.eqb_spec k n) as [->|]; [|done].
  apply In_dict_get in Hin; [|done]. congruence.
Qed.

Lemma rename_absent ds n c : dict_get ds n = None -> rename ds n c = Err (ValueError "cannot rename: not a variable in this dataset").
Proof. intros H. unfold rename, dict_mem. by rewrite H. Qed.

Lemma rename_conflict ds n c :
  In n (dict_keys ds) -> In c (dict_keys ds) -> c <> n ->
  rename ds n c = Err (ValueError "the new name conflicts").
Proof.
  intros Hn Hc Hne. unfold rename.
  apply dict_mem_In in Hn, Hc. rewrite Hn, Hc. simpl.
  by destruct (String.eqb_spec c n).
Qed.

Lemma dict_get_replace_entry ds n c da :
  In n (dict_keys ds) -> ~ In c (dict_keys ds) ->
  dict_get (replace_entry n (c, da) ds) c = Some da.
Proof.
  induction ds as [|[k v] ds IH]; simpl; [done|].
  intros Hn Hc. destruct (String.eqb_spec k n) as [->|Hkn]; simpl.
  - by rewrite String.eqb_refl.
  - destruct (String.eqb_spec k c) as [->|Hkc]; [tauto|].
    apply IH; tauto.
Qed.

Lemma dict_set_replace_entry ds n c da da' :
  NoDup (dict_keys ds) -> In n (dict_keys ds) -> ~ In c (dict_keys ds) ->
  dict_set (replace_entry n (c, da) ds) c da' = replace_entry n (c, da') ds.
Proof.
  induction ds as [|[k v] ds IH]; simpl; [done|].
  intros Hnd Hn Hc. apply NoDup_cons in Hnd as [Hk Hnd].
  destruct (String.eqb_spec k n) as [->|Hkn]; simpl.
  - rewrite String.eqb_refl. f_equal.
    unfold replace_entry. apply map_ext_in. intros [k' v'] Hin. simpl.
    destruct (String.eqb_spec k' n) as [->|]; [|done].
    destruct Hk. apply list_elem_of_In, in_map_iff. by exists (n, v').
  - destruct (String.eqb_spec k c) as [->|Hkc]; [tauto|].
    f_equal. apply IH; tauto.
Qed.

Lemma set_attr_replace_entry ds n c da key value :
  NoDup (dict_keys ds) -> In n (dict_keys ds) -> ~ In c (dict_keys ds) ->
  set_attr (replace_entry n (c, da) ds) c key value
  = Ok (replace_entry n
          (c, mkDataArray (values da) (dict_set (attrs da) key value)) ds).
Proof.
  intros Hnd Hn Hc. unfold set_attr, getitem.
  rewrite dict_get_replace_entry by done. simpl.
  by rewrite dict_set_replace_entry.
Qed.

Lemma getitem_replace_entry ds n c da :
  In n (dict_keys ds) -> ~ In c (dict_keys ds) ->
  getitem (replace_entry n (c, da) ds) c = Ok da.
Proof. intros. unfold getitem. by rewrite dict_get_replace_entry. Qed.

Lemma convert_var_replace_entry ds n c da u :
  NoDup (dict_keys ds) -> In n (dict_keys ds) -> ~ In c (dict_keys ds) ->
  _convert_var pint_to (replace_entry n (c, da) ds) c u
  = (old_unit ← getitem (attrs da) "units";
     converted ← pint_to old_unit u (values da);
     Ok (replace_entry n (c, mkDataArray converted (attrs da)) ds)).
Proof.
  intros Hnd Hn Hc. unfold _convert_var.
  rewrite getitem_replace_entry by done. cbn [mbind result_bind].
  destruct (getitem (attrs da) "units") as [old|e]; [|done].
  cbn [mbind result_bind].
  destruct (pint_to old u (values da)) as [converted|e]; [|done].
  cbn [mbind result_bind]. by rewrite dict_set_replace_entry.
Qed.

(** The body of the loop on a registered variable of the dataset. *)
Lemma parse_variable_registered ds n c da :
  NoDup (dict_keys ds) ->
  dict_get var_reference_era5_to_zampy n = Some c ->
  dict_get ds n = Some da -> ~ In c (dict_keys ds) ->
  parse_variable n ds
  = (da' ← normalise_array c da; Ok (replace_entry n (c, da') ds)).
Proof.
  intros Hnd Hreg Hn Hc.
  assert (In n (dict_keys ds)) as Hin.
  { apply dict_get_Some_In in Hn. apply in_map_iff. by exists (n, da). }
  rewrite parse_variable_unfold, normalise_array_unfold. rewrite Hreg.
  rewrite (rename_replace ds n c da) by done. cbn [mbind result_bind].
  destruct (is_radiation c).
  - rewrite getitem_replace_entry by done. cbn [mbind result_bind].
    rewrite dict_set_replace_entry by done.
    destruct (getitem VARIABLE_REFERENCE_LOOKUP c) as [ref|e];
      cbn [mbind result_bind]; [|done].
    rewrite set_attr_replace_entry by done. cbn [mbind result_bind].
    rewrite set_attr_replace_entry by done. done.
  - destruct (String.eqb c "total_precipitation").
    + rewrite getitem_replace_entry by done. cbn [mbind result_bind].
      cbv zeta.
      rewrite dict_set_replace_entry by done.
      rewrite set_attr_replace_entry by done. cbn [mbind result_bind].
      destruct (getitem VARIABLE_REFERENCE_LOOKUP c) as [ref|e];
        cbn [mbind result_bind]; [|done].
      rewrite convert_var_replace_entry by done.
      cbn [values attrs]. unfold getitem at 1. rewrite dict_get_set_eq.
      cbn [mbind result_bind].
      destruct (pint_to _ _ _) as [converted|e]; cbn [mbind result_bind]; [|done].
      rewrite set_attr_replace_entry by done. cbn [mbind result_bind].
      rewrite set_attr_replace_entry by done. done.
    + cbn [mbind result_bind].
      destruct (getitem VARIABLE_REFERENCE_LOOKUP c) as [ref|e];
        cbn [mbind result_bind]; [|done].
      rewrite set_attr_replace_entry by done. cbn [mbind result_bind].
      rewrite set_attr_replace_entry by done. done.
Qed.

Lemma parse_variable_unregistered ds n :
  dict_get var_reference_era5_to_zampy n = None -> parse_variable n ds = Ok ds.
Proof. intros H. rewrite parse_variable_unfold. by rewrite H. Qed.

Lemma parse_variable_absent ds n c :
  dict_get var_reference_era5_to_zampy n = Some c ->
  dict_get ds n = None ->
  parse_variable n ds
  = Err (ValueError "cannot rename: not a variable in this dataset").
Proof.
  intros Hreg Hn. rewrite parse_variable_unfold, Hreg.
  by rewrite rename_absent.
Qed.

(** A variable whose canonical name is already taken cannot be renamed. *)
Lemma parse_variable_conflict ds n c :
  dict_get var_reference_era5_to_zampy n = Some c ->
  In n (dict_keys ds) -> In c (dict_keys ds) ->
  parse_variable n ds = Err (ValueError "the new name conflicts").
Proof.
  intros Hreg Hn Hc. rewrite parse_variable_unfold, Hreg.
  rewrite rename_conflict; [done..|]. by apply canonical_ne_raw.
Qed.

Lemma parse_variable_Ok ds n c ds' :
  NoDup (dict_keys ds) ->
  dict_get var_reference_era5_to_zampy n = Some c ->
  parse_variable n ds = Ok ds' ->
  exists da da',
    dict_get ds n = Some da /\ ~ In c (dict_keys ds)
    /\ normalise_array c da = Ok da'
    /\ ds' = replace_entry n (c, da') ds.
Proof.
  intros Hnd Hreg Hok.
  destruct (dict_get ds n) as [da|] eqn:Hn.
  2:{ rewrite (parse_variable_absent ds n c) in Hok by done. discriminate. }
  assert (In n (dict_keys ds)) as Hin.
  { apply dict_get_Some_In in Hn. apply in_map_iff. by exists (n, da). }
  destruct (In_dec String.string_dec c (dict_keys ds)) as [Hc|Hc].
  { rewrite (parse_variable_conflict ds n c) in Hok by done. discriminate. }
  rewrite (parse_variable_registered ds n c da) in Hok by done.
  apply bind_Ok in Hok as (da' & Hda' & [= <-]). by exists da, da'.
Qed.

Lemma NoDup_keys_replace_entry ds n c da :
  NoDup (dict_keys ds) -> ~ In c (dict_keys ds) ->
  NoDup (dict_keys (replace_entry n (c, da) ds)).
Proof.
  intros Hnd Hc. rewrite dict_keys_replace_entry.
  revert Hnd Hc. generalize (dict_keys ds) as ks.
  induction ks as [|k ks IH]; simpl; [constructor|].
  intros Hnd Hc. apply NoDup_cons in Hnd as [Hk Hnd].
  assert (NoDup (map (fun k => if String.eqb k n then c else k) ks)) as IH'
    by (apply IH; tauto).
  apply NoDup_cons. split; [|done].
  rewrite list_elem_of_In, in_map_iff. intros (k' & Hk' & Hin).
  revert Hk'.
  destruct (String.eqb_spec k n) as [->|Hkn];
    destruct (String.eqb_spec k' n) as [->|Hk'n]; intros Hk'.
  - apply Hk. by apply list_elem_of_In.
  - subst. tauto.
  - subst. tauto.
  - subst. apply Hk. by apply list_elem_of_In.
Qed.

(** The loop over [names] normalises the entries they name, in place,
    and leaves the others as they are. *)
Lemma parse_variables_spec names ds ds' :
  NoDup (dict_keys ds) ->
  parse_variables names ds = Ok ds' ->
  Forall2 (fun old new =>
             (In (fst old) names -> normalised old new)
             /\ (~ In (fst old) names -> new = old)) ds ds'
  /\ NoDup (dict_keys ds').
Proof.
  revert ds. induction names as [|n rest IH]; intros ds Hnd Hok.
  - simpl in Hok. injection Hok as <-. split; [|done].
    apply Forall2_same_length_lookup. split; [done|].
    intros i x y Hx Hy. simpl. split; [tauto|congruence].
  - simpl in Hok. apply bind_Ok in Hok as (ds1 & Hstep & Hrest).
    destruct (dict_get var_reference_era5_to_zampy n) as [c|] eqn:Hreg.
    + apply (parse_variable_Ok ds n c ds1) in Hstep
        as (da & da' & Hn & Hc & Hnorm & ->); [|done..].
      apply IH in Hrest as [Hall Hnd']; [|by apply NoDup_keys_replace_entry].
      split; [|done].
      apply Forall2_same_length_lookup in Hall as [Hlen Hall].
      apply Forall2_same_length_lookup. split.
      { rewrite <- Hlen. unfold replace_entry. by rewrite length_map. }
      intros i old new Hold Hnew.
      specialize (Hall i (if String.eqb (fst old) n then (c, da') else old) new).
      destruct Hall as [Hin Hnin]; [|done|].
      { unfold replace_entry. by rewrite lookup_map, Hold. }
      destruct (String.eqb_spec (fst old) n) as [Heq|Hne].
      * assert (new = (c, da')) as ->.
        { pose proof (canonical_not_registered _ _ Hreg) as Hcn.
          destruct (In_dec String.string_dec c rest) as [Hcr|Hcr]; [|by apply Hnin].
          specialize (Hin Hcr). apply (proj1 (normalised_unfold _ _)) in Hin.
          cbn [fst] in Hin. by rewrite Hcn in Hin. }
        assert (old = (n, da)) as ->.
        { destruct old as [k v]. simpl in Heq. subst k. f_equal.
          apply list_elem_of_lookup_2, list_elem_of_In, In_dict_get in Hold;
            [|done]. congruence. }
        split; [|intros []; by left].
        intros _. apply (proj2 (normalised_unfold _ _)). cbn [fst snd].
        by rewrite Hreg.
      * simpl. split.
        -- intros [?|?]; [congruence|by apply Hin].
        -- intros Hni. apply Hnin. tauto.
    + rewrite parse_variable_unregistered in Hstep by done.
      injection Hstep as <-.
      apply IH in Hrest as [Hall Hnd']; [|done]. split; [|done].
      eapply Forall2_impl; [exact Hall|].
      intros old new [Hin Hnin]. simpl. split.
      * intros [Heq|Hr]; [|by apply Hin].
        destruct (In_dec String.string_dec (fst old) rest) as [Hr|Hr];
          [by apply Hin|].
        apply (proj2 (normalised_unfold _ _)). rewrite <- Heq, Hreg.
        by apply Hnin.
      * intros Hni. apply Hnin. tauto.
Qed.

(** The whole loop: every entry of the opened dataset is normalised in
    place, and the variable names of the result are distinct. *)
Lemma parse_dataset_spec ds ds' :
  NoDup (dict_keys ds) ->
  parse_variables (dict_keys ds) ds = Ok ds' ->
  Forall2 normalised ds ds' /\ NoDup (dict_keys ds').
Proof.
  intros Hnd Hok. apply parse_variables_spec in Hok as [Hall Hnd']; [|done].
  split; [|done].
  apply Forall2_same_length_lookup in Hall as [Hlen Hall].
  apply Forall2_same_length_lookup. split; [done|].
  intros i old new Hold Hnew. apply (Hall i old new Hold Hnew).
  apply list_elem_of_lookup_2, list_elem_of_In in Hold.
  by apply (in_map fst) in Hold.
Qed.

Lemma normalised_entry ds ds' i k da :
  Forall2 normalised ds ds' -> NoDup (dict_keys ds') ->
  ds !! i = Some (k, da) ->
  exists new,
    ds' !! i = Some new /\ normalised (k, da) new
    /\ dict_get ds' (fst new) = Some (snd new).
Proof.
  intros Hall Hnd' Hold.
  destruct (Forall2_lookup_l _ _ _ _ _ Hall Hold) as (new & Hnew & Hrel).
  exists new. split; [done|]. split; [done|].
  apply In_dict_get; [done|]. destruct new.
  by apply list_elem_of_lookup_2, list_elem_of_In in Hnew.
Qed.

Lemma dict_get_lookup {V} (d : dict V) k v :
  dict_get d k = Some v -> exists i, d !! i = Some (k, v).
Proof.
  intros H. apply dict_get_Some_In, list_elem_of_In in H.
  by apply list_elem_of_lookup_1.
Qed.

Lemma normalise_array_units c da da' :
  normalise_array c da = Ok da' ->
  exists ref,
    dict_get VARIABLE_REFERENCE_LOOKUP c = Some ref
    /\ dict_get (attrs da') "units" = Some (unit_str (VariableRef.unit ref))
    /\ dict_get (attrs da') "description" = Some (VariableRef.desc ref).
Proof.
  rewrite normalise_array_unfold. intros H.
  apply bind_Ok in H as (da1 & _ & H).
  apply bind_Ok in H as (ref & Href & [= <-]).
  exists ref. split; [by apply getitem_Ok|]. cbn [attrs]. split.
  - rewrite dict_get_set_ne by done. apply dict_get_set_eq.
  - apply dict_get_set_eq.
Qed.

Lemma normalise_array_radiation c da da' :
  is_radiation c = true -> normalise_array c da = Ok da' ->
  values da' = divide (values da) (3600 # 1).
Proof.
  rewrite normalise_array_unfold. intros -> H.
  cbn [mbind result_bind] in H.
  apply bind_Ok in H as (ref & Href & [= <-]). done.
Qed.

Lemma normalise_array_precipitation da da' :
  normalise_array "total_precipitation" da = Ok da' ->
  exists ref,
    dict_get VARIABLE_REFERENCE_LOOKUP "total_precipitation" = Some ref
    /\ pint_to "meter_per_second" (VariableRef.unit ref)
               (divide (values da) WATER_DENSITY)
       = Ok (values da').
Proof.
  rewrite normalise_array_unfold. intros H.
  change (is_radiation "total_precipitation") with false in H.
  change (String.eqb "total_precipitation" "total_precipitation")
    with true in H.
  cbv zeta in H.
  apply bind_Ok in H as (da1 & H1 & H).
  apply bind_Ok in H1 as (ref & Href & H1).
  apply bind_Ok in H1 as (converted & Hconv & [= <-]).
  apply bind_Ok in H as (ref' & _ & [= <-]).
  exists ref. split; [by apply getitem_Ok|]. done.
Qed.

Lemma parse_variables_unregistered names ds :
  (forall n, In n names -> dict_get var_reference_era5_to_zampy n = None) ->
  parse_variables names ds = Ok ds.
Proof.
  induction names as [|n rest IH]; intros H; simpl; [done|].
  rewrite parse_variable_unregistered by (apply H; by left).
  cbn [mbind result_bind]. apply IH. intros. apply H. by right.
Qed.

(** No variable of a parsed dataset is named by a raw code. *)
Lemma parsed_names_unregistered ds ds' :
  Forall2 normalised ds ds' ->
  forall n, In n (dict_keys ds') -> dict_get var_reference_era5_to_zampy n = None.
Proof.
  intros Hall n Hn. apply in_map_iff in Hn as (new & <- & Hnew).
  apply list_elem_of_In, list_elem_of_lookup_1 in Hnew as [i Hnew].
  destruct (Forall2_lookup_r _ _ _ _ _ Hall Hnew) as (old & Hold & Hrel).
  apply (proj1 (normalised_unfold _ _)) in Hrel.
  destruct (dict_get var_reference_era5_to_zampy (fst old)) as [c|] eqn:Hreg.
  - destruct Hrel as [-> _]. by eapply canonical_not_registered.
  - by subst.
Qed.

Lemma dict_get_replace_entry_ne ds n c da m :
  m <> n -> m <> c ->
  dict_get (replace_entry n (c, da) ds) m = dict_get ds m.
Proof.
  intros Hn Hc. induction ds as [|[k v] ds IH]; simpl; [done|].
  destruct (String.eqb_spec k n) as [->|Hkn]; simpl.
  - destruct (String.eqb_spec c m); [congruence|].
    destruct (String.eqb_spec n m); [congruence|]. done.
  - destruct (String.eqb_spec k m); done.
Qed.

(** The loop completes when every registered variable it is to visit is
    in the dataset, its canonical name is free, and its array can be
    normalised. *)
Lemma parse_variables_succeeds names ds :
  NoDup names -> NoDup (dict_keys ds) ->
  (forall n c, In n names ->
     dict_get var_reference_era5_to_zampy n = Some c ->
     exists da da',
       dict_get ds n = Some da /\ ~ In c (dict_keys ds)
       /\ normalise_array c da = Ok da') ->
  exists ds', parse_variables names ds = Ok ds'.
Proof.
  revert ds. induction names as [|n rest IH]; intros ds Hnames Hnd Hall.
  { by exists ds. }
  apply NoDup_cons in Hnames as [Hn Hrest]. simpl.
  destruct (dict_get var_reference_era5_to_zampy n) as [c|] eqn:Hreg.
  - destruct (Hall n c) as (da & da' & Hda & Hc & Hnorm); [by left|done|].
    rewrite (parse_variable_registered ds n c da) by done.
    rewrite Hnorm. cbn [mbind result_bind].
    apply IH; [done|by apply NoDup_keys_replace_entry|].
    intros m cm Hm Hregm.
    destruct (Hall m cm) as (dam & dam' & Hdam & Hcm & Hnormm);
      [by right|done|].
    assert (m <> n) by (intros ->; apply Hn; by apply list_elem_of_In).
    assert (m <> c).
    { intros ->. pose proof (canonical_not_registered _ _ Hreg). congruence. }
    exists dam, dam'. split; [by rewrite dict_get_replace_entry_ne|].
    split; [|done].
    rewrite dict_keys_replace_entry, in_map_iff. intros (k & Hk & Hin).
    revert Hk. destruct (String.eqb_spec k n) as [->|Hkn]; intros Hk.
    + subst cm. by pose proof (canonical_inj _ _ _ Hreg Hregm).
    + by subst k.
  - rewrite parse_variable_unregistered by done. cbn [mbind result_bind].
    apply IH; [done..|]. intros m cm Hm. apply Hall. by right.
Qed.

Lemma normalise_array_succeeds c da ref :
  dict_get VARIABLE_REFERENCE_LOOKUP c = Some ref ->
  (c = "total_precipitation" ->
   exists converted,
     pint_to "meter_per_second" (VariableRef.unit ref)
             (divide (values da) WATER_DENSITY) = Ok converted) ->
  exists da', normalise_array c da = Ok da'.
Proof.
  intros Href Hconv. rewrite normalise_array_unfold.
  apply getitem_Ok in Href.
  destruct (is_radiation c).
  { cbn [mbind result_bind]. rewrite Href. by eexists. }
  destruct (String.eqb_spec c "total_precipitation") as [->|Hne].
  - destruct Hconv as [converted Hconv]; [done|]. cbv zeta.
    rewrite Href. cbn [mbind result_bind VariableRef.unit truediv values].
    rewrite Hconv. cbn [mbind result_bind]. by eexists.
  - cbn [mbind result_bind]. rewrite Href. by eexists.
Qed.

Variable open_dataset : list string -> result Dataset.

Lemma parse_nc_file_unfold file :
  parse_nc_file divide unit_str pint_to keep_attrs VARIABLE_REFERENCE_LOOKUP
                open_dataset file
  = (ds ← open_dataset file; parse_variables (dict_keys ds) ds).
Proof. reflexivity. Qed.

Local Abbreviation parse_nc_file :=
  (parse_nc_file divide unit_str pint_to keep_attrs VARIABLE_REFERENCE_LOOKUP
                 open_dataset).

(** Parsing returns a dataset whenever the file opens with distinct
    variable names, the canonical name of each registered variable is not
    taken by another variable and has an entry in the variable reference,
    and the precipitation rate, if there is one, can be converted. *)
Lemma parse_nc_file_succeeds file ds :
  open_dataset file = Ok ds -> NoDup (dict_keys ds) ->
  (forall n c, In n (dict_keys ds) ->
     dict_get var_reference_era5_to_zampy n = Some c ->
     ~ In c (dict_keys ds)
     /\ exists ref, dict_get VARIABLE_REFERENCE_LOOKUP c = Some ref) ->
  (forall da ref,
     dict_get ds "mtpr" = Some da ->
     dict_get VARIABLE_REFERENCE_LOOKUP "total_precipitation" = Some ref ->
     exists converted,
       pint_to "meter_per_second" (VariableRef.unit ref)
               (divide (values da) WATER_DENSITY) = Ok converted) ->
  exists ds', parse_nc_file file = Ok ds'.
Proof.
  intros Hopen Hnd Hfree Hconv.
  rewrite parse_nc_file_unfold, Hopen. cbn [mbind result_bind].
  apply parse_variables_succeeds; [done..|].
  intros n c Hn Hreg. destruct (Hfree n c Hn Hreg) as (Hc & ref & Href).
  destruct (dict_get ds n) as [da|] eqn:Hda.
  2:{ by apply dict_get_None in Hda. }
  destruct (normalise_array_succeeds c da ref Href) as [da' Hda'].
  { intros ->. apply (Hconv da ref); [|done].
    assert (n = "mtpr") as -> by (by apply (canonical_inj _ _ _ Hreg)). done. }
  by exists da, da'.
Qed.

(** C4: when the opened file holds a variable under the raw code of
    total precipitation ([mtpr]) with values [V], the parsed dataset holds
    it as [total_precipitation]; its values are [V / 997.0] converted by
    the unit-conversion step from metres per second to the unit the
    registry gives for [total_precipitation], and its [units] attribute
    is the string of that unit. *)
Theorem precipitation_rescaled file ds ds' raw da :
  open_dataset file = Ok ds -> NoDup (dict_keys ds) ->
  parse_nc_file file = Ok ds' ->
  dict_get var_reference_era5_to_zampy raw = Some "total_precipitation" ->
  dict_get ds raw = Some da ->
  exists ref da',
    dict_get VARIABLE_REFERENCE_LOOKUP "total_precipitation" = Some ref
    /\ dict_get ds' "total_precipitation" = Some da'
    /\ pint_to "meter_per_second" (VariableRef.unit ref)
               (divide (values da) (997 # 1))
       = Ok (values da')
    /\ dict_get (attrs da') "units" = Some (unit_str (VariableRef.unit ref)).
Proof.
  intros Hopen Hnd Hparse Hreg Hda.
  rewrite parse_nc_file_unfold, Hopen in Hparse. cbn [mbind result_bind] in Hparse.
  apply parse_dataset_spec in Hparse as [Hall Hnd']; [|done].
  apply dict_get_lookup in Hda as [i Hi].
  destruct (normalised_entry _ _ _ _ _ Hall Hnd' Hi)
    as ([k da'] & _ & Hrel & Hget).
  apply (proj1 (normalised_unfold _ _)) in Hrel. cbn [fst snd] in *.
  rewrite Hreg in Hrel. destruct Hrel as [-> Hnorm].
  destruct (normalise_array_precipitation _ _ Hnorm) as (ref & Href & Hconv).
  destruct (normalise_array_units _ _ _ Hnorm) as (ref' & Href' & Hunits & _).
  assert (ref' = ref) as -> by congruence.
  by exists ref, da'.
Qed.

(** C5: when the opened file holds a variable under a raw code that maps
    to [surface_solar_radiation_downwards] or
    [surface_thermal_radiation_downwards] with values [V], the parsed
    dataset holds it under that canonical name with values [V / 3600],
    and its [units] attribute is the string of the unit the registry
    gives for that name. *)
Theorem radiation_rescaled file ds ds' raw name da :
  open_dataset file = Ok ds -> NoDup (dict_keys ds) ->
  parse_nc_file file = Ok ds' ->
  dict_get var_reference_era5_to_zampy raw = Some name ->
  name = "surface_solar_radiation_downwards"
  \/ name = "surface_thermal_radiation_downwards" ->
  dict_get ds raw = Some da ->
  exists ref da',
    dict_get VARIABLE_REFERENCE_LOOKUP name = Some ref
    /\ dict_get ds' name = Some da'
    /\ values da' = divide (values da) (3600 # 1)
    /\ dict_get (attrs da') "units" = Some (unit_str (VariableRef.unit ref)).
Proof.
  intros Hopen Hnd Hparse Hreg Hname Hda.
  rewrite parse_nc_file_unfold, Hopen in Hparse. cbn [mbind result_bind] in Hparse.
  apply parse_dataset_spec in Hparse as [Hall Hnd']; [|done].
  apply dict_get_lookup in Hda as [i Hi].
  destruct (normalised_entry _ _ _ _ _ Hall Hnd' Hi)
    as ([k da'] & _ & Hrel & Hget).
  apply (proj1 (normalised_unfold _ _)) in Hrel. cbn [fst snd] in *.
  rewrite Hreg in Hrel. destruct Hrel as [-> Hnorm].
  destruct (normalise_array_units _ _ _ Hnorm) as (ref & Href & Hunits & _).
  exists ref, da'. repeat split; try done.
  apply (normalise_array_radiation name); [|done].
  by destruct Hname as [-> | ->].
Qed.

(** C6: a variable of the opened file whose name has no entry in the
    registry of raw codes is in the parsed dataset at the same place,
    under the same name, with the same values and the same attributes. *)
Theorem unregistered_variable_unchanged file ds ds' name da i :
  open_dataset file = Ok ds -> NoDup (dict_keys ds) ->
  parse_nc_file file = Ok ds' ->
  dict_get var_reference_era5_to_zampy name = None ->
  ds !! i = Some (name, da) ->
  ds' !! i = Some (name, da) /\ dict_get ds' name = Some da.
Proof.
  intros Hopen Hnd Hparse Hreg Hi.
  rewrite parse_nc_file_unfold, Hopen in Hparse. cbn [mbind result_bind] in Hparse.
  apply parse_dataset_spec in Hparse as [Hall Hnd']; [|done].
  destruct (normalised_entry _ _ _ _ _ Hall Hnd' Hi)
    as (new & Hnew & Hrel & Hget).
  apply (proj1 (normalised_unfold _ _)) in Hrel. cbn [fst snd] in *.
  rewrite Hreg in Hrel. subst new. done.
Qed.

(** C7: parsing is idempotent.  No variable name of a parsed dataset is
    a raw code of the registry, and parsing a file that holds a parsed
    dataset gives that dataset back: nothing is renamed, rescaled or
    stamped again. *)
Theorem parse_nc_file_idempotent file ds file' ds' :
  open_dataset file = Ok ds -> NoDup (dict_keys ds) ->
  parse_nc_file file = Ok ds' ->
  open_dataset file' = Ok ds' ->
  (forall name, In name (dict_keys ds') ->
                dict_get var_reference_era5_to_zampy name = None)
  /\ parse_nc_file file' = Ok ds'.
Proof.
  intros Hopen Hnd Hparse Hopen'.
  rewrite parse_nc_file_unfold, Hopen in Hparse. cbn [mbind result_bind] in Hparse.
  apply parse_dataset_spec in Hparse as [Hall Hnd']; [|done].
  pose proof (parsed_names_unregistered _ _ Hall) as Hnames.
  split; [done|].
  rewrite parse_nc_file_unfold, Hopen'. cbn [mbind result_bind].
  by apply parse_variables_unregistered.
Qed.

Lemma dict_keys_lookup {V} (d : list (string * V)) i k v :
  d !! i = Some (k, v) -> dict_keys d !! i = Some k.
Proof. intros H. unfold dict_keys. by rewrite lookup_map, H. Qed.

Lemma normalised_keys ds ds' :
  Forall2 normalised ds ds' ->
  dict_keys ds'
  = map (fun k => match dict_get var_reference_era5_to_zampy k with
                  | Some variable_name => variable_name
                  | None => k
                  end) (dict_keys ds).
Proof.
  induction 1 as [|old new ds ds' Hrel _ IH]; [done|].
  unfold dict_keys in *. cbn [map]. rewrite IH. f_equal.
  apply (proj1 (normalised_unfold _ _)) in Hrel.
  destruct (dict_get var_reference_era5_to_zampy (fst old)); [tauto|by subst].
Qed.

(** X10: exactly when parsing returns a dataset.  For a file that opens
    with distinct variable names, [parse_nc_file] returns a dataset if and
    only if, for every registered raw code among its variables, the
    canonical name is not already the name of a variable of the file and
    has an entry in the variable reference, and the precipitation rate, if
    the file has one, can be converted from metres per second to the unit
    of the reference; otherwise it raises. *)
Theorem parse_nc_file_returns_iff file ds :
  open_dataset file = Ok ds -> NoDup (dict_keys ds) ->
  (exists ds', parse_nc_file file = Ok ds')
  <-> (forall n c, In n (dict_keys ds) ->
         dict_get var_reference_era5_to_zampy n = Some c ->
         ~ In c (dict_keys ds)
         /\ exists ref, dict_get VARIABLE_REFERENCE_LOOKUP c = Some ref)
      /\ (forall da ref,
            dict_get ds "mtpr" = Some da ->
            dict_get VARIABLE_REFERENCE_LOOKUP "total_precipitation"
            = Some ref ->
            exists converted,
              pint_to "meter_per_second" (VariableRef.unit ref)
                      (divide (values da) WATER_DENSITY) = Ok converted).
Proof.
  intros Hopen Hnd. split.
  2:{ intros [Hfree Hconv]. by eapply parse_nc_file_succeeds. }
  intros [ds' Hparse].
  rewrite parse_nc_file_unfold, Hopen in Hparse. cbn [mbind result_bind] in Hparse.
  apply parse_dataset_spec in Hparse as [Hall Hnd']; [|done].
  split.
  - intros n c Hn Hreg.
    destruct (dict_get ds n) as [da|] eqn:Hda.
    2:{ by apply dict_get_None in Hda. }
    apply dict_get_lookup in Hda as [i Hi].
    destruct (normalised_entry _ _ _ _ _ Hall Hnd' Hi)
      as ([k da'] & Hnew & Hrel & _).
    apply (proj1 (normalised_unfold _ _)) in Hrel. cbn [fst snd] in Hrel.
    rewrite Hreg in Hrel. destruct Hrel as [-> Hnorm]. split.
    + intros Hc. apply in_map_iff in Hc as ([c' v] & Hc' & Hin).
      cbn [fst] in Hc'. subst c'.
      apply list_elem_of_In, list_elem_of_lookup_1 in Hin as [j Hj].
      destruct (normalised_entry _ _ _ _ _ Hall Hnd' Hj)
        as (new & Hnewj & Hrelj & _).
      apply (proj1 (normalised_unfold _ _)) in Hrelj. cbn [fst snd] in Hrelj.
      rewrite (canonical_not_registered _ _ Hreg) in Hrelj. subst new.
      pose proof (dict_keys_lookup _ _ _ _ Hnew) as Hci.
      pose proof (dict_keys_lookup _ _ _ _ Hnewj) as Hcj.
      assert (i = j) as -> by apply (NoDup_lookup _ _ _ _ Hnd' Hci Hcj).
      pose proof (eq_trans (eq_sym Hi) Hj) as [= Hnc _].
      by apply (canonical_ne_raw _ _ Hreg).
    + destruct (normalise_array_units _ _ _ Hnorm) as (ref & Href & _).
      by exists ref.
  - intros da ref Hda Href.
    apply dict_get_lookup in Hda as [i Hi].
    destruct (normalised_entry _ _ _ _ _ Hall Hnd' Hi)
      as ([k da'] & _ & Hrel & _).
    apply (proj1 (normalised_unfold _ _)) in Hrel. cbn [fst snd] in Hrel.
    change (dict_get var_reference_era5_to_zampy "mtpr")
      with (Some "total_precipitation") in Hrel.
    destruct Hrel as [_ Hnorm].
    destruct (normalise_array_precipitation _ _ Hnorm) as (ref' & Href' & Hconv).
    assert (ref' = ref) as -> by congruence.
    by exists (values da').
Qed.

(** X11: parsing keeps the variables in their places and renames exactly
    the registered ones.  The names of the parsed dataset are the names of
    the opened one, in the same order, each raw code of the registry
    replaced by its canonical name and every other name kept. *)
Theorem parse_nc_file_names file ds ds' :
  open_dataset file = Ok ds -> NoDup (dict_keys ds) ->
  parse_nc_file file = Ok ds' ->
  dict_keys ds'
  = map (fun k => match dict_get var_reference_era5_to_zampy k with
                  | Some variable_name => variable_name
                  | None => k
                  end) (dict_keys ds).
Proof.
  intros Hopen Hnd Hparse.
  rewrite parse_nc_file_unfold, Hopen in Hparse. cbn [mbind result_bind] in Hparse.
  apply parse_dataset_spec in Hparse as [Hall _]; [|done].
  by apply normalised_keys.
Qed.

(** X12: registered variables that are not rescaled.  For the raw codes
    of pressure, wind and temperature ([sp], [u10], [v10], [t2m], [d2m]) the
    parsed dataset holds the variable under its canonical name with the
    values it had; its [units] and [description] attributes are those of
    the variable reference, and every other attribute is as it was. *)
Theorem plain_variable_renamed_and_stamped file ds ds' raw da :
  open_dataset file = Ok ds -> NoDup (dict_keys ds) ->
  parse_nc_file file = Ok ds' ->
  In raw ["sp"; "u10"; "v10"; "t2m"; "d2m"] ->
  dict_get ds raw = Some da ->
  exists name ref da',
    dict_get var_reference_era5_to_zampy raw = Some name
    /\ dict_get VARIABLE_REFERENCE_LOOKUP name = Some ref
    /\ dict_get ds' name = Some da'
    /\ values da' = values da
    /\ dict_get (attrs da') "units" = Some (unit_str (VariableRef.unit ref))
    /\ dict_get (attrs da') "description" = Some (VariableRef.desc ref)
    /\ forall key, key <> "units" -> key <> "description" ->
         dict_get (attrs da') key = dict_get (attrs da) key.
Proof.
  intros Hopen Hnd Hparse Hraw Hda.
  rewrite parse_nc_file_unfold, Hopen in Hparse. cbn [mbind result_bind] in Hparse.
  apply parse_dataset_spec in Hparse as [Hall Hnd']; [|done].
  apply dict_get_lookup in Hda as [i Hi].
  destruct (normalised_entry _ _ _ _ _ Hall Hnd' Hi)
    as ([k da'] & _ & Hrel & Hget).
  apply (proj1 (normalised_unfold _ _)) in Hrel. cbn [fst snd] in *.
  assert (exists name,
             dict_get var_reference_era5_to_zampy raw = Some name
             /\ is_radiation name = false
             /\ String.eqb name "total_precipitation" = false)
    as (name & Hreg & Hrad & Hprec).
  { simpl in Hraw.
    repeat (destruct Hraw as [<-|Hraw]; [by eexists|]). destruct Hraw. }
  rewrite Hreg in Hrel. destruct Hrel as [-> Hnorm].
  destruct (normalise_array_units _ _ _ Hnorm) as (ref & Href & Hunits & Hdesc).
  exists name, ref, da'. repeat (split; [done|]).
  rewrite normalise_array_unfold, Hrad, Hprec in Hnorm.
  cbn [mbind result_bind] in Hnorm.
  apply bind_Ok in Hnorm as (ref' & _ & [= <-]). cbn [values attrs].
  split; [done|]. split; [exact Hunits|]. split; [exact Hdesc|].
  intros key Hu Hd. rewrite !dict_get_set_ne by done. done.
Qed.

End NormalizerFacts.

Example parse_fixture :
  Fixture.parse Fixture.open_dataset ["download"; "era5_2010-1.nc"]
  = Ok [ ("time", mkDataArray (0 # 1)%Q [("standard_name", "time")]);
         ("total_precipitation",
          mkDataArray (2000 # 1)%Q
            [ ("units", "millimeter / second");
              ("description", "Total precipitation") ]);
         ("surface_solar_radiation_downwards",
          mkDataArray (2 # 1)%Q
            [ ("units", "watt / meter ** 2");
              ("description", "Surface solar radiation") ]);
         ("surface_pressure",
          mkDataArray (101325 # 1)%Q
            [ ("units", "pascal"); ("description", "Surface pressure") ]);
         ("lai", mkDataArray (3 # 1)%Q [("units", "1")]) ].
Proof. reflexivity. Qed.

(** A file that holds both a raw code and its canonical name cannot be
    parsed: the rename is refused. *)
Example parse_conflict :
  Fixture.parse
    (fun _ => Ok [ ("sp", mkDataArray (1 # 1)%Q []);
                   ("surface_pressure", mkDataArray (2 # 1)%Q []) ]) []
  = Err (ValueError "the new name conflicts").
Proof. reflexivity. Qed.

Lemma fixture_nodup : NoDup (dict_keys Fixture.raw_dataset).
Proof. apply (bool_decide_unpack _). by vm_compute. Defined.

Lemma precipitation_rescaled_witness :
  exists ref da',
    dict_get Fixture.VARIABLE_REFERENCE_LOOKUP "total_precipitation" = Some ref
    /\ dict_get Fixture.parsed_dataset "total_precipitation" = Some da'
    /\ Fixture.pint_to "meter_per_second" (VariableRef.unit ref)
         (Fixture.divide (1994 # 1) (997 # 1)) = Ok (values da')
    /\ dict_get (attrs da') "units"
       = Some (Fixture.unit_str (VariableRef.unit ref)).
Proof.
  apply (precipitation_rescaled Fixture.divide Fixture.unit_str Fixture.pint_to
           false Fixture.VARIABLE_REFERENCE_LOOKUP Fixture.open_dataset
           ["download"; "era5_2010-1.nc"] Fixture.raw_dataset
           Fixture.parsed_dataset "mtpr" (mkDataArray (1994 # 1)%Q [("units", "kg m**-2 s**-1")]));
    [reflexivity | exact fixture_nodup | reflexivity | reflexivity | reflexivity].
Defined.

Lemma radiation_rescaled_witness :
  exists ref da',
    dict_get Fixture.VARIABLE_REFERENCE_LOOKUP
             "surface_solar_radiation_downwards" = Some ref
    /\ dict_get Fixture.parsed_dataset "surface_solar_radiation_downwards"
       = Some da'
    /\ values da' = Fixture.divide (7200 # 1) (3600 # 1)
    /\ dict_get (attrs da') "units"
       = Some (Fixture.unit_str (VariableRef.unit ref)).
Proof.
  apply (radiation_rescaled Fixture.divide Fixture.unit_str Fixture.pint_to
           false Fixture.VARIABLE_REFERENCE_LOOKUP Fixture.open_dataset
           ["download"; "era5_2010-1.nc"] Fixture.raw_dataset
           Fixture.parsed_dataset "ssrd" "surface_solar_radiation_downwards"
           (mkDataArray (7200 # 1)%Q [("units", "J m**-2")]));
    [reflexivity | exact fixture_nodup | reflexivity | reflexivity
    | by left | reflexivity].
Defined.

Lemma unregistered_variable_unchanged_witness :
  Fixture.parsed_dataset !! 4%nat = Some ("lai", mkDataArray (3 # 1)%Q [("units", "1")])
  /\ dict_get Fixture.parsed_dataset "lai"
     = Some (mkDataArray (3 # 1)%Q [("units", "1")]).
Proof.
  apply (unregistered_variable_unchanged Fixture.divide Fixture.unit_str
           Fixture.pint_to false Fixture.VARIABLE_REFERENCE_LOOKUP
           Fixture.open_dataset ["download"; "era5_2010-1.nc"]
           Fixture.raw_dataset Fixture.parsed_dataset "lai"
           (mkDataArray (3 # 1)%Q [("units", "1")]) 4%nat);
    [reflexivity | exact fixture_nodup | reflexivity | reflexivity | reflexivity].
Defined.

Lemma parse_nc_file_idempotent_witness :
  (forall name, In name (dict_keys Fixture.parsed_dataset) ->
                dict_get var_reference_era5_to_zampy name = None)
  /\ Fixture.parse Fixture.open_dataset ["ingest"; "era5_2010-1.nc"]
     = Ok Fixture.parsed_dataset.
Proof.
  apply (parse_nc_file_idempotent Fixture.divide Fixture.unit_str
           Fixture.pint_to false Fixture.VARIABLE_REFERENCE_LOOKUP
           Fixture.open_dataset ["download"; "era5_2010-1.nc"]
           Fixture.raw_dataset ["ingest"; "era5_2010-1.nc"]
           Fixture.parsed_dataset);
    [reflexivity | exact fixture_nodup | reflexivity | reflexivity].
Defined.

(** * Retrieval loop *)

Section CdsRequestFacts.

Variable cdsapi_Client : string -> string -> Client.
Variable CDSAPI_CONFIG_PATH : Path.

(** One pass through the body of the loop, spelled out. *)
Lemma cds_request_item_run c dataset fname sb path names overwrite item
      cds_name w :
  dict_get names (snd item) = Some cds_name ->
  cds_request_item c dataset fname sb path names overwrite item w
  = let request := item_request cds_name sb item in
    let fpath := item_path path fname item in
    let sent := log w ++ [Retrieve dataset request] in
    match answer c (log w) dataset request with
    | Err e => (Err e, mkWorld (nodes w) (dir_st_size w) sent)
    | Ok r =>
        let size := match nodes w !! fpath with
                    | None => 0
                    | Some (File content) => Z.of_nat (String.length content)
                    | Some Dir => dir_st_size w fpath
                    end in
        if negb (size =? content_length r) || overwrite then
          match payload r with
          | Ok body =>
              (Ok tt,
               mkWorld (<[fpath := File body]> (nodes w)) (dir_st_size w)
                 (sent ++ [Download fpath;
                           Print ("Download " +:+ path_name fpath
                                  +:+ " successfully.")]))
          | Err e =>
              (Err e, mkWorld (nodes w) (dir_st_size w)
                              (sent ++ [Download fpath]))
          end
        else
          (Ok tt,
           mkWorld (nodes w) (dir_st_size w)
             (sent ++ [Print ("File '" +:+ path_name fpath
                              +:+ "' already exists, skipping...")]))
    end.
Proof.
  destruct item as [[year month] variable]. cbn [fst snd]. intros Hname.
  unfold cds_request_item, item_request, item_path.
  unfold mbind, M_bind, lift, getitem. rewrite Hname. cbn [fst snd].
  unfold retrieve at 1.
  destruct (answer c (log w) dataset _) as [r|e]; [|done].
  unfold get_file_size at 1. cbn [nodes dir_st_size log].
  destruct (negb _ || overwrite).
  - unfold download, print, emit. cbn [nodes dir_st_size log].
    destruct (payload r) as [body|e]; [|done].
    cbn [nodes dir_st_size log]. by rewrite <- app_assoc.
  - unfold print, emit. done.
Qed.

Lemma cds_request_item_unknown c dataset fname sb path names overwrite item w :
  dict_get names (snd item) = None ->
  cds_request_item c dataset fname sb path names overwrite item w
  = (Err (KeyError (snd item)), w).
Proof.
  destruct item as [[year month] variable]. cbn [fst snd]. intros Hname.
  unfold cds_request_item. unfold mbind, M_bind, lift, getitem.
  by rewrite Hname.
Qed.

Lemma retrieve_calls_app l1 l2 :
  retrieve_calls (l1 ++ l2) = retrieve_calls l1 ++ retrieve_calls l2.
Proof. apply omap_app. Qed.

Lemma download_calls_app l1 l2 :
  download_calls (l1 ++ l2) = download_calls l1 ++ download_calls l2.
Proof. apply omap_app. Qed.

(** Whatever the outcome, one pass sends exactly one request. *)
Lemma cds_request_item_calls c dataset fname sb path names overwrite item
      cds_name w :
  dict_get names (snd item) = Some cds_name ->
  exists new,
    log (snd (cds_request_item c dataset fname sb path names overwrite item w))
    = log w ++ new
    /\ retrieve_calls new = [(dataset, item_request cds_name sb item)].
Proof.
  intros Hname.
  rewrite (cds_request_item_run c dataset fname sb path names overwrite item
             cds_name w Hname). cbv zeta.
  destruct (answer c (log w) dataset _) as [r|e].
  - destruct (negb _ || overwrite); [destruct (payload r)|];
      cbn [snd log]; rewrite <- app_assoc; eexists; (split; [reflexivity|done]).
  - cbn [snd log]. eexists. split; [reflexivity|done].
Qed.

(** C1 (as amended): for every item of the loop whose request the
    service answers, the pass sends exactly one request (its answer is
    what reports the content length).  With [overwrite] false and a local
    file of exactly the reported size at the target, the pass succeeds
    without starting a transfer and leaves the files as they are; with
    [overwrite] true it starts exactly one transfer, to the target,
    whatever is at the target. *)
Theorem one_request_per_item_transfer_by_size
    c dataset fname sb path names overwrite item cds_name r w :
  dict_get names (snd item) = Some cds_name ->
  answer c (log w) dataset (item_request cds_name sb item) = Ok r ->
  exists res w' new,
    cds_request_item c dataset fname sb path names overwrite item w = (res, w')
    /\ log w' = log w ++ new
    /\ retrieve_calls new = [(dataset, item_request cds_name sb item)]
    /\ (overwrite = false ->
        (exists content,
            nodes w !! item_path path fname item = Some (File content)
            /\ Z.of_nat (String.length content) = content_length r) ->
        res = Ok tt /\ download_calls new = [] /\ nodes w' = nodes w)
    /\ (overwrite = true ->
        download_calls new = [item_path path fname item]).
Proof.
  intros Hname Hans.
  rewrite (cds_request_item_run c dataset fname sb path names overwrite item
             cds_name w Hname). cbv zeta. rewrite Hans.
  destruct overwrite.
  - rewrite orb_true_r.
    destruct (payload r) as [body|e]; do 3 eexists;
      (split; [reflexivity|]); cbn [log nodes]; rewrite <- app_assoc;
      (split; [reflexivity|]); (split; [done|]); (split; [done|]); done.
  - rewrite orb_false_r.
    destruct (negb _) eqn:Hsize.
    + destruct (payload r) as [body|e]; do 3 eexists;
        (split; [reflexivity|]); cbn [log nodes]; rewrite <- app_assoc;
        (split; [reflexivity|]); (split; [done|]); (split; [|done]);
        intros _ (content & Hfile & Hlen); rewrite Hfile, Hlen in Hsize;
        by rewrite Z.eqb_refl in Hsize.
    + do 3 eexists. split; [reflexivity|]. cbn [log nodes].
      rewrite <- app_assoc. split; [reflexivity|]. done.
Qed.

(** C10: when nothing exists at the target of an item, the service
    reports a content length of 0 and [overwrite] is false, the measured
    size is 0, the pass takes the skip branch: it prints the "already
    exists" line, starts no transfer and leaves the files as they are, so
    there is still nothing at the target afterwards. *)
Theorem skip_without_local_file
    c dataset fname sb path names item cds_name r w :
  dict_get names (snd item) = Some cds_name ->
  answer c (log w) dataset (item_request cds_name sb item) = Ok r ->
  content_length r = 0 ->
  nodes w !! item_path path fname item = None ->
  get_file_size (item_path path fname item) w = (Ok 0, w)
  /\ exists w',
      cds_request_item c dataset fname sb path names false item w = (Ok tt, w')
      /\ log w'
         = log w ++ [ Retrieve dataset (item_request cds_name sb item);
                      Print ("File '"
                             +:+ path_name (item_path path fname item)
                             +:+ "' already exists, skipping...") ]
      /\ nodes w' = nodes w
      /\ nodes w' !! item_path path fname item = None.
Proof.
  intros Hname Hans Hlen Hnone. split.
  { unfold get_file_size. by rewrite Hnone. }
  rewrite (cds_request_item_run c dataset fname sb path names false item
             cds_name w Hname). cbv zeta. rewrite Hans, Hnone, Hlen.
  cbn [Z.eqb negb orb]. eexists. split; [reflexivity|]. cbn [log nodes].
  rewrite <- app_assoc. done.
Qed.

Lemma for_each_cons {A} (body : A -> M unit) item rest w :
  for_each (item :: rest) body w
  = match body item w with
    | (Ok _, w1) => for_each rest body w1
    | (Err e, w1) => (Err e, w1)
    end.
Proof. reflexivity. Qed.

(** An exception in the body ends the loop and is the outcome of it. *)
Lemma for_each_raises {A} (body : A -> M unit) before item after w w1 e w2 :
  for_each before body w = (Ok tt, w1) ->
  body item w1 = (Err e, w2) ->
  for_each (before ++ item :: after) body w = (Err e, w2).
Proof.
  revert w. induction before as [|x before IH]; intros w Hbefore Hitem.
  - injection Hbefore as <-. cbn [app]. rewrite for_each_cons. by rewrite Hitem.
  - cbn [app]. rewrite for_each_cons in *.
    destruct (body x w) as [[[]|e'] w']; [|discriminate]. by apply IH.
Qed.

(** A completed loop has sent one request per item, in the order of the
    items. *)
Lemma for_each_item_calls c dataset fname sb path names overwrite items w w' :
  for_each items (cds_request_item c dataset fname sb path names overwrite) w
  = (Ok tt, w') ->
  exists new,
    log w' = log w ++ new
    /\ Forall2 (fun item call =>
                  exists cds_name,
                    dict_get names (snd item) = Some cds_name
                    /\ call = (dataset, item_request cds_name sb item))
               items (retrieve_calls new).
Proof.
  revert w. induction items as [|item rest IH]; intros w Hrun.
  - injection Hrun as <-. exists []. split; [by rewrite app_nil_r|constructor].
  - rewrite for_each_cons in Hrun.
    destruct (dict_get names (snd item)) as [cds_name|] eqn:Hname.
    2:{ rewrite cds_request_item_unknown in Hrun by done. discriminate. }
    destruct (cds_request_item_calls c dataset fname sb path names overwrite
                item cds_name w Hname) as (new1 & Hlog1 & Hcalls1).
    destruct (cds_request_item _ _ _ _ _ _ _ item w) as [[[]|e] w1];
      [|discriminate].
    cbn [snd] in Hlog1.
    apply IH in Hrun as (new2 & Hlog2 & Hcalls2).
    exists (new1 ++ new2). split.
    + by rewrite Hlog2, Hlog1, app_assoc.
    + rewrite retrieve_calls_app, Hcalls1. simpl. constructor; [|done].
      by exists cds_name.
Qed.

(** Reading the configuration leaves the world as it is. *)
Lemma read_config_world w : snd (read_config CDSAPI_CONFIG_PATH w) = w.
Proof.
  unfold read_config, mbind, M_bind, open_text, lift.
  destruct (nodes w !! CDSAPI_CONFIG_PATH) as [[content|]|]; [|done..].
  destruct (readline content) as [line1 rest].
  destruct (split_colon_1 line1); [|done].
  destruct (readline rest) as [line2 rest'].
  destruct (split_colon_1 line2); done.
Qed.

Lemma cds_request_run dataset fname variables time_bounds sb path names
      overwrite url api_key w :
  dict_get PRODUCT_FNAME dataset = Some fname ->
  read_config CDSAPI_CONFIG_PATH w = (Ok (url, api_key), w) ->
  cds_request cdsapi_Client CDSAPI_CONFIG_PATH dataset variables time_bounds
              sb path names overwrite w
  = for_each (product (time_bounds_to_year_month time_bounds) variables)
      (cds_request_item (cdsapi_Client url api_key) dataset fname sb path
                        names overwrite) w.
Proof.
  intros Hfname Hconfig. unfold cds_request.
  unfold mbind at 1. unfold M_bind at 1. unfold lift, getitem.
  rewrite Hfname. unfold mbind at 1. unfold M_bind at 1.
  rewrite Hconfig. done.
Qed.

Lemma cds_request_Ok dataset variables time_bounds sb path names overwrite
      w w' :
  cds_request cdsapi_Client CDSAPI_CONFIG_PATH dataset variables time_bounds
              sb path names overwrite w = (Ok tt, w') ->
  exists fname url api_key,
    dict_get PRODUCT_FNAME dataset = Some fname
    /\ read_config CDSAPI_CONFIG_PATH w = (Ok (url, api_key), w).
Proof.
  unfold cds_request.
  unfold mbind at 1. unfold M_bind at 1. unfold lift, getitem.
  destruct (dict_get PRODUCT_FNAME dataset) as [fname|]; [|discriminate].
  unfold mbind at 1. unfold M_bind at 1.
  pose proof (read_config_world w) as Hw.
  destruct (read_config CDSAPI_CONFIG_PATH w) as [[[url api_key]|e] w1];
    [|discriminate].
  cbn [snd] in Hw. subst w1. intros _. by exists fname, url, api_key.
Qed.

End CdsRequestFacts.

(** C9: two runs of the retrieval loop on the same dataset, variables,
    time bounds, spatial bounds and CDS names that both complete send the
    same sequence of requests, whatever the files, the service, the
    target directory and the overwrite flag of each run: one request per
    pair of a (year, month) and a variable, the pairs taken with the
    (year, month) of the batcher in the outer position and the variables in
    the order of the input list in the inner one. *)
Theorem request_sequence_deterministic
    client1 config1 path1 overwrite1 w1 w1'
    client2 config2 path2 overwrite2 w2 w2'
    dataset variables time_bounds spatial_bounds cds_var_names :
  cds_request client1 config1 dataset variables time_bounds spatial_bounds
              path1 cds_var_names overwrite1 w1 = (Ok tt, w1') ->
  cds_request client2 config2 dataset variables time_bounds spatial_bounds
              path2 cds_var_names overwrite2 w2 = (Ok tt, w2') ->
  exists new1 new2,
    log w1' = log w1 ++ new1 /\ log w2' = log w2 ++ new2
    /\ retrieve_calls new1 = retrieve_calls new2
    /\ Forall2 (fun item call =>
                  exists cds_name,
                    dict_get cds_var_names (snd item) = Some cds_name
                    /\ call = (dataset,
                               item_request cds_name spatial_bounds item))
         (year_month ← time_bounds_to_year_month time_bounds;
          variable ← variables;
          [(year_month, variable)])
         (retrieve_calls new1).
Proof.
  intros Hrun1 Hrun2.
  destruct (cds_request_Ok _ _ _ _ _ _ _ _ _ _ _ Hrun1)
    as (fname1 & url1 & key1 & Hf1 & Hc1).
  destruct (cds_request_Ok _ _ _ _ _ _ _ _ _ _ _ Hrun2)
    as (fname2 & url2 & key2 & Hf2 & Hc2).
  rewrite (cds_request_run _ _ _ _ _ _ _ _ _ _ _ _ _ Hf1 Hc1) in Hrun1.
  rewrite (cds_request_run _ _ _ _ _ _ _ _ _ _ _ _ _ Hf2 Hc2) in Hrun2.
  apply for_each_item_calls in Hrun1 as (new1 & Hlog1 & Hcalls1).
  apply for_each_item_calls in Hrun2 as (new2 & Hlog2 & Hcalls2).
  exists new1, new2. split; [done|]. split; [done|]. split; [|done].
  revert Hcalls1 Hcalls2. unfold product.
  generalize (retrieve_calls new1) (retrieve_calls new2).
  generalize (year_month ← time_bounds_to_year_month time_bounds;
              variable ← variables; [(year_month, variable)]).
  intros items. induction items as [|item items IH]; intros calls1 calls2 H1 H2.
  - apply Forall2_nil_inv_l in H1, H2. congruence.
  - apply Forall2_cons_inv_l in H1 as (call1 & rest1 & (n1 & Hn1 & ->) & H1 & ->).
    apply Forall2_cons_inv_l in H2 as (call2 & rest2 & (n2 & Hn2 & ->) & H2 & ->).
    f_equal; [congruence|]. by apply IH.
Qed.

(** * Dataset facade *)

Lemma validate_download_request_run dataset download_dir tb sb names w :
  validate_download_request dataset download_dir tb sb names w
  = if within_envelope dataset tb sb names then (Ok tt, w)
    else (Err (ValidationError
                 (if negb (variables_known dataset names) then "variable names"
                  else if negb (time_within (Dataset.time_bounds dataset) tb)
                       then "time bounds"
                       else "spatial bounds")), w).
Proof.
  unfold validate_download_request, within_envelope.
  destruct (variables_known dataset names); [|done].
  destruct (time_within (Dataset.time_bounds dataset) tb); [|done].
  by destruct (space_within (Dataset.spatial_bounds dataset) sb).
Qed.

Section FacadeFacts.

Variable cdsapi_Client : string -> string -> Client.
Variable CDSAPI_CONFIG_PATH : Path.
Variable properties_json :
  SpatialBounds -> TimeBounds -> list string -> string.

(** The call in [ERA5.download] names a parameter [product] that
    [cds_request] does not have (and gives none for [dataset] and
    [cds_var_names]): binding its keywords raises [TypeError] before
    anything of [cds_request] runs. *)
Lemma ERA5_call_cds_request_raises names tb sb folder overwrite w :
  call_cds_request cdsapi_Client CDSAPI_CONFIG_PATH
    (ERA5_cds_request_kwargs names tb sb folder overwrite) w
  = (Err (TypeError
            "cds_request() got an unexpected keyword argument 'product'"), w).
Proof. reflexivity. Qed.

Lemma ERA5_download_run download_dir tb sb names overwrite w :
  ERA5_download cdsapi_Client CDSAPI_CONFIG_PATH properties_json
                download_dir tb sb names overwrite w
  = if within_envelope ERA5 tb sb names then
      match mkdir (path_join download_dir (Dataset.name ERA5)) w with
      | (Ok _, w1) =>
          match call_cds_request cdsapi_Client CDSAPI_CONFIG_PATH
                  (ERA5_cds_request_kwargs names tb sb
                     (path_join download_dir (Dataset.name ERA5)) overwrite)
                  w1 with
          | (Ok _, w2) =>
              (Ok true,
               snd (write_properties_file properties_json
                      (path_join download_dir (Dataset.name ERA5))
                      sb tb names w2))
          | (Err e, w2) => (Err e, w2)
          end
      | (Err e, w1) => (Err e, w1)
      end
    else
      (Err (ValidationError
              (if negb (variables_known ERA5 names) then "variable names"
               else if negb (time_within (Dataset.time_bounds ERA5) tb)
                    then "time bounds"
                    else "spatial bounds")), w).
Proof.
  unfold ERA5_download. unfold mbind at 1. unfold M_bind at 1.
  rewrite validate_download_request_run.
  destruct (within_envelope ERA5 tb sb names) eqn:Hin.
  - unfold mbind at 1. unfold M_bind at 1.
    destruct (mkdir _ w) as [[[]|e] w1]; [|done].
    unfold mbind at 1. unfold M_bind at 1.
    destruct (call_cds_request _ _ _ w1) as [[[]|e] w2]; done.
  - done.
Qed.

(** As [ERA5.download] is written, it returns no success value at all:
    past the validation and the directory it always meets the [TypeError]
    of its call of [cds_request]. *)
Lemma ERA5_download_never_succeeds download_dir tb sb names overwrite w b w' :
  ERA5_download cdsapi_Client CDSAPI_CONFIG_PATH properties_json
                download_dir tb sb names overwrite w <> (Ok b, w').
Proof.
  rewrite ERA5_download_run.
  destruct (within_envelope ERA5 tb sb names); [|discriminate].
  destruct (mkdir _ w) as [[[]|e] w1]; [|discriminate].
  rewrite ERA5_call_cds_request_raises. discriminate.
Qed.

(** C8: a download request outside the declared envelope of the dataset
    (a variable name the dataset does not list, or time or spatial bounds
    beyond its own) makes [ERA5.download] raise a validation error in the
    world it was called in: nothing was sent or printed and no directory
    or file was created, and no success value is returned.  Errors are
    never turned into a success: an exception out of the call of
    [cds_request] is the outcome of [download], and an exception out of a
    request to the service is the outcome of [cds_request], raised right
    after that request. *)
Theorem ERA5_download_errors download_dir tb sb names overwrite w :
  (within_envelope ERA5 tb sb names = false ->
   exists msg,
     ERA5_download cdsapi_Client CDSAPI_CONFIG_PATH properties_json
                   download_dir tb sb names overwrite w
     = (Err (ValidationError msg), w))
  /\ (forall e w1 w2,
        within_envelope ERA5 tb sb names = true ->
        mkdir (path_join download_dir (Dataset.name ERA5)) w = (Ok tt, w1) ->
        call_cds_request cdsapi_Client CDSAPI_CONFIG_PATH
          (ERA5_cds_request_kwargs names tb sb
             (path_join download_dir (Dataset.name ERA5)) overwrite) w1
        = (Err e, w2) ->
        ERA5_download cdsapi_Client CDSAPI_CONFIG_PATH properties_json
                      download_dir tb sb names overwrite w
        = (Err e, w2))
  /\ (forall dataset fname path cds_var_names url api_key before item after
             cds_name e w1,
        dict_get PRODUCT_FNAME dataset = Some fname ->
        read_config CDSAPI_CONFIG_PATH w = (Ok (url, api_key), w) ->
        product (time_bounds_to_year_month tb) names
        = before ++ item :: after ->
        for_each before
          (cds_request_item (cdsapi_Client url api_key) dataset fname sb
                            path cds_var_names overwrite) w
        = (Ok tt, w1) ->
        dict_get cds_var_names (snd item) = Some cds_name ->
        answer (cdsapi_Client url api_key) (log w1) dataset
               (item_request cds_name sb item) = Err e ->
        cds_request cdsapi_Client CDSAPI_CONFIG_PATH dataset names tb sb
                    path cds_var_names overwrite w
        = (Err e,
           mkWorld (nodes w1) (dir_st_size w1)
                   (log w1 ++ [Retrieve dataset
                                 (item_request cds_name sb item)]))).
Proof.
  split; [|split].
  - intros Hout. rewrite ERA5_download_run, Hout. by eexists.
  - intros e w1 w2 Hin Hmkdir Hcall.
    by rewrite ERA5_download_run, Hin, Hmkdir, Hcall.
  - intros dataset fname path cds_var_names url api_key before item after
           cds_name e w1 Hfname Hconfig Hitems Hbefore Hname Hanswer.
    rewrite (cds_request_run _ _ _ _ _ _ _ _ _ _ _ _ _ Hfname Hconfig).
    rewrite Hitems. apply (for_each_raises _ _ _ _ _ w1); [done|].
    rewrite (cds_request_item_run _ _ _ _ _ _ _ _ cds_name) by done.
    cbv zeta. by rewrite Hanswer.
Qed.

End FacadeFacts.

(** C2 (as amended): for TimeBounds(2010-01-01, 2010-01-31), one variable
    and SpatialBounds(54, 56, 1, 3) (north 54, east 56, south 1, west 3),
    the retrieval loop, called with a known dataset identifier, a readable
    configuration and a CDS name for the variable, sends exactly one
    request: year "2010", month "1", all days "01" to "31", all hours
    "00:00" to "23:00", area [54, 3, 1, 56] (north, west, south, east) and
    format "netcdf". *)
Theorem january_2010_single_request
    client config dataset fname variable cds_name path cds_var_names overwrite
    url api_key w :
  dict_get PRODUCT_FNAME dataset = Some fname ->
  read_config config w = (Ok (url, api_key), w) ->
  dict_get cds_var_names variable = Some cds_name ->
  exists res w' new,
    cds_request client config dataset [variable]
      (mkTimeBounds (Calendar.mkdate 2010 1 1) (Calendar.mkdate 2010 1 31))
      (mkSpatialBounds (54 # 1) (56 # 1) (1 # 1) (3 # 1))
      path cds_var_names overwrite w = (res, w')
    /\ log w' = log w ++ new
    /\ retrieve_calls new
       = [ (dataset,
            Request.make "reanalysis" [cds_name] "2010" "1" all_days all_hours
              [ (54 # 1)%Q; (3 # 1)%Q; (1 # 1)%Q; (56 # 1)%Q ] "netcdf") ].
Proof.
  intros Hfname Hconfig Hname.
  rewrite (cds_request_run _ _ _ _ _ _ _ _ _ _ _ _ _ Hfname Hconfig).
  change (time_bounds_to_year_month _) with [("2010", "1")].
  change (product [("2010", "1")] [variable])
    with [(("2010", "1"), variable)].
  rewrite for_each_cons.
  destruct (cds_request_item_calls (client url api_key) dataset fname
              (mkSpatialBounds (54 # 1) (56 # 1) (1 # 1) (3 # 1))
              path cds_var_names overwrite (("2010", "1"), variable)
              cds_name w Hname) as (new & Hlog & Hcalls).
  destruct (cds_request_item _ _ _ _ _ _ _ _ w) as [[[]|e] w1];
    cbn [snd] in Hlog; do 3 eexists; (split; [reflexivity|]); by split.
Qed.

(** * The test scenario, run *)

Module FixtureFacts.
Import Fixture.

Lemma pair_of_fst {A B} (p : A * B) (a : A) : fst p = a -> p = (a, snd p).
Proof. destruct p. simpl. intros ->. reflexivity. Defined.

Lemma first_run_completes : first_run = (Ok tt, snd first_run).
Proof. apply pair_of_fst. vm_compute. reflexivity. Defined.

Lemma second_run_completes : second_run = (Ok tt, snd second_run).
Proof. apply pair_of_fst. vm_compute. reflexivity. Defined.

End FixtureFacts.

Example read_fixture_config :
  read_config Fixture.cdsapirc Fixture.fresh_world
  = (Ok ("a", "123:abc-def"), Fixture.fresh_world).
Proof. reflexivity. Qed.

(** [ERA5.download] on the request of the test (with a variable ERA5
    lists): the directories are made, then the call of [cds_request]
    raises. *)
Example ERA5_download_january_2010 :
  let run :=
    ERA5_download Fixture.client Fixture.cdsapirc Fixture.properties_json
      ["data"] Fixture.january_2010 Fixture.bbox ["surface_pressure"] true
      Fixture.fresh_world in
  fst run
  = Err (TypeError "cds_request() got an unexpected keyword argument 'product'")
  /\ log (snd run) = []
  /\ nodes (snd run) !! ["data"; "era5"] = Some Dir
  /\ nodes (snd run) !! ["data"; "era5"; "properties.json"] = None.
Proof. vm_compute. done. Qed.

(** C1, as stated, fails: with [overwrite] false and a local file of
    exactly the reported size (three bytes), the loop still sends the
    request for that file; what it does not do is start the transfer. *)
Lemma same_size_file_is_still_requested :
  let run :=
    cds_request Fixture.client Fixture.cdsapirc "reanalysis-era5-land"
      ["2m_dewpoint_temperature"] Fixture.january_2010 Fixture.bbox
      ["data"; "era5-land"] Fixture.cds_var_names false
      Fixture.world_with_file in
  nodes Fixture.world_with_file
    !! item_path ["data"; "era5-land"] "era5-land" Fixture.dewpoint_item
  = Some (File "xyz")
  /\ answer (Fixture.client "a" "123:abc-def") [] "reanalysis-era5-land"
       (item_request "2m_dewpoint_temperature" Fixture.bbox
                     Fixture.dewpoint_item)
     = Ok (mkRemoteResult 3 (Ok "abc"))
  /\ fst run = Ok tt
  /\ retrieve_calls (log (snd run))
     = [ ("reanalysis-era5-land",
          item_request "2m_dewpoint_temperature" Fixture.bbox
                       Fixture.dewpoint_item) ]
  /\ retrieve_calls (log (snd run)) <> []
  /\ download_calls (log (snd run)) = [].
Proof. vm_compute. repeat split; done. Qed.

(** C2, as stated, fails twice.  [ERA5.download] raises [TypeError] at its
    call of [cds_request], so it sends no request and writes no properties
    file; and the retrieval loop, called as its signature requires, sends
    one request whose area is [54, 3, 1, 56], not [54, 56, 1, 3]. *)
Lemma january_2010_area_and_facade :
  let facade :=
    ERA5_download Fixture.client Fixture.cdsapirc Fixture.properties_json
      ["data"] Fixture.january_2010 Fixture.bbox ["surface_pressure"] true
      Fixture.fresh_world in
  let loop :=
    cds_request Fixture.client Fixture.cdsapirc "reanalysis-era5-single-levels"
      ["surface_pressure"] Fixture.january_2010 Fixture.bbox
      ["data"; "era5"] Fixture.cds_var_names true Fixture.fresh_world in
  (fst facade
   = Err (TypeError "cds_request() got an unexpected keyword argument 'product'")
   /\ retrieve_calls (log (snd facade)) = []
   /\ nodes (snd facade) !! ["data"; "era5"; "properties.json"] = None)
  /\ (exists request,
         retrieve_calls (log (snd loop))
         = [("reanalysis-era5-single-levels", request)]
         /\ Request.area request = [ (54 # 1)%Q; (3 # 1)%Q; (1 # 1)%Q; (56 # 1)%Q ]
         /\ Request.area request
            <> [ (54 # 1)%Q; (56 # 1)%Q; (1 # 1)%Q; (3 # 1)%Q ]).
Proof.
  split.
  - vm_compute. done.
  - eexists. split; [vm_compute; reflexivity|]. split; [reflexivity|].
    intros [=].
Qed.

Lemma one_request_per_item_transfer_by_size_witness :
  exists res w' new,
    cds_request_item (Fixture.client "a" "123:abc-def") "reanalysis-era5-land"
      "era5-land" Fixture.bbox ["data"; "era5-land"] Fixture.cds_var_names
      false Fixture.dewpoint_item Fixture.world_with_file = (res, w')
    /\ log w' = log Fixture.world_with_file ++ new
    /\ retrieve_calls new
       = [ ("reanalysis-era5-land",
            item_request "2m_dewpoint_temperature" Fixture.bbox
                         Fixture.dewpoint_item) ]
    /\ (false = false ->
        (exists content,
            nodes Fixture.world_with_file
              !! item_path ["data"; "era5-land"] "era5-land"
                           Fixture.dewpoint_item
            = Some (File content)
            /\ Z.of_nat (String.length content)
               = content_length (mkRemoteResult 3 (Ok "abc"))) ->
        res = Ok tt /\ download_calls new = []
        /\ nodes w' = nodes Fixture.world_with_file)
    /\ (false = true ->
        download_calls new
        = [item_path ["data"; "era5-land"] "era5-land" Fixture.dewpoint_item]).
Proof.
  apply (one_request_per_item_transfer_by_size
           (Fixture.client "a" "123:abc-def") "reanalysis-era5-land"
           "era5-land" Fixture.bbox ["data"; "era5-land"]
           Fixture.cds_var_names false Fixture.dewpoint_item
           "2m_dewpoint_temperature" (mkRemoteResult 3 (Ok "abc"))
           Fixture.world_with_file);
    reflexivity.
Defined.

Lemma skip_without_local_file_witness :
  get_file_size
    (item_path ["data"; "era5-land"] "era5-land" Fixture.dewpoint_item)
    Fixture.fresh_world = (Ok 0, Fixture.fresh_world)
  /\ exists w',
      cds_request_item (Fixture.empty_client "a" "123:abc-def")
        "reanalysis-era5-land" "era5-land" Fixture.bbox ["data"; "era5-land"]
        Fixture.cds_var_names false Fixture.dewpoint_item Fixture.fresh_world
      = (Ok tt, w')
      /\ log w'
         = log Fixture.fresh_world
           ++ [ Retrieve "reanalysis-era5-land"
                  (item_request "2m_dewpoint_temperature" Fixture.bbox
                                Fixture.dewpoint_item);
                Print ("File '"
                       +:+ path_name
                             (item_path ["data"; "era5-land"] "era5-land"
                                        Fixture.dewpoint_item)
                       +:+ "' already exists, skipping...") ]
      /\ nodes w' = nodes Fixture.fresh_world
      /\ nodes w'
           !! item_path ["data"; "era5-land"] "era5-land" Fixture.dewpoint_item
         = None.
Proof.
  apply (skip_without_local_file
           (Fixture.empty_client "a" "123:abc-def") "reanalysis-era5-land"
           "era5-land" Fixture.bbox ["data"; "era5-land"]
           Fixture.cds_var_names Fixture.dewpoint_item
           "2m_dewpoint_temperature" (mkRemoteResult 0 (Ok ""))
           Fixture.fresh_world);
    reflexivity.
Defined.

Lemma january_2010_single_request_witness :
  exists res w' new,
    cds_request Fixture.client Fixture.cdsapirc "reanalysis-era5-land"
      ["2m_dewpoint_temperature"]
      (mkTimeBounds (Calendar.mkdate 2010 1 1) (Calendar.mkdate 2010 1 31))
      (mkSpatialBounds (54 # 1) (56 # 1) (1 # 1) (3 # 1))
      ["data"; "era5-land"] Fixture.cds_var_names true Fixture.fresh_world
    = (res, w')
    /\ log w' = log Fixture.fresh_world ++ new
    /\ retrieve_calls new
       = [ ("reanalysis-era5-land",
            Request.make "reanalysis" ["2m_dewpoint_temperature"] "2010" "1"
              all_days all_hours
              [ (54 # 1)%Q; (3 # 1)%Q; (1 # 1)%Q; (56 # 1)%Q ] "netcdf") ].
Proof.
  apply (january_2010_single_request Fixture.client Fixture.cdsapirc
           "reanalysis-era5-land" "era5-land" "2m_dewpoint_temperature"
           "2m_dewpoint_temperature" ["data"; "era5-land"]
           Fixture.cds_var_names true "a" "123:abc-def" Fixture.fresh_world);
    reflexivity.
Defined.

Lemma ERA5_download_errors_witness :
  exists msg,
    ERA5_download Fixture.client Fixture.cdsapirc Fixture.properties_json
      ["data"] Fixture.january_2010 Fixture.bbox ["2m_dewpoint_temperature"]
      true Fixture.fresh_world
    = (Err (ValidationError msg), Fixture.fresh_world).
Proof.
  apply (proj1 (ERA5_download_errors Fixture.client Fixture.cdsapirc
                  Fixture.properties_json ["data"] Fixture.january_2010
                  Fixture.bbox ["2m_dewpoint_temperature"] true
                  Fixture.fresh_world)).
  reflexivity.
Defined.

Lemma request_sequence_deterministic_witness :
  exists new1 new2,
    log (snd Fixture.first_run) = log Fixture.fresh_world ++ new1
    /\ log (snd Fixture.second_run) = log Fixture.world_with_file ++ new2
    /\ retrieve_calls new1 = retrieve_calls new2
    /\ Forall2 (fun item call =>
                  exists cds_name,
                    dict_get Fixture.cds_var_names (snd item) = Some cds_name
                    /\ call = ("reanalysis-era5-land",
                               item_request cds_name Fixture.bbox item))
         (year_month ← time_bounds_to_year_month Fixture.first_quarter_2010;
          variable ← ["2m_dewpoint_temperature"; "surface_pressure"];
          [(year_month, variable)])
         (retrieve_calls new1).
Proof.
  apply (request_sequence_deterministic
           Fixture.client Fixture.cdsapirc ["data"; "era5-land"] true
           Fixture.fresh_world (snd Fixture.first_run)
           Fixture.empty_client Fixture.cdsapirc ["elsewhere"] false
           Fixture.world_with_file (snd Fixture.second_run)
           "reanalysis-era5-land"
           ["2m_dewpoint_temperature"; "surface_pressure"]
           Fixture.first_quarter_2010 Fixture.bbox Fixture.cds_var_names).
  - exact FixtureFacts.first_run_completes.
  - exact FixtureFacts.second_run_completes.
Defined.

(** * Further properties of the request batcher *)

Lemma month_end_of_own_month d :
  Calendar.valid_date d ->
  Calendar.month_end_of (Calendar.month_index d)
  = Calendar.mkdate (Calendar.year d) (Calendar.month d)
      (Calendar.days_in_month (Calendar.year d) (Calendar.month d)).
Proof.
  intros [Hm Hd]. unfold Calendar.month_end_of, Calendar.month_index.
  assert ((12 * Calendar.year d + (Calendar.month d - 1)) / 12 = Calendar.year d)
    as -> by (Z.div_mod_to_equations; lia).
  assert ((12 * Calendar.year d + (Calendar.month d - 1)) mod 12 + 1
          = Calendar.month d) as -> by (Z.div_mod_to_equations; lia).
  done.
Qed.

Lemma time_bounds_to_year_month_closed_form time_bounds :
  Calendar.valid_date (tb_start time_bounds) ->
  Calendar.valid_date (tb_end time_bounds) ->
  time_bounds_to_year_month time_bounds
  = map (fun i => (str (i / 12), str (i mod 12 + 1)))
        (seqZ (Calendar.month_index (tb_start time_bounds))
              (Calendar.last_month_end_upto (tb_end time_bounds)
               - Calendar.month_index (tb_start time_bounds) + 1)).
Proof.
  intros Hs He. unfold time_bounds_to_year_month.
  rewrite CalendarFacts.date_range_spec by done. by rewrite map_map.
Qed.

(** X1: for valid dates that pandas can represent (years 1678 to 2261),
    the batcher returns no pair at all exactly when the end date is before
    the last day of the month of the start date: a range inside one month
    that stops short of its last day, and any range whose end is before
    its start, gives the empty list. *)
Theorem no_pairs_iff_end_before_first_month_end time_bounds :
  Calendar.valid_date (tb_start time_bounds) ->
  Calendar.valid_date (tb_end time_bounds) ->
  Calendar.representable (tb_start time_bounds) ->
  Calendar.representable (tb_end time_bounds) ->
  time_bounds_to_year_month time_bounds = []
  <-> Calendar.date_lt
        (tb_end time_bounds)
        (Calendar.mkdate
           (Calendar.year (tb_start time_bounds))
           (Calendar.month (tb_start time_bounds))
           (Calendar.days_in_month (Calendar.year (tb_start time_bounds))
                                   (Calendar.month (tb_start time_bounds)))).
Proof.
  intros Hs He _ _. rewrite time_bounds_to_year_month_closed_form by done.
  rewrite <- month_end_of_own_month by done.
  unfold Calendar.date_lt.
  rewrite CalendarFacts.date_ltb_ordinal
    by auto using CalendarFacts.valid_month_end_of.
  rewrite Z.ltb_lt.
  pose proof (CalendarFacts.month_end_le_iff
                (Calendar.month_index (tb_start time_bounds))
                (tb_end time_bounds) He) as Hiff.
  set (first := Calendar.month_index (tb_start time_bounds)) in *.
  set (last := Calendar.last_month_end_upto (tb_end time_bounds)) in *.
  split.
  - intros Hnil. destruct (decide (first <= last)) as [Hle|Hgt]; [|lia].
    rewrite seqZ_cons in Hnil by lia. discriminate.
  - intros Hlt. rewrite seqZ_nil; [done|]. lia.
Qed.

Lemma no_pairs_iff_end_before_first_month_end_witness :
  time_bounds_to_year_month
    (mkTimeBounds (Calendar.mkdate 2010 1 1) (Calendar.mkdate 2010 1 30)) = []
  <-> Calendar.date_lt (Calendar.mkdate 2010 1 30)
        (Calendar.mkdate 2010 1 (Calendar.days_in_month 2010 1)).
Proof.
  apply (no_pairs_iff_end_before_first_month_end
           (mkTimeBounds (Calendar.mkdate 2010 1 1) (Calendar.mkdate 2010 1 30)));
    unfold Calendar.valid_date, Calendar.representable; cbn; lia.
Defined.

(** X2: the pairs are consecutive calendar months.  For valid dates that
    pandas can represent (years 1678 to 2261), with months counted as
    12 * year + (month - 1), the list runs from the month of the start
    date to the last month whose final day is not after the end date, one
    pair per month, and every month string is one of "1" to "12", never
    padded with a zero. *)
Theorem pairs_are_consecutive_months time_bounds :
  Calendar.valid_date (tb_start time_bounds) ->
  Calendar.valid_date (tb_end time_bounds) ->
  Calendar.representable (tb_start time_bounds) ->
  Calendar.representable (tb_end time_bounds) ->
  time_bounds_to_year_month time_bounds
  = map (fun i => (str (i / 12), str (i mod 12 + 1)))
        (seqZ (12 * Calendar.year (tb_start time_bounds)
               + (Calendar.month (tb_start time_bounds) - 1))
              ((if Calendar.is_on_offset (tb_end time_bounds)
                then 12 * Calendar.year (tb_end time_bounds)
                     + (Calendar.month (tb_end time_bounds) - 1)
                else 12 * Calendar.year (tb_end time_bounds)
                     + (Calendar.month (tb_end time_bounds) - 1) - 1)
               - (12 * Calendar.year (tb_start time_bounds)
                  + (Calendar.month (tb_start time_bounds) - 1)) + 1))
  /\ forall year month,
       In (year, month) (time_bounds_to_year_month time_bounds) ->
       In month ["1"; "2"; "3"; "4"; "5"; "6"; "7"; "8"; "9"; "10"; "11"; "12"].
Proof.
  intros Hs He _ _. split.
  { by rewrite time_bounds_to_year_month_closed_form. }
  intros year month.
  rewrite time_bounds_to_year_month_closed_form by done.
  rewrite in_map_iff. intros (i & [= _ <-] & _).
  pose proof (Z.mod_pos_bound i 12 ltac:(lia)) as Hi.
  assert (i mod 12 = 0 \/ i mod 12 = 1 \/ i mod 12 = 2 \/ i mod 12 = 3
          \/ i mod 12 = 4 \/ i mod 12 = 5 \/ i mod 12 = 6 \/ i mod 12 = 7
          \/ i mod 12 = 8 \/ i mod 12 = 9 \/ i mod 12 = 10 \/ i mod 12 = 11)
    as Hcases by lia.
  repeat (destruct Hcases as [->|Hcases]; [vm_compute; tauto|]).
  rewrite Hcases. vm_compute. tauto.
Qed.

Lemma pairs_are_consecutive_months_witness :
  time_bounds_to_year_month
    (mkTimeBounds (Calendar.mkdate 2019 11 15) (Calendar.mkdate 2020 3 30))
  = map (fun i => (str (i / 12), str (i mod 12 + 1)))
        (seqZ (12 * 2019 + (11 - 1))
              ((if Calendar.is_on_offset (Calendar.mkdate 2020 3 30)
                then 12 * 2020 + (3 - 1)
                else 12 * 2020 + (3 - 1) - 1)
               - (12 * 2019 + (11 - 1)) + 1))
  /\ forall year month,
       In (year, month)
          (time_bounds_to_year_month
             (mkTimeBounds (Calendar.mkdate 2019 11 15)
                           (Calendar.mkdate 2020 3 30))) ->
       In month ["1"; "2"; "3"; "4"; "5"; "6"; "7"; "8"; "9"; "10"; "11"; "12"].
Proof.
  apply (pairs_are_consecutive_months
           (mkTimeBounds (Calendar.mkdate 2019 11 15) (Calendar.mkdate 2020 3 30)));
    unfold Calendar.valid_date, Calendar.representable; cbn; lia.
Defined.

(** * Further properties of the retrieval loop *)

Lemma contains_app c s t : contains c (s +:+ t) = contains c s || contains c t.
Proof.
  induction s as [|c' s IH]; simpl; [done|]. rewrite IH. by rewrite orb_assoc.
Qed.

Lemma string_app_cons c (s t : string) : String c s +:+ t = String c (s +:+ t).
Proof. reflexivity. Qed.

Lemma single_line_cons c s :
  single_line (String c s) = true ->
  Ascii.eqb c "010"%char = false /\ Ascii.eqb c "013"%char = false
  /\ single_line s = true.
Proof.
  unfold single_line. cbn [contains].
  destruct (Ascii.eqb c "010"%char), (Ascii.eqb c "013"%char); cbn;
    rewrite ?orb_true_r; try done.
Qed.

Lemma single_line_app s t :
  single_line s = true -> single_line t = true -> single_line (s +:+ t) = true.
Proof.
  intros Hs Ht. induction s as [|c s IH]; [done|].
  apply single_line_cons in Hs as (Hlf & Hcr & Hs).
  rewrite string_app_cons. specialize (IH Hs). revert IH.
  unfold single_line. cbn [contains]. rewrite Hlf, Hcr. done.
Qed.

Lemma readline_break line c rest :
  single_line line = true ->
  c = "010"%char \/ c = "013"%char ->
  readline (line +:+ String c rest)
  = (line +:+ String "010"%char EmptyString,
     if Ascii.eqb c "010"%char then rest else skip_lf rest).
Proof.
  intros Hline Hc. induction line as [|c' line IH].
  - change (EmptyString +:+ String c rest) with (String c rest).
    by destruct Hc as [->| ->].
  - apply single_line_cons in Hline as (Hlf & Hcr & Hline).
    rewrite !string_app_cons. cbn [readline]. rewrite Hlf, Hcr.
    by rewrite (IH Hline).
Qed.

Lemma readline_last line :
  single_line line = true -> readline line = (line, EmptyString).
Proof.
  induction line as [|c line IH]; [done|]. intros Hline.
  apply single_line_cons in Hline as (Hlf & Hcr & Hline).
  cbn [readline]. rewrite Hlf, Hcr. by rewrite (IH Hline).
Qed.

Lemma skip_lf_field name rest :
  single_line name = true ->
  skip_lf (name +:+ ":" +:+ rest) = name +:+ ":" +:+ rest.
Proof.
  destruct name as [|c name]; [done|]. intros Hname.
  apply single_line_cons in Hname as (Hlf & _ & _).
  rewrite string_app_cons. unfold skip_lf. by rewrite Hlf.
Qed.

Lemma split_colon_1_first name value :
  contains ":"%char name = false ->
  split_colon_1 (name +:+ ":" +:+ value) = Ok value.
Proof.
  change (":" +:+ value) with (String ":"%char value).
  induction name as [|c name IH]; simpl; [done|].
  intros H. apply orb_false_iff in H as [Hc Hname]. rewrite Hc. by apply IH.
Qed.

Lemma split_colon_1_none s :
  contains ":"%char s = false -> split_colon_1 s = Err IndexError.
Proof.
  induction s as [|c s IH]; simpl; [done|].
  intros H. apply orb_false_iff in H as [Hc Hs]. rewrite Hc. by apply IH.
Qed.

Lemma contains_readline c s :
  c <> "010"%char ->
  contains c s = false -> contains c (fst (readline s)) = false.
Proof.
  intros Hlf.
  assert (contains c (String "010"%char EmptyString) = false) as Hbreak.
  { cbn [contains]. rewrite orb_false_r. apply Ascii.eqb_neq. congruence. }
  induction s as [|c' s IH]; [done|]. cbn [contains readline].
  intros H. apply orb_false_iff in H as [Hc Hs].
  destruct (Ascii.eqb c' "010"%char); [done|].
  destruct (Ascii.eqb c' "013"%char); [done|].
  destruct (readline s) as [line rest]. cbn [fst contains] in *.
  rewrite Hc. by apply IH.
Qed.

Lemma rev_app_app s t acc :
  String.rev_app (s +:+ t) acc = String.rev_app t (String.rev_app s acc).
Proof. revert acc. induction s as [|c s IH]; intros acc; simpl; [done|]. apply IH. Qed.

Lemma strip_trailing_space s c :
  isspace c = true -> strip (s +:+ String c EmptyString) = strip s.
Proof.
  intros Hc. unfold strip, String.rev. rewrite rev_app_app. simpl.
  by rewrite Hc.
Qed.

Lemma string_app_assoc (a b c : string) : (a +:+ b) +:+ c = a +:+ (b +:+ c).
Proof.
  induction a as [|x a IH]; [done|].
  change (String x ((a +:+ b) +:+ c) = String x (a +:+ (b +:+ c))).
  by rewrite IH.
Qed.

Lemma string_app_empty (a : string) : a +:+ EmptyString = a.
Proof.
  induction a as [|x a IH]; [done|].
  change (String x (a +:+ EmptyString) = String x a). by rewrite IH.
Qed.

Section MoreCdsRequestFacts.

Variable cdsapi_Client : string -> string -> Client.
Variable CDSAPI_CONFIG_PATH : Path.

(** X3: the loop fails before it sends anything when it cannot start.  A
    dataset that is not a key of [PRODUCT_FNAME] raises [KeyError] (the
    configuration is not even read); for a known dataset, a missing
    configuration file raises [FileNotFoundError] and a configuration of
    ASCII text without any colon raises [IndexError].  In each case the
    files and the log are as they were. *)
Theorem cds_request_cannot_start
    dataset variables time_bounds spatial_bounds path cds_var_names overwrite w :
  dict_get PRODUCT_FNAME dataset = None
  \/ nodes w !! CDSAPI_CONFIG_PATH = None
  \/ (exists text, nodes w !! CDSAPI_CONFIG_PATH = Some (File text)
                   /\ is_ascii text = true
                   /\ contains ":"%char text = false) ->
  cds_request cdsapi_Client CDSAPI_CONFIG_PATH dataset variables time_bounds
              spatial_bounds path cds_var_names overwrite w
  = (Err (match dict_get PRODUCT_FNAME dataset with
          | None => KeyError dataset
          | Some _ =>
              match nodes w !! CDSAPI_CONFIG_PATH with
              | None => FileNotFoundError CDSAPI_CONFIG_PATH
              | Some _ => IndexError
              end
          end), w).
Proof.
  intros H. unfold cds_request.
  unfold mbind at 1. unfold M_bind at 1. unfold lift, getitem.
  destruct (dict_get PRODUCT_FNAME dataset) as [fname|]; [|done].
  destruct H as [H|H]; [discriminate|].
  unfold mbind at 1. unfold M_bind at 1.
  unfold read_config. unfold mbind at 1. unfold M_bind at 1.
  unfold open_text.
  destruct H as [->|(text & -> & _ & Hcolon)]; [done|].
  pose proof (contains_readline ":"%char text ltac:(discriminate) Hcolon)
    as Hline.
  destruct (readline text) as [line1 rest]. cbn [fst] in Hline.
  unfold mbind at 1. unfold M_bind at 1. unfold lift.
  by rewrite split_colon_1_none.
Qed.

(** X4: the format of the configuration file the loop accepts.  For a
    file of ASCII text, the first two lines, ended by a line feed, a
    carriage return or both, are each cut at their first colon; what is
    before it is not looked at, what is after it (colons included) is the
    value with the white space around it removed; further lines are
    ignored; and reading changes nothing. *)
Theorem read_config_two_lines text name1 url nl name2 api_key tail w :
  text = name1 +:+ ":" +:+ url +:+ nl +:+ name2 +:+ ":" +:+ api_key +:+ tail ->
  is_ascii text = true ->
  contains ":"%char name1 = false -> single_line name1 = true ->
  single_line url = true ->
  contains ":"%char name2 = false -> single_line name2 = true ->
  single_line api_key = true ->
  nl = String "010"%char EmptyString
  \/ nl = String "013"%char EmptyString
  \/ nl = String "013"%char (String "010"%char EmptyString) ->
  tail = EmptyString
  \/ (exists c more, tail = String c more
                     /\ (c = "010"%char \/ c = "013"%char)) ->
  nodes w !! CDSAPI_CONFIG_PATH = Some (File text) ->
  read_config CDSAPI_CONFIG_PATH w = (Ok (strip url, strip api_key), w).
Proof.
  intros -> _ Hn1c Hn1 Hurl Hn2c Hn2 Hkey Hnl Htail Hfile.
  unfold read_config. unfold mbind at 1. unfold M_bind at 1.
  unfold open_text. rewrite Hfile.
  set (second := name2 +:+ ":" +:+ api_key +:+ tail).
  assert (readline (name1 +:+ ":" +:+ url +:+ nl +:+ second)
          = (name1 +:+ ":" +:+ url +:+ String "010"%char EmptyString, second))
    as ->.
  { assert (single_line (name1 +:+ ":" +:+ url) = true) as Hfirst
      by (apply single_line_app; [done|by apply single_line_app]).
    destruct Hnl as [->|[->| ->]].
    - replace (name1 +:+ ":" +:+ url +:+ String "010"%char EmptyString +:+ second)
        with ((name1 +:+ ":" +:+ url) +:+ String "010"%char second)
        by (by rewrite !string_app_assoc).
      rewrite readline_break; [|done|by left].
      by rewrite Ascii.eqb_refl, !string_app_assoc.
    - replace (name1 +:+ ":" +:+ url +:+ String "013"%char EmptyString +:+ second)
        with ((name1 +:+ ":" +:+ url) +:+ String "013"%char second)
        by (by rewrite !string_app_assoc).
      rewrite readline_break; [|done|by right].
      change (Ascii.eqb "013"%char "010"%char) with false. cbv iota.
      subst second. rewrite skip_lf_field by done.
      by rewrite !string_app_assoc.
    - replace (name1 +:+ ":" +:+ url
               +:+ String "013"%char (String "010"%char EmptyString) +:+ second)
        with ((name1 +:+ ":" +:+ url)
              +:+ String "013"%char (String "010"%char second))
        by (by rewrite !string_app_assoc).
      rewrite readline_break; [|done|by right].
      change (Ascii.eqb "013"%char "010"%char) with false. cbv iota.
      unfold skip_lf. by rewrite Ascii.eqb_refl, !string_app_assoc. }
  unfold mbind at 1. unfold M_bind at 1. unfold lift.
  rewrite split_colon_1_first by done.
  assert (exists nl',
             fst (readline second) = name2 +:+ ":" +:+ api_key +:+ nl'
             /\ (nl' = EmptyString \/ nl' = String "010"%char EmptyString))
    as (nl' & Hline2 & Hnl').
  { assert (single_line (name2 +:+ ":" +:+ api_key) = true) as Hsecond
      by (apply single_line_app; [done|by apply single_line_app]).
    subst second. destruct Htail as [->|(c & more & -> & Hc)].
    - exists EmptyString. split; [|by left].
      rewrite !string_app_empty. by rewrite readline_last.
    - exists (String "010"%char EmptyString). split; [|by right].
      replace (name2 +:+ ":" +:+ api_key +:+ String c more)
        with ((name2 +:+ ":" +:+ api_key) +:+ String c more)
        by (by rewrite !string_app_assoc).
      rewrite readline_break by done. cbn [fst].
      by rewrite !string_app_assoc. }
  destruct (readline second) as [line2 rest2].
  cbn [fst] in Hline2. subst line2.
  unfold mbind at 1. unfold M_bind at 1.
  rewrite split_colon_1_first by done.
  unfold mret, M_ret. f_equal. f_equal. f_equal.
  - by apply strip_trailing_space.
  - destruct Hnl' as [->| ->].
    + by rewrite string_app_empty.
    + by apply strip_trailing_space.
Qed.

Lemma for_each_preserves {A} (body : A -> M unit) (P : World -> Prop) :
  (forall item w, P w -> P (snd (body item w))) ->
  forall items w, P w -> P (snd (for_each items body w)).
Proof.
  intros Hbody items. induction items as [|item rest IH]; intros w HP; [done|].
  rewrite for_each_cons. specialize (Hbody item w HP).
  destruct (body item w) as [[[]|e] w1]; simpl in *; [by apply IH|done].
Qed.

(** What a pass that completes has done to the files. *)
Lemma cds_request_item_Ok c dataset fname sb path names overwrite item w w1 :
  cds_request_item c dataset fname sb path names overwrite item w = (Ok tt, w1) ->
  exists cds_name r,
    dict_get names (snd item) = Some cds_name
    /\ answer c (log w) dataset (item_request cds_name sb item) = Ok r
    /\ ((exists body, payload r = Ok body
                      /\ nodes w1 = <[item_path path fname item := File body]>
                                      (nodes w))
        \/ (overwrite = false /\ nodes w1 = nodes w
            /\ st_size w (item_path path fname item) = content_length r)).
Proof.
  intros Hrun.
  destruct (dict_get names (snd item)) as [cds_name|] eqn:Hname.
  2:{ rewrite cds_request_item_unknown in Hrun by done. discriminate. }
  rewrite (cds_request_item_run c dataset fname sb path names overwrite item
             cds_name w Hname) in Hrun. cbv zeta in Hrun.
  destruct (answer c (log w) dataset _) as [r|e] eqn:Hans; [|discriminate].
  exists cds_name, r. split; [done|]. split; [done|].
  fold (st_size w (item_path path fname item)) in Hrun.
  destruct (negb _) eqn:Hsize; cbn [orb] in Hrun.
  - destruct (payload r) as [body|e]; [|discriminate].
    injection Hrun as <-. left. by exists body.
  - destruct overwrite.
    + destruct (payload r) as [body|e]; [|discriminate].
      injection Hrun as <-. left. by exists body.
    + injection Hrun as <-. right. split; [done|]. split; [done|].
      apply negb_false_iff in Hsize. by apply Z.eqb_eq.
Qed.

(** A pass leaves the files as they are or puts one file at its target. *)
Lemma cds_request_item_nodes c dataset fname sb path names overwrite item w :
  nodes (snd (cds_request_item c dataset fname sb path names overwrite item w))
  = nodes w
  \/ exists body,
      nodes (snd (cds_request_item c dataset fname sb path names overwrite
                                   item w))
      = <[item_path path fname item := File body]> (nodes w).
Proof.
  destruct (dict_get names (snd item)) as [cds_name|] eqn:Hname.
  2:{ rewrite cds_request_item_unknown by done. by left. }
  rewrite (cds_request_item_run c dataset fname sb path names overwrite item
             cds_name w Hname). cbv zeta.
  destruct (answer c (log w) dataset _) as [r|e]; [|by left].
  destruct (negb _ || overwrite); [|by left].
  destruct (payload r) as [body|e]; [|by left].
  right. by exists body.
Qed.

Lemma cds_request_cases dataset variables tb sb path names overwrite w :
  (exists e,
      cds_request cdsapi_Client CDSAPI_CONFIG_PATH dataset variables tb sb
                  path names overwrite w = (Err e, w))
  \/ exists fname url api_key,
      dict_get PRODUCT_FNAME dataset = Some fname
      /\ read_config CDSAPI_CONFIG_PATH w = (Ok (url, api_key), w)
      /\ cds_request cdsapi_Client CDSAPI_CONFIG_PATH dataset variables tb sb
                     path names overwrite w
         = for_each (product (time_bounds_to_year_month tb) variables)
             (cds_request_item (cdsapi_Client url api_key) dataset fname sb
                               path names overwrite) w.
Proof.
  destruct (dict_get PRODUCT_FNAME dataset) as [fname|] eqn:Hfname.
  2:{ left. exists (KeyError dataset). unfold cds_request.
      unfold mbind at 1. unfold M_bind at 1. unfold lift, getitem.
      by rewrite Hfname. }
  pose proof (read_config_world CDSAPI_CONFIG_PATH w) as Hw.
  destruct (read_config CDSAPI_CONFIG_PATH w) as [[[url api_key]|e] w1] eqn:Hcfg;
    cbn [snd] in Hw; subst w1.
  - right. exists fname, url, api_key. split; [done|]. split; [done|].
    by apply cds_request_run.
  - left. exists e. unfold cds_request.
    unfold mbind at 1. unfold M_bind at 1. unfold lift, getitem.
    rewrite Hfname. unfold mbind at 1. unfold M_bind at 1. by rewrite Hcfg.
Qed.

Lemma product_nil_r {A B} (xs : list A) : product xs (@nil B) = [].
Proof. unfold product. induction xs as [|x xs IH]; simpl; [done|]. apply IH. Qed.

(** X5: with nothing to ask for, the loop succeeds and does nothing.  For
    a known dataset, a readable configuration of ASCII text and valid
    dates that pandas can represent (years 1678 to 2261), an empty list of
    variables, or an end date before the last day of the month of the start
    date, gives success with the files and the log unchanged: no request
    is sent and no CDS name is looked up, so unknown variable names pass
    unnoticed. *)
Theorem cds_request_nothing_to_do
    dataset fname variables time_bounds spatial_bounds path cds_var_names
    overwrite url api_key w :
  dict_get PRODUCT_FNAME dataset = Some fname ->
  (exists text, nodes w !! CDSAPI_CONFIG_PATH = Some (File text)
                /\ is_ascii text = true) ->
  read_config CDSAPI_CONFIG_PATH w = (Ok (url, api_key), w) ->
  Calendar.valid_date (tb_start time_bounds) ->
  Calendar.valid_date (tb_end time_bounds) ->
  Calendar.representable (tb_start time_bounds) ->
  Calendar.representable (tb_end time_bounds) ->
  variables = []
  \/ Calendar.date_lt
       (tb_end time_bounds)
       (Calendar.mkdate
          (Calendar.year (tb_start time_bounds))
          (Calendar.month (tb_start time_bounds))
          (Calendar.days_in_month (Calendar.year (tb_start time_bounds))
                                  (Calendar.month (tb_start time_bounds)))) ->
  cds_request cdsapi_Client CDSAPI_CONFIG_PATH dataset variables time_bounds
              spatial_bounds path cds_var_names overwrite w
  = (Ok tt, w).
Proof.
  intros Hfname _ Hconfig Hs He _ _ Hnothing.
  rewrite (cds_request_run _ _ _ _ _ _ _ _ _ _ _ _ _ Hfname Hconfig).
  assert (product (time_bounds_to_year_month time_bounds) variables = [])
    as ->; [|done].
  destruct Hnothing as [->|Hlt]; [apply product_nil_r|].
  assert (time_bounds_to_year_month time_bounds = []) as ->; [|done].
  rewrite time_bounds_to_year_month_closed_form by done.
  rewrite <- month_end_of_own_month in Hlt by done.
  unfold Calendar.date_lt in Hlt.
  rewrite CalendarFacts.date_ltb_ordinal in Hlt
    by auto using CalendarFacts.valid_month_end_of.
  apply Z.ltb_lt in Hlt.
  pose proof (CalendarFacts.month_end_le_iff
                (Calendar.month_index (tb_start time_bounds))
                (tb_end time_bounds) He) as Hiff.
  rewrite seqZ_nil; [done|]. lia.
Qed.

(** X6: the loop keeps to its directory and removes nothing.  When no
    variable name holds a ["/"] (so that the name of every target is one
    path component), then, whatever the outcome, a path that is not
    directly inside the target directory holds after the run what it held
    before, and every path that held something before still holds
    something. *)
Theorem cds_request_stays_in_directory
    dataset variables time_bounds spatial_bounds path cds_var_names overwrite
    w p :
  Forall (fun variable => contains "/"%char variable = false) variables ->
  ((forall name, p <> path_join path name) ->
   nodes (snd (cds_request cdsapi_Client CDSAPI_CONFIG_PATH dataset variables
                           time_bounds spatial_bounds path cds_var_names
                           overwrite w)) !! p
   = nodes w !! p)
  /\ (is_Some (nodes w !! p) ->
      is_Some (nodes (snd (cds_request cdsapi_Client CDSAPI_CONFIG_PATH dataset
                             variables time_bounds spatial_bounds path
                             cds_var_names overwrite w)) !! p)).
Proof.
  intros _.
  destruct (cds_request_cases dataset variables time_bounds spatial_bounds
              path cds_var_names overwrite w)
    as [[e ->]|(fname & url & api_key & _ & _ & ->)]; [done|].
  split.
  - intros Hout.
    apply (for_each_preserves _ (fun w' => nodes w' !! p = nodes w !! p));
      [|done].
    intros item w0 Hw0.
    destruct (cds_request_item_nodes (cdsapi_Client url api_key) dataset fname
                spatial_bounds path cds_var_names overwrite item w0)
      as [->|[body ->]]; [done|].
    rewrite lookup_insert_ne; [done|]. unfold item_path. intros Heq.
    by apply (Hout (target_name fname (snd item) (fst (fst item))
                                (snd (fst item)))).
  - intros Hsome.
    apply (for_each_preserves _ (fun w' => is_Some (nodes w' !! p))); [|done].
    intros item w0 Hw0.
    destruct (cds_request_item_nodes (cdsapi_Client url api_key) dataset fname
                spatial_bounds path cds_var_names overwrite item w0)
      as [->|[body ->]]; [done|].
    destruct (decide (item_path path fname item = p)) as [->|Hne].
    + rewrite lookup_insert_eq. by eexists.
    + by rewrite lookup_insert_ne.
Qed.

Lemma for_each_targets_exist c dataset fname sb path names overwrite items w w' :
  overwrite = true
  \/ (forall events ds request r,
        answer c events ds request = Ok r -> content_length r <> 0) ->
  for_each items (cds_request_item c dataset fname sb path names overwrite) w
  = (Ok tt, w') ->
  forall item, In item items ->
    is_Some (nodes w' !! item_path path fname item).
Proof.
  intros Hcond. revert w. induction items as [|x rest IH]; intros w Hrun item Hin.
  { destruct Hin. }
  rewrite for_each_cons in Hrun.
  destruct (cds_request_item c dataset fname sb path names overwrite x w)
    as [[[]|e] w1] eqn:Hx; [|discriminate].
  destruct Hin as [->|Hin]; [|by eapply IH].
  assert (is_Some (nodes w1 !! item_path path fname item)) as Hsome.
  { apply cds_request_item_Ok in Hx
      as (cds_name & r & _ & Hans & [(body & _ & ->)|(Hov & -> & Hsize)]).
    - rewrite lookup_insert_eq. by eexists.
    - destruct Hcond as [->|Hnonzero]; [discriminate|].
      specialize (Hnonzero _ _ _ _ Hans). unfold st_size in Hsize.
      destruct (nodes w !! item_path path fname item); [by eexists|lia]. }
  replace w' with (snd (for_each rest
                          (cds_request_item c dataset fname sb path names
                                            overwrite) w1))
    by (by rewrite Hrun).
  apply (for_each_preserves _
           (fun w0 => is_Some (nodes w0 !! item_path path fname item)));
    [|done].
  intros y w0 Hw0.
  destruct (cds_request_item_nodes c dataset fname sb path names overwrite y w0)
    as [->|[body ->]]; [done|].
  destruct (decide (item_path path fname y = item_path path fname item))
    as [->|Hne].
  - rewrite lookup_insert_eq. by eexists.
  - by rewrite lookup_insert_ne.
Qed.

(** X7: after a run that completes, every target is there.  When the run
    overwrites, or when the service never reports a content length of 0,
    the path of every (year, month, variable) item holds something once the
    loop has returned. *)
Theorem cds_request_targets_exist
    dataset fname variables time_bounds spatial_bounds path cds_var_names
    overwrite w w' :
  dict_get PRODUCT_FNAME dataset = Some fname ->
  overwrite = true
  \/ (forall url api_key events ds request r,
        answer (cdsapi_Client url api_key) events ds request = Ok r ->
        content_length r <> 0) ->
  cds_request cdsapi_Client CDSAPI_CONFIG_PATH dataset variables time_bounds
              spatial_bounds path cds_var_names overwrite w = (Ok tt, w') ->
  forall item,
    In item (product (time_bounds_to_year_month time_bounds) variables) ->
    is_Some (nodes w' !! item_path path fname item).
Proof.
  intros Hfname Hcond Hrun item Hin.
  destruct (cds_request_Ok _ _ _ _ _ _ _ _ _ _ _ Hrun)
    as (fname' & url & api_key & Hfname' & Hconfig).
  assert (fname' = fname) as -> by congruence.
  rewrite (cds_request_run _ _ _ _ _ _ _ _ _ _ _ _ _ Hfname Hconfig) in Hrun.
  eapply for_each_targets_exist; [|exact Hrun|exact Hin].
  destruct Hcond as [->|Hnonzero]; [by left|right]. intros. by eapply Hnonzero.
Qed.

(** X8: a variable without a CDS name stops the loop where it is met, and
    nothing is undone.  When the passes before an item have completed and
    the variable of that item is not a key of the CDS names, the loop
    raises [KeyError] for that variable in the world the earlier passes
    have left, with their requests sent and their files written, and sends
    no request for the item. *)
Theorem cds_request_unknown_variable
    dataset fname variables time_bounds spatial_bounds path cds_var_names
    overwrite url api_key before item after w w1 :
  dict_get PRODUCT_FNAME dataset = Some fname ->
  read_config CDSAPI_CONFIG_PATH w = (Ok (url, api_key), w) ->
  product (time_bounds_to_year_month time_bounds) variables
  = before ++ item :: after ->
  for_each before
    (cds_request_item (cdsapi_Client url api_key) dataset fname spatial_bounds
                      path cds_var_names overwrite) w = (Ok tt, w1) ->
  dict_get cds_var_names (snd item) = None ->
  cds_request cdsapi_Client CDSAPI_CONFIG_PATH dataset variables time_bounds
              spatial_bounds path cds_var_names overwrite w
  = (Err (KeyError (snd item)), w1).
Proof.
  intros Hfname Hconfig Hitems Hbefore Hname.
  rewrite (cds_request_run _ _ _ _ _ _ _ _ _ _ _ _ _ Hfname Hconfig).
  rewrite Hitems. apply (for_each_raises _ _ _ _ _ w1); [done|].
  by apply cds_request_item_unknown.
Qed.

End MoreCdsRequestFacts.

(** * Further properties of the dataset facade *)

Lemma for_each_app {A} (body : A -> M unit) xs ys w :
  for_each (xs ++ ys) body w
  = match for_each xs body w with
    | (Ok _, w1) => for_each ys body w1
    | (Err e, w1) => (Err e, w1)
    end.
Proof.
  revert w. induction xs as [|x xs IH]; intros w; [done|].
  cbn [app]. rewrite !for_each_cons.
  destruct (body x w) as [[[]|e] w1]; [apply IH|done].
Qed.

(** One step of [mkdir] leaves the log alone and at most adds a directory
    where there was nothing. *)
Lemma mkdir_one_effect p w :
  log (snd (mkdir_one p w)) = log w
  /\ (forall q x, nodes w !! q = Some x -> nodes (snd (mkdir_one p w)) !! q = Some x)
  /\ (forall q, q <> p -> nodes (snd (mkdir_one p w)) !! q = nodes w !! q).
Proof.
  unfold mkdir_one. destruct (nodes w !! p) as [[content|]|] eqn:Hp; simpl;
    try done.
  split; [done|]. split.
  - intros q x Hq. destruct (decide (p = q)) as [->|Hne]; [congruence|].
    by rewrite lookup_insert_ne.
  - intros q Hne. by rewrite lookup_insert_ne.
Qed.

Lemma mkdir_effect p w :
  log (snd (mkdir p w)) = log w
  /\ (forall q x, nodes w !! q = Some x -> nodes (snd (mkdir p w)) !! q = Some x)
  /\ (forall q, (forall n, q <> take n p) ->
                nodes (snd (mkdir p w)) !! q = nodes w !! q).
Proof.
  unfold mkdir. split; [|split].
  - apply (for_each_preserves _ (fun w' => log w' = log w)); [|done].
    intros q w0 <-. apply mkdir_one_effect.
  - intros q x Hq.
    apply (for_each_preserves _ (fun w' => nodes w' !! q = Some x)); [|done].
    intros q' w0 Hw0. by apply mkdir_one_effect.
  - intros q Hq.
    generalize (seq 1 (length p)). intros ns. revert w.
    induction ns as [|n ns IH]; intros w; [done|].
    cbn [map]. rewrite for_each_cons.
    destruct (mkdir_one_effect (take n p) w) as (_ & _ & Hframe).
    specialize (Hframe q (Hq n)).
    destruct (mkdir_one (take n p) w) as [[[]|e] w1]; simpl in *.
    + by rewrite IH.
    + done.
Qed.

(** A completed [mkdir] of a path with at least one component has left a
    directory at it. *)
Lemma mkdir_Ok_is_dir p w w1 :
  p <> [] -> mkdir p w = (Ok tt, w1) -> nodes w1 !! p = Some Dir.
Proof.
  intros Hp. unfold mkdir.
  destruct (length p) as [|k] eqn:Hlen.
  { destruct p; [done|discriminate]. }
  rewrite seq_S, map_app. cbn [map]. rewrite for_each_app.
  match goal with
  | |- context [for_each ?l mkdir_one w] =>
      destruct (for_each l mkdir_one w) as [[[]|e] w0]; [|discriminate]
  end.
  rewrite for_each_cons.
  replace (take (1 + k) p) with p
    by (change (1 + k)%nat with (S k); by rewrite <- Hlen, firstn_all).
  unfold mkdir_one at 1.
  match goal with
  | |- context [match ?t with Some _ => _ | None => _ end] =>
      destruct t as [[content|]|] eqn:Hnode
  end; simpl.
  - intros [=].
  - intros [= <-]. done.
  - intros [= <-]. simpl. by rewrite lookup_insert_eq.
Qed.

Section MoreFacadeFacts.

Variable cdsapi_Client : string -> string -> Client.
Variable CDSAPI_CONFIG_PATH : Path.
Variable properties_json :
  SpatialBounds -> TimeBounds -> list string -> string.

(** X9: what [ERA5.download] does as it is written, for every request.
    It never returns a success value, sends no request and prints nothing,
    keeps everything that exists, and does not write the properties file;
    for a request inside the envelope whose directory can be made, it
    raises the [TypeError] of its call of [cds_request] and leaves the
    dataset directory behind. *)
Theorem ERA5_download_outcome download_dir tb sb names overwrite w :
  let run := ERA5_download cdsapi_Client CDSAPI_CONFIG_PATH properties_json
                           download_dir tb sb names overwrite w in
  let folder := path_join download_dir "era5" in
  (forall b, fst run <> Ok b)
  /\ log (snd run) = log w
  /\ (forall q x, nodes w !! q = Some x -> nodes (snd run) !! q = Some x)
  /\ nodes (snd run) !! path_join folder "properties.json"
     = nodes w !! path_join folder "properties.json"
  /\ (within_envelope ERA5 tb sb names = true ->
      (exists w1, mkdir folder w = (Ok tt, w1)) ->
      fst run
      = Err (TypeError
               "cds_request() got an unexpected keyword argument 'product'")
      /\ nodes (snd run) !! folder = Some Dir).
Proof.
  intros run folder. subst run. rewrite ERA5_download_run.
  change (path_join download_dir (Dataset.name ERA5)) with folder.
  destruct (mkdir_effect folder w) as (Hlog & Hkeep & Hframe).
  assert (forall n, path_join folder "properties.json" <> take n folder) as Hprops.
  { intros n Heq. apply (f_equal length) in Heq.
    unfold path_join in Heq. rewrite length_app, length_take in Heq.
    simpl in Heq. lia. }
  destruct (within_envelope ERA5 tb sb names).
  - destruct (mkdir folder w) as [[[]|e] w1] eqn:Hmkdir; cbn [fst snd] in *.
    + rewrite ERA5_call_cds_request_raises. cbn [fst snd].
      split; [done|]. split; [done|]. split; [done|].
      split; [by apply Hframe|]. intros _ _. split; [done|].
      eapply mkdir_Ok_is_dir; [|exact Hmkdir].
      unfold folder, path_join. by destruct download_dir.
    + split; [done|]. split; [done|]. split; [done|].
      split; [by apply Hframe|]. intros _ [w2 [=]].
  - simpl. split; [done|]. split; [done|]. split; [done|]. split; [done|].
    intros [=].
Qed.

End MoreFacadeFacts.

(** * Paths with another suffix *)

Lemma string_length_app (a b : string) :
  String.length (a +:+ b) = (String.length a + String.length b)%nat.
Proof.
  induction a as [|x a IH]; [done|].
  change (S (String.length (a +:+ b)) = S (String.length a + String.length b)).
  by rewrite IH.
Qed.

Lemma substring_app_l (a b : string) :
  String.substring 0 (String.length a) (a +:+ b) = a.
Proof.
  induction a as [|x a IH]; [by destruct b|].
  change (String x (String.substring 0 (String.length a) (a +:+ b)) = String x a).
  by rewrite IH.
Qed.

Lemma substring_all (b : string) : String.substring 0 (String.length b) b = b.
Proof. induction b as [|x b IH]; [done|]. simpl. by rewrite IH. Qed.

Lemma substring_app_r (a b : string) :
  String.substring (String.length a) (String.length b) (a +:+ b) = b.
Proof.
  induction a as [|x a IH]; [apply substring_all|].
  change (String.substring (String.length a) (String.length b) (a +:+ b) = b).
  apply IH.
Qed.

Lemma length_substring (s : string) (n m : nat) :
  (n + m <= String.length s)%nat -> String.length (String.substring n m s) = m.
Proof.
  revert n m. induction s as [|x s IH]; intros n m H; simpl in H.
  - assert (n = 0%nat) as -> by lia. assert (m = 0%nat) as -> by lia. done.
  - destruct n as [|n]; simpl.
    + destruct m as [|m]; [done|]. simpl. rewrite IH by lia. done.
    + apply IH. lia.
Qed.

Lemma rfind_dot_lt name i : rfind_dot name = Some i -> (i < String.length name)%nat.
Proof.
  revert i. induction name as [|c name IH]; intros i; simpl; [done|].
  destruct (rfind_dot name) as [j|].
  - intros [= <-]. specialize (IH j eq_refl). lia.
  - destruct (Ascii.eqb c "."%char); [|done]. intros [= <-]. lia.
Qed.

Lemma rfind_dot_none ext : contains "."%char ext = false -> rfind_dot ext = None.
Proof.
  induction ext as [|c ext IH]; simpl; [done|].
  intros H. apply orb_false_iff in H as [Hc Hext]. rewrite IH by done.
  by rewrite Hc.
Qed.

Lemma rfind_dot_app stem ext :
  contains "."%char ext = false ->
  rfind_dot (stem +:+ String "."%char ext) = Some (String.length stem).
Proof.
  intros Hext. induction stem as [|c stem IH].
  - change (rfind_dot (String "."%char ext) = Some 0%nat). simpl.
    by rewrite rfind_dot_none.
  - change (rfind_dot (String c (stem +:+ String "."%char ext))
            = Some (S (String.length stem))).
    simpl. by rewrite IH.
Qed.

Lemma suffix_app stem ext :
  stem <> EmptyString -> ext <> EmptyString ->
  contains "."%char ext = false ->
  suffix (stem +:+ String "."%char ext) = String "."%char ext.
Proof.
  intros Hstem Hext Hdot. unfold suffix. rewrite rfind_dot_app by done.
  rewrite string_length_app. cbn [String.length].
  assert (0 < String.length stem)%nat by (destruct stem; [done|simpl; lia]).
  assert (0 < String.length ext)%nat by (destruct ext; [done|simpl; lia]).
  replace ((0 <? String.length stem)%nat) with true
    by (symmetry; apply Nat.ltb_lt; lia).
  replace ((String.length stem <? String.length stem + S (String.length ext) - 1)%nat)
    with true by (symmetry; apply Nat.ltb_lt; lia).
  cbn [andb].
  replace (String.length stem + S (String.length ext) - String.length stem)%nat
    with (String.length (String "."%char ext)) by (simpl; lia).
  apply substring_app_r.
Qed.

(** The name [with_suffix] builds: a stem that is not empty, then the new
    suffix. *)
Lemma with_suffix_name path new_suffix path' :
  with_suffix path new_suffix = Ok path' ->
  exists stem,
    stem <> EmptyString
    /\ path' = removelast path ++ [stem +:+ new_suffix]
    /\ (suffix (path_name path) = EmptyString -> stem = path_name path).
Proof.
  unfold with_suffix.
  destruct (contains "/"%char new_suffix); [discriminate|].
  destruct (_ || _); [discriminate|]. cbv zeta.
  destruct (String.eqb_spec (path_name path) EmptyString) as [|Hname];
    [discriminate|].
  destruct (String.eqb_spec (suffix (path_name path)) EmptyString) as [Hsfx|Hsfx].
  - intros [= <-]. by exists (path_name path).
  - intros [= <-].
    exists (String.substring 0
              (String.length (path_name path)
               - String.length (suffix (path_name path))) (path_name path)).
    split; [|split; [done|by intros]].
    unfold suffix in *.
    destruct (rfind_dot (path_name path)) as [i|] eqn:Hi; [|done].
    pose proof (rfind_dot_lt _ _ Hi) as Hlt.
    destruct ((0 <? i)%nat && _) eqn:Hcond; [|done].
    apply andb_true_iff in Hcond as [Hpos _]. apply Nat.ltb_lt in Hpos.
    rewrite (length_substring (path_name path) i) by lia.
    replace (String.length (path_name path)
             - (String.length (path_name path) - i))%nat with i by lia.
    intros Hempty. apply (f_equal String.length) in Hempty.
    rewrite length_substring in Hempty by lia. simpl in Hempty. lia.
Qed.

Lemma with_suffix_nc_unfold path :
  with_suffix path ".nc"
  = if String.eqb (path_name path) EmptyString
    then Err (ValueError "empty name")
    else Ok (removelast path
             ++ [if String.eqb (suffix (path_name path)) EmptyString
                 then path_name path +:+ ".nc"
                 else String.substring 0
                        (String.length (path_name path)
                         - String.length (suffix (path_name path)))
                        (path_name path) +:+ ".nc"]).
Proof. reflexivity. Qed.

(** A path whose name already ends in [.nc] is its own [with_suffix]. *)
Lemma with_suffix_nc_fixed dir stem :
  stem <> EmptyString ->
  with_suffix (dir ++ [stem +:+ ".nc"]) ".nc" = Ok (dir ++ [stem +:+ ".nc"]).
Proof.
  intros Hstem. rewrite with_suffix_nc_unfold.
  unfold path_name. rewrite last_last, removelast_last.
  change (stem +:+ ".nc") with (stem +:+ String "."%char "nc").
  rewrite suffix_app by done.
  destruct (String.eqb_spec (stem +:+ String "."%char "nc") EmptyString)
    as [Hempty|_].
  { apply (f_equal String.length) in Hempty.
    rewrite string_length_app in Hempty. simpl in Hempty. lia. }
  change (String.eqb (String "."%char "nc") EmptyString) with false.
  cbv iota. rewrite string_length_app.
  replace (String.length stem + String.length (String "."%char "nc")
           - String.length (String "."%char "nc"))%nat
    with (String.length stem) by lia.
  by rewrite substring_app_l.
Qed.

(** X13: the name a conversion writes to.  [with_suffix(".nc")] fails
    only on a path without a name; otherwise it keeps the directory,
    gives a name that is a non-empty stem followed by [.nc], and applied
    to its own result it returns that result. *)
Theorem with_suffix_nc path :
  (path_name path = EmptyString ->
   with_suffix path ".nc" = Err (ValueError "empty name"))
  /\ (path_name path <> EmptyString ->
      exists stem,
        stem <> EmptyString
        /\ with_suffix path ".nc" = Ok (removelast path ++ [stem +:+ ".nc"])
        /\ forall dir,
             with_suffix (dir ++ [stem +:+ ".nc"]) ".nc"
             = Ok (dir ++ [stem +:+ ".nc"])).
Proof.
  split.
  - intros Hname. by rewrite with_suffix_nc_unfold, Hname.
  - intros Hname.
    destruct (with_suffix path ".nc") as [path'|e] eqn:Hwith.
    2:{ rewrite with_suffix_nc_unfold in Hwith.
        destruct (String.eqb_spec (path_name path) EmptyString); [done|].
        discriminate. }
    destruct (with_suffix_name _ _ _ Hwith) as (stem & Hstem & -> & _).
    exists stem. split; [done|]. split; [done|].
    intros dir. by apply with_suffix_nc_fixed.
Qed.

Lemma with_suffix_nc_witness :
  exists stem,
    stem <> EmptyString
    /\ with_suffix ["download"; "era5_2010-1.grib"] ".nc"
       = Ok (removelast ["download"; "era5_2010-1.grib"] ++ [stem +:+ ".nc"])
    /\ forall dir,
         with_suffix (dir ++ [stem +:+ ".nc"]) ".nc"
         = Ok (dir ++ [stem +:+ ".nc"]).
Proof.
  apply (proj2 (with_suffix_nc ["download"; "era5_2010-1.grib"])).
  discriminate.
Defined.

Example with_suffix_examples :
  with_suffix ["a"; "era5_2010-1.grib"] ".nc" = Ok ["a"; "era5_2010-1.nc"]
  /\ with_suffix ["a"; "archive.tar.gz"] ".nc" = Ok ["a"; "archive.tar.nc"]
  /\ with_suffix ["a"; "README"] ".nc" = Ok ["a"; "README.nc"]
  /\ with_suffix ["a"; ".hidden"] ".nc" = Ok ["a"; ".hidden.nc"]
  /\ with_suffix [] ".nc" = Err (ValueError "empty name").
Proof. repeat split. Qed.

(** * Converting a downloaded file *)

Lemma ingest_target_Ok ingest_folder file ncfile :
  ingest_target ingest_folder file = Ok ncfile ->
  exists stem,
    stem <> EmptyString /\ ncfile = ingest_folder ++ [stem +:+ ".nc"].
Proof.
  unfold ingest_target. intros H.
  apply bind_Ok in H as (renamed & Hwith & [= <-]).
  destruct (with_suffix_name _ _ _ Hwith) as (stem & Hstem & -> & _).
  exists stem. split; [done|]. unfold path_join, path_name.
  by rewrite last_last.
Qed.

Lemma ingest_target_again ingest_folder file ncfile other_folder :
  ingest_target ingest_folder file = Ok ncfile ->
  ingest_target other_folder ncfile
  = Ok (path_join other_folder (path_name ncfile)).
Proof.
  intros H. destruct (ingest_target_Ok _ _ _ H) as (stem & Hstem & ->).
  unfold ingest_target. rewrite with_suffix_nc_fixed by done. done.
Qed.

Section IngestFacts.

Context {Values Unit : Type}.
Variable divide : Values -> Q -> Values.
Variable unit_str : Unit -> string.
Variable pint_to : string -> Unit -> Values -> result Values.
Variable keep_attrs : bool.
Variable VARIABLE_REFERENCE_LOOKUP : dict (VariableRef.t Unit).

Lemma convert_to_zampy_unfold ingest_folder file overwrite (d : @Disk Values) :
  convert_to_zampy divide unit_str pint_to keep_attrs VARIABLE_REFERENCE_LOOKUP
                   ingest_folder file overwrite d
  = match ingest_target ingest_folder file with
    | Err e => (Err e, d)
    | Ok ncfile =>
        if disk_exists d ncfile && negb overwrite then
          (Ok tt,
           mkDisk (disk_nodes d)
                  (printed d ++ ["File '" +:+ path_name ncfile
                                 +:+ "' already exists, skipping..."]))
        else
          match parse_nc_file divide unit_str pint_to keep_attrs
                              VARIABLE_REFERENCE_LOOKUP (disk_open d) file with
          | Err e => (Err e, d)
          | Ok ds => to_netcdf ds file ncfile d
          end
    end.
Proof. reflexivity. Qed.


Lemma to_netcdf_Ok (ds : @Dataset Values) source path d d1 :
  to_netcdf ds source path d = (Ok tt, d1) ->
  path <> source
  /\ d1 = mkDisk (<[path := NcFile ds]> (disk_nodes d)) (printed d).
Proof.
  unfold to_netcdf.
  destruct (negb _); [intros [=]|].
  destruct (is_folder d path); [intros [=]|].
  destruct (bool_decide_reflect (path = source)); [intros [=]|].
  by intros [= <-].
Qed.

Lemma is_folder_path_join (d : @Disk Values) folder name :
  is_folder d (path_join folder name)
  = match disk_nodes d !! path_join folder name with
    | Some Folder => true
    | _ => false
    end.
Proof. unfold path_join. by destruct folder. Qed.

Local Abbreviation convert_to_zampy :=
  (convert_to_zampy divide unit_str pint_to keep_attrs
                    VARIABLE_REFERENCE_LOOKUP).
Local Abbreviation parse_nc_file :=
  (parse_nc_file divide unit_str pint_to keep_attrs VARIABLE_REFERENCE_LOOKUP).

Implicit Types d : @Disk Values.

(** X14: an existing target is enough to skip.  When something exists at
    the target and [overwrite] is false, the conversion succeeds without
    opening the input (which may be missing or unreadable): it prints the
    "already exists" line and leaves every path as it is. *)
Theorem convert_to_zampy_skips_existing ingest_folder file ncfile d :
  ingest_target ingest_folder file = Ok ncfile ->
  is_Some (disk_nodes d !! ncfile) ->
  convert_to_zampy ingest_folder file false d
  = (Ok tt,
     mkDisk (disk_nodes d)
            (printed d ++ ["File '" +:+ path_name ncfile
                           +:+ "' already exists, skipping..."])).
Proof.
  intros Htarget [node Hnode]. rewrite convert_to_zampy_unfold, Htarget.
  unfold disk_exists. by rewrite Hnode.
Qed.


(** X16: converting a converted file changes nothing.  After a conversion
    that wrote its target from a file with distinct variable names,
    converting that target into another existing folder writes there the
    very dataset the target holds: the second normalisation renames,
    rescales and stamps nothing. *)
Theorem convert_to_zampy_again
    ingest_folder file overwrite d d1 ncfile ds other_folder overwrite' :
  ingest_target ingest_folder file = Ok ncfile ->
  disk_open d file = Ok ds -> NoDup (dict_keys ds) ->
  disk_exists d ncfile = false \/ overwrite = true ->
  convert_to_zampy ingest_folder file overwrite d = (Ok tt, d1) ->
  is_folder d1 other_folder = true ->
  path_join other_folder (path_name ncfile) <> ncfile ->
  disk_exists d1 (path_join other_folder (path_name ncfile)) = false
  \/ (overwrite' = true
      /\ is_folder d1 (path_join other_folder (path_name ncfile)) = false) ->
  exists ds',
    disk_nodes d1 !! ncfile = Some (NcFile ds')
    /\ convert_to_zampy other_folder ncfile overwrite' d1
       = (Ok tt,
          mkDisk (<[path_join other_folder (path_name ncfile) := NcFile ds']>
                    (disk_nodes d1))
                 (printed d1)).
Proof.
  intros Htarget Hopen Hnd Hwrite Hfirst Hfolder Hother Hwrite'.
  rewrite convert_to_zampy_unfold, Htarget in Hfirst.
  assert (disk_exists d ncfile && negb overwrite = false) as Hcond.
  { destruct Hwrite as [->| ->]; [done|apply andb_false_r]. }
  rewrite Hcond in Hfirst.
  destruct (parse_nc_file (disk_open d) file) as [ds'|e] eqn:Hparse;
    [|discriminate].
  apply to_netcdf_Ok in Hfirst as [_ Hd1]. exists ds'.
  split; [subst d1; apply lookup_insert_eq|].
  rewrite convert_to_zampy_unfold.
  rewrite (ingest_target_again _ _ _ other_folder Htarget).
  assert (disk_exists d1 (path_join other_folder (path_name ncfile))
          && negb overwrite' = false) as ->.
  { destruct Hwrite' as [->|[-> _]]; [done|apply andb_false_r]. }
  assert (is_folder d1 (path_join other_folder (path_name ncfile)) = false)
    as Hfile.
  { destruct Hwrite' as [Hnone|[_ Hfile]]; [|done].
    rewrite is_folder_path_join. unfold disk_exists in Hnone.
    by destruct (disk_nodes d1 !! _). }
  rewrite parse_nc_file_unfold in Hparse. rewrite Hopen in Hparse.
  cbn [mbind result_bind] in Hparse.
  apply parse_dataset_spec in Hparse as [Hall _]; [|done].
  pose proof (parsed_names_unregistered divide unit_str pint_to keep_attrs
                VARIABLE_REFERENCE_LOOKUP _ _ Hall) as Hnames.
  assert (disk_open d1 ncfile = Ok ds') as Hopen'.
  { subst d1. unfold disk_open. cbn [disk_nodes].
    by rewrite lookup_insert_eq. }
  rewrite parse_nc_file_unfold, Hopen'. cbn [mbind result_bind].
  rewrite parse_variables_unregistered by done.
  unfold to_netcdf. unfold path_join at 1. rewrite removelast_last.
  fold (path_join other_folder (path_name ncfile)).
  rewrite Hfolder, Hfile. cbn [negb].
  by rewrite bool_decide_eq_false_2.
Qed.

End IngestFacts.

(** * The progress bar and the download of a URL *)

Lemma update_to_fields self b bsize tsize :
  Bar.desc (update_to self b bsize tsize) = Bar.desc self
  /\ Bar.disable (update_to self b bsize tsize) = Bar.disable self
  /\ Bar.total (update_to self b bsize tsize)
     = match tsize with Some t => Some t | None => Bar.total self end
  /\ Bar.n (update_to self b bsize tsize)
     = if Bar.disable self then Bar.n self else b * bsize.
Proof.
  unfold update_to, tqdm_update.
  destruct tsize as [t|], self as [desc n total []]; simpl;
    repeat split; try done; lia.
Qed.

Lemma fold_update_to_kept calls self :
  let bar :=
    fold_left (fun t call => update_to t (fst (fst call)) (snd (fst call))
                                       (snd call))
              calls self in
  Bar.desc bar = Bar.desc self
  /\ Bar.disable bar = Bar.disable self
  /\ (Bar.disable self = true -> Bar.n bar = Bar.n self).
Proof.
  cbv zeta. revert self.
  induction calls as [|[[b' bs'] ts'] calls IH]; intros self; [done|].
  cbn [fold_left fst snd].
  destruct (update_to_fields self b' bs' ts') as (Hd & Hdi & _ & Hn).
  destruct (IH (update_to self b' bs' ts')) as (IH1 & IH2 & IH3).
  rewrite IH1, IH2, Hd, Hdi. split; [done|]. split; [done|].
  intros Hdisabled. rewrite IH3 by congruence. by rewrite Hn, Hdisabled.
Qed.

(** X17: [update_to] turns the absolute block counts of a report hook
    into the steps [tqdm] wants.  After any sequence of calls, the
    position of an enabled bar is [b * bsize] of the last call, whatever
    it was before and whatever the earlier calls were; a disabled bar
    keeps its position.  In both cases the description is kept and the
    total is the [tsize] of the last call when it gives one. *)
Theorem update_to_absolute self calls b bsize tsize :
  let bar :=
    fold_left (fun t call => update_to t (fst (fst call)) (snd (fst call))
                                       (snd call))
              (calls ++ [((b, bsize), Some tsize)]) self in
  Bar.n bar = (if Bar.disable self then Bar.n self else b * bsize)
  /\ Bar.total bar = Some tsize
  /\ Bar.desc bar = Bar.desc self
  /\ Bar.disable bar = Bar.disable self.
Proof.
  cbv zeta. rewrite fold_left_app. cbn [fold_left fst snd].
  destruct (fold_update_to_kept calls self) as (Hdesc & Hdis & Hn).
  cbv zeta in Hdesc, Hdis, Hn. set (before := fold_left _ calls self) in *.
  destruct (update_to_fields before b bsize (Some tsize))
    as (Hd & Hdi & Ht & Hnn).
  rewrite Hnn, Ht, Hd, Hdi, Hdesc, Hdis.
  repeat split. destruct (Bar.disable self) eqn:E; [by apply Hn|done].
Qed.

Lemma report_blocks_fields t count bs size :
  Bar.disable t = false ->
  report_blocks t count bs size
  = Bar.make (Bar.desc t) (Z.of_nat count * bs) (Some size) false.
Proof.
  intros Hen. unfold report_blocks. rewrite seq_S. cbn [plus].
  rewrite fold_left_app. cbn [fold_left].
  assert (forall (l : list nat) (t0 : Bar.t),
            fold_left (fun t1 blocknum =>
                         update_to t1 (Z.of_nat blocknum) bs (Some size))
                      l t0
            = fold_left (fun t1 call =>
                           update_to t1 (fst (fst call)) (snd (fst call))
                                     (snd call))
                        (map (fun k => ((Z.of_nat k, bs), Some size)) l) t0)
    as Hfold.
  { induction l as [|k l IH]; intros t0; [done|]. cbn [map fold_left fst snd].
    apply IH. }
  rewrite Hfold.
  destruct (fold_update_to_kept
              (map (fun k => ((Z.of_nat k, bs), Some size)) (seq 0 count)) t)
    as (Hdesc & Hdis & _).
  cbv zeta in Hdesc, Hdis. set (before := fold_left _ _ t) in *.
  destruct (update_to_fields before (Z.of_nat count) bs (Some size))
    as (Hd & Hdi & Ht & Hn).
  rewrite Hdis, Hen in Hn, Hdi. rewrite Hdesc in Hd.
  destruct (update_to _ _ _ _) as [desc n total disable]. simpl in *.
  by subst.
Qed.

Section DownloadUrlFacts.

Variable web : Web.
Variable int : string -> result Z.

Lemma on_world_get_file_size fpath h :
  on_world (get_file_size fpath) h = (Ok (st_size (world h) fpath), h).
Proof. by destruct h. Qed.

Lemma download_url_unfold url fpath overwrite h :
  download_url web int url fpath overwrite h
  = match get_url_size web int url h with
    | (Ok url_size, h') =>
        if negb (st_size (world h) fpath =? url_size) || overwrite then
          urlretrieve_with_bar web url fpath h'
        else
          on_world (print ("File '" +:+ path_name fpath
                           +:+ "' already exists, skipping...")) h'
    | (Err e, h') => (Err e, h')
    end.
Proof.
  unfold download_url. unfold mbind at 1. unfold H_bind at 1.
  rewrite on_world_get_file_size. unfold mbind at 1. unfold H_bind at 1.
  destruct (get_url_size web int url h) as [[url_size|e] h']; [|done].
  by destruct (negb _ || overwrite).
Qed.

Lemma get_url_size_Ok url h url_size :
  probe_gives web int h url url_size ->
  get_url_size web int url h
  = (Ok url_size, mkHttpWorld (world h) (requests h ++ [Head url]) (bars h)).
Proof.
  intros (response & value & Hhead & Hheader & Hint).
  unfold get_url_size. by rewrite Hhead, Hheader, Hint.
Qed.

(** X18: a download is skipped on equal sizes alone.  When the size the
    server reports equals what [get_file_size] measures at the path (0 if
    nothing is there) and [overwrite] is false, [download_url] makes the
    HEAD request and nothing else: no retrieval, no progress bar, the
    files unchanged, and the "already exists" line printed, also when no
    file exists and the reported size is 0. *)
Theorem download_url_skips_on_equal_size url fpath h url_size :
  probe_gives web int h url url_size ->
  st_size (world h) fpath = url_size ->
  download_url web int url fpath false h
  = (Ok tt,
     mkHttpWorld
       (mkWorld (nodes (world h)) (dir_st_size (world h))
                (log (world h)
                 ++ [Print ("File '" +:+ path_name fpath
                            +:+ "' already exists, skipping...")]))
       (requests h ++ [Head url]) (bars h)).
Proof.
  intros Hprobe Hsize. rewrite download_url_unfold.
  rewrite (get_url_size_Ok _ _ _ Hprobe), Hsize, Z.eqb_refl. done.
Qed.

(** X19: [overwrite] does not spare the size probe.  When the HEAD request
    fails, or its response has no [Content-Length], or the header is not
    an integer, [download_url] raises that error after the HEAD request
    and retrieves nothing, whatever [overwrite] is: the files and the
    progress bars are as they were. *)
Theorem download_url_probe_fails url fpath overwrite h :
  (exists e, head web (requests h) url = Err e)
  \/ (exists response,
         head web (requests h) url = Ok response
         /\ (header_content_length response = None
             \/ exists value e,
                 header_content_length response = Some value
                 /\ int value = Err e)) ->
  exists e,
    download_url web int url fpath overwrite h
    = (Err e, mkHttpWorld (world h) (requests h ++ [Head url]) (bars h)).
Proof.
  intros Hfail. rewrite download_url_unfold. unfold get_url_size.
  destruct Hfail as [[e ->]|(response & -> & [->|(value & e & -> & ->)])];
    by eexists.
Qed.

(** X20: what a retrieval leaves behind.  When the probe succeeds, the
    sizes differ or [overwrite] is set, the URL opens and the file can be
    opened for writing, [download_url] makes the HEAD request and then
    the retrieval, puts the blocks it read, joined, at the path, and shows
    one progress bar, named after the last segment of the URL, whose total
    is the declared size and whose position is 8192 times the number of
    blocks.  It raises what a failing read raised; otherwise it raises
    [ContentTooShortError] exactly when a size was declared and fewer
    bytes arrived.  In both cases the partial file is left in place. *)
Theorem download_url_retrieves
    url fpath overwrite h url_size transfer blocks failure :
  probe_gives web int h url url_size ->
  st_size (world h) fpath <> url_size \/ overwrite = true ->
  urlopen web (requests h ++ [Head url]) url = Ok transfer ->
  open_wb (world h) fpath = Ok tt ->
  read_loop (reads transfer) = (blocks, failure) ->
  let content := String.concat EmptyString blocks in
  let short := (0 <=? declared_size transfer)
               && (Z.of_nat (String.length content) <? declared_size transfer) in
  download_url web int url fpath overwrite h
  = (match failure with
     | Some e => Err e
     | None => if short then Err (ExternalError "ContentTooShortError")
               else Ok tt
     end,
     mkHttpWorld
       (mkWorld (<[fpath := File content]> (nodes (world h)))
                (dir_st_size (world h)) (log (world h)))
       (requests h ++ [Head url; UrlRetrieve url fpath])
       (bars h ++ [Bar.make (last_segment url)
                            (8192 * Z.of_nat (length blocks))
                            (Some (declared_size transfer)) false])).
Proof.
  intros Hprobe Hfetch Hopen Hfile Hread. cbv zeta.
  rewrite download_url_unfold.
  rewrite (get_url_size_Ok _ _ _ Hprobe).
  assert (negb (st_size (world h) fpath =? url_size) || overwrite = true) as ->.
  { destruct Hfetch as [Hne| ->]; [|apply orb_true_r].
    apply Z.eqb_neq in Hne. by rewrite Hne. }
  unfold urlretrieve_with_bar. cbn [world requests bars].
  rewrite Hopen, Hfile, Hread.
  cbv zeta. rewrite report_blocks_fields by done. cbn [Bar.desc].
  rewrite <- app_assoc. cbn [app].
  rewrite (Z.mul_comm (Z.of_nat _) 8192).
  destruct failure; [done|]. by destruct (_ && _).
Qed.

(** X21: [download_url] reaches nothing but its file.  Whatever the
    server does and however the call ends, every other path holds what it
    held, the HEAD request comes first and at most one retrieval follows
    it, at most one progress bar is shown, and the file is changed only
    by a call that made the retrieval. *)
Theorem download_url_frame url fpath overwrite h :
  let h1 := snd (download_url web int url fpath overwrite h) in
  (forall q, q <> fpath ->
     nodes (world h1) !! q = nodes (world h) !! q)
  /\ (requests h1 = requests h ++ [Head url]
      /\ nodes (world h1) = nodes (world h) /\ bars h1 = bars h
      \/ requests h1 = requests h ++ [Head url; UrlRetrieve url fpath]
         /\ exists bar, bars h1 = bars h ++ [bar]).
Proof.
  cbv zeta. rewrite download_url_unfold. unfold get_url_size.
  destruct (head web (requests h) url) as [response|e];
    [|split; [done|by left]].
  destruct (header_content_length response) as [value|];
    [|split; [done|by left]].
  destruct (int value) as [url_size|e]; [|split; [done|by left]].
  destruct (negb _ || overwrite); [|split; [done|by left]].
  unfold urlretrieve_with_bar. cbn [world requests bars].
  rewrite <- app_assoc. cbn [app].
  destruct (urlopen web _ url) as [transfer|e];
    [|split; [done|right; split; [done|by eexists]]].
  destruct (open_wb (world h) fpath) as [[]|e];
    [|split; [done|right; split; [done|by eexists]]].
  destruct (read_loop (reads transfer)) as [blocks failure].
  assert (forall q, q <> fpath ->
            (<[fpath := File (String.concat EmptyString blocks)]>
               (nodes (world h)) : gmap Path node) !! q
            = nodes (world h) !! q) as Hframe.
  { intros q Hq. by rewrite lookup_insert_ne. }
  destruct failure as [e|]; [|destruct (_ && _)];
    (split; [exact Hframe|right; split; [done|by eexists]]).
Qed.

End DownloadUrlFacts.

(** * The further properties on the concrete setting *)

Lemma cds_request_cannot_start_witness :
  cds_request Fixture.client Fixture.cdsapirc "reanalysis-era5-pressure-levels"
    ["surface_pressure"] Fixture.january_2010 Fixture.bbox ["data"]
    Fixture.cds_var_names true Fixture.fresh_world
  = (Err (KeyError "reanalysis-era5-pressure-levels"), Fixture.fresh_world).
Proof.
  apply (cds_request_cannot_start Fixture.client Fixture.cdsapirc
           "reanalysis-era5-pressure-levels" ["surface_pressure"]
           Fixture.january_2010 Fixture.bbox ["data"] Fixture.cds_var_names
           true Fixture.fresh_world).
  left. reflexivity.
Defined.

Lemma read_config_two_lines_witness :
  read_config Fixture.cdsapirc Fixture.fresh_world
  = (Ok (strip " a", strip " 123:abc-def"), Fixture.fresh_world).
Proof.
  apply (read_config_two_lines Fixture.cdsapirc Fixture.cdsapirc_text
           "url" " a" (String "010"%char EmptyString) "key" " 123:abc-def"
           EmptyString Fixture.fresh_world);
    try reflexivity.
  - left. reflexivity.
  - left. reflexivity.
Defined.

Example read_config_universal_newlines :
  let crlf := String "013"%char (String "010"%char EmptyString) in
  let cr := String "013"%char EmptyString in
  let w text := mkWorld {[ Fixture.cdsapirc := File text ]} (fun _ => 4096) [] in
  fst (read_config Fixture.cdsapirc
         (w ("url: a" +:+ crlf +:+ "key: 123:abc-def" +:+ crlf)))
  = Ok ("a", "123:abc-def")
  /\ fst (read_config Fixture.cdsapirc
            (w ("url: a " +:+ cr +:+ "key:123:abc-def" +:+ cr +:+ "more")))
     = Ok ("a", "123:abc-def")
  /\ fst (read_config Fixture.cdsapirc (w ("url: a" +:+ cr +:+ "key")))
     = Err IndexError.
Proof. repeat split. Qed.

Lemma cds_request_nothing_to_do_witness :
  cds_request Fixture.client Fixture.cdsapirc "reanalysis-era5-land"
    ["no_such_variable"]
    (mkTimeBounds (Calendar.mkdate 2010 1 1) (Calendar.mkdate 2010 1 30))
    Fixture.bbox ["data"; "era5-land"] Fixture.cds_var_names true
    Fixture.fresh_world
  = (Ok tt, Fixture.fresh_world).
Proof.
  apply (cds_request_nothing_to_do Fixture.client Fixture.cdsapirc
           "reanalysis-era5-land" "era5-land" ["no_such_variable"]
           (mkTimeBounds (Calendar.mkdate 2010 1 1) (Calendar.mkdate 2010 1 30))
           Fixture.bbox ["data"; "era5-land"] Fixture.cds_var_names true
           "a" "123:abc-def" Fixture.fresh_world).
  - reflexivity.
  - exists Fixture.cdsapirc_text. split; reflexivity.
  - reflexivity.
  - unfold Calendar.valid_date; cbn; lia.
  - unfold Calendar.valid_date; cbn; lia.
  - unfold Calendar.representable; cbn; lia.
  - unfold Calendar.representable; cbn; lia.
  - right. reflexivity.
Defined.

Lemma cds_request_stays_in_directory_witness :
  nodes (snd Fixture.first_run) !! Fixture.cdsapirc
  = nodes Fixture.fresh_world !! Fixture.cdsapirc.
Proof.
  refine (proj1 (cds_request_stays_in_directory Fixture.client Fixture.cdsapirc
                   "reanalysis-era5-land"
                   ["2m_dewpoint_temperature"; "surface_pressure"]
                   Fixture.first_quarter_2010 Fixture.bbox
                   ["data"; "era5-land"] Fixture.cds_var_names true
                   Fixture.fresh_world Fixture.cdsapirc _) _).
  - repeat constructor.
  - intros name. discriminate.
Defined.

Lemma cds_request_targets_exist_witness :
  is_Some (nodes (snd Fixture.first_run)
             !! item_path ["data"; "era5-land"] "era5-land"
                          Fixture.dewpoint_item).
Proof.
  apply (cds_request_targets_exist Fixture.client Fixture.cdsapirc
           "reanalysis-era5-land" "era5-land"
           ["2m_dewpoint_temperature"; "surface_pressure"]
           Fixture.first_quarter_2010 Fixture.bbox ["data"; "era5-land"]
           Fixture.cds_var_names true Fixture.fresh_world
           (snd Fixture.first_run)).
  - reflexivity.
  - left. reflexivity.
  - exact FixtureFacts.first_run_completes.
  - left. reflexivity.
Defined.

Lemma passes_before_complete :
  MoreFixture.passes_before = (Ok tt, snd MoreFixture.passes_before).
Proof. apply FixtureFacts.pair_of_fst. vm_compute. reflexivity. Defined.

Lemma cds_request_unknown_variable_witness :
  cds_request Fixture.client Fixture.cdsapirc "reanalysis-era5-land"
    ["2m_dewpoint_temperature"; "no_such_variable"] Fixture.january_2010
    Fixture.bbox ["data"; "era5-land"] Fixture.cds_var_names true
    Fixture.fresh_world
  = (Err (KeyError (snd MoreFixture.unknown_item)),
     snd MoreFixture.passes_before).
Proof.
  apply (cds_request_unknown_variable Fixture.client Fixture.cdsapirc
           "reanalysis-era5-land" "era5-land"
           ["2m_dewpoint_temperature"; "no_such_variable"]
           Fixture.january_2010 Fixture.bbox ["data"; "era5-land"]
           Fixture.cds_var_names true "a" "123:abc-def"
           [Fixture.dewpoint_item] MoreFixture.unknown_item []
           Fixture.fresh_world (snd MoreFixture.passes_before)).
  - reflexivity.
  - reflexivity.
  - reflexivity.
  - exact passes_before_complete.
  - reflexivity.
Defined.

Lemma ERA5_download_outcome_witness :
  fst (ERA5_download Fixture.client Fixture.cdsapirc Fixture.properties_json
         ["data"] Fixture.january_2010 Fixture.bbox ["surface_pressure"] true
         Fixture.fresh_world)
  = Err (TypeError "cds_request() got an unexpected keyword argument 'product'")
  /\ nodes (snd (ERA5_download Fixture.client Fixture.cdsapirc
                   Fixture.properties_json ["data"] Fixture.january_2010
                   Fixture.bbox ["surface_pressure"] true Fixture.fresh_world))
       !! path_join ["data"] "era5"
     = Some Dir.
Proof.
  apply (proj2 (proj2 (proj2 (proj2
           (ERA5_download_outcome Fixture.client Fixture.cdsapirc
              Fixture.properties_json ["data"] Fixture.january_2010
              Fixture.bbox ["surface_pressure"] true Fixture.fresh_world))))).
  - reflexivity.
  - eexists. apply FixtureFacts.pair_of_fst. vm_compute. reflexivity.
Defined.

Lemma parse_nc_file_returns_iff_witness :
  (exists ds',
      Fixture.parse Fixture.open_dataset ["download"; "era5_2010-1.nc"] = Ok ds')
  <-> (forall n c, In n (dict_keys Fixture.raw_dataset) ->
         dict_get var_reference_era5_to_zampy n = Some c ->
         ~ In c (dict_keys Fixture.raw_dataset)
         /\ exists ref,
             dict_get Fixture.VARIABLE_REFERENCE_LOOKUP c = Some ref)
      /\ (forall da ref,
            dict_get Fixture.raw_dataset "mtpr" = Some da ->
            dict_get Fixture.VARIABLE_REFERENCE_LOOKUP "total_precipitation"
            = Some ref ->
            exists converted,
              Fixture.pint_to "meter_per_second" (VariableRef.unit ref)
                (Fixture.divide (values da) WATER_DENSITY) = Ok converted).
Proof.
  apply (parse_nc_file_returns_iff Fixture.divide Fixture.unit_str
           Fixture.pint_to false Fixture.VARIABLE_REFERENCE_LOOKUP
           Fixture.open_dataset ["download"; "era5_2010-1.nc"]
           Fixture.raw_dataset);
    [reflexivity | exact fixture_nodup].
Defined.

Lemma parse_nc_file_names_witness :
  dict_keys Fixture.parsed_dataset
  = map (fun k => match dict_get var_reference_era5_to_zampy k with
                  | Some variable_name => variable_name
                  | None => k
                  end) (dict_keys Fixture.raw_dataset).
Proof.
  apply (parse_nc_file_names Fixture.divide Fixture.unit_str Fixture.pint_to
           false Fixture.VARIABLE_REFERENCE_LOOKUP Fixture.open_dataset
           ["download"; "era5_2010-1.nc"] Fixture.raw_dataset
           Fixture.parsed_dataset);
    [reflexivity | exact fixture_nodup | reflexivity].
Defined.

Lemma plain_variable_renamed_and_stamped_witness :
  exists name ref da',
    dict_get var_reference_era5_to_zampy "sp" = Some name
    /\ dict_get Fixture.VARIABLE_REFERENCE_LOOKUP name = Some ref
    /\ dict_get Fixture.parsed_dataset name = Some da'
    /\ values da' = values (mkDataArray (101325 # 1)%Q [("units", "Pa")])
    /\ dict_get (attrs da') "units"
       = Some (Fixture.unit_str (VariableRef.unit ref))
    /\ dict_get (attrs da') "description" = Some (VariableRef.desc ref)
    /\ forall key, key <> "units" -> key <> "description" ->
         dict_get (attrs da') key
         = dict_get (attrs (mkDataArray (101325 # 1)%Q [("units", "Pa")])) key.
Proof.
  apply (plain_variable_renamed_and_stamped Fixture.divide Fixture.unit_str
           Fixture.pint_to false Fixture.VARIABLE_REFERENCE_LOOKUP
           Fixture.open_dataset ["download"; "era5_2010-1.nc"]
           Fixture.raw_dataset Fixture.parsed_dataset "sp"
           (mkDataArray (101325 # 1)%Q [("units", "Pa")]));
    [reflexivity | exact fixture_nodup | reflexivity | | reflexivity].
  left. reflexivity.
Defined.

Lemma convert_to_zampy_skips_existing_witness :
  MoreFixture.convert ["ingest"] ["download"; "missing.grib"] false
    (mkDisk {[ ["ingest"; "missing.nc"] := NotNc ]} [])
  = (Ok tt,
     mkDisk {[ ["ingest"; "missing.nc"] := @NotNc Q ]}
            ([] ++ ["File '" +:+ path_name ["ingest"; "missing.nc"]
                    +:+ "' already exists, skipping..."])).
Proof.
  refine (convert_to_zampy_skips_existing Fixture.divide Fixture.unit_str
            Fixture.pint_to false Fixture.VARIABLE_REFERENCE_LOOKUP
            ["ingest"] ["download"; "missing.grib"] ["ingest"; "missing.nc"]
            (mkDisk {[ ["ingest"; "missing.nc"] := NotNc ]} []) _ _).
  - reflexivity.
  - eexists. reflexivity.
Defined.

Lemma convert_fixture :
  MoreFixture.convert ["ingest"] ["download"; "era5_2010-1.nc"] false
                      MoreFixture.disk
  = (Ok tt, MoreFixture.disk_converted).
Proof. vm_compute. reflexivity. Defined.


Lemma convert_to_zampy_again_witness :
  exists ds',
    disk_nodes MoreFixture.disk_converted !! ["ingest"; "era5_2010-1.nc"]
    = Some (NcFile ds')
    /\ MoreFixture.convert ["standard"] ["ingest"; "era5_2010-1.nc"] true
                           MoreFixture.disk_converted
       = (Ok tt,
          mkDisk (<[path_join ["standard"]
                      (path_name ["ingest"; "era5_2010-1.nc"])
                    := NcFile ds']>
                    (disk_nodes MoreFixture.disk_converted))
                 (printed MoreFixture.disk_converted)).
Proof.
  apply (convert_to_zampy_again Fixture.divide Fixture.unit_str
           Fixture.pint_to false Fixture.VARIABLE_REFERENCE_LOOKUP
           ["ingest"] ["download"; "era5_2010-1.nc"] false MoreFixture.disk
           MoreFixture.disk_converted ["ingest"; "era5_2010-1.nc"]
           Fixture.raw_dataset ["standard"] true).
  - reflexivity.
  - reflexivity.
  - exact fixture_nodup.
  - left. reflexivity.
  - exact convert_fixture.
  - reflexivity.
  - discriminate.
  - right. split; reflexivity.
Defined.

Lemma probe_fixture h : probe_gives MoreFixture.web MoreFixture.int h MoreFixture.url 3.
Proof. exists (mkHeadResponse (Some "3")), "3". repeat split. Defined.

Lemma download_url_skips_on_equal_size_witness :
  download_url MoreFixture.web MoreFixture.int MoreFixture.url
               MoreFixture.fpath false MoreFixture.with_tile
  = (Ok tt,
     mkHttpWorld
       (mkWorld (nodes (world MoreFixture.with_tile))
                (dir_st_size (world MoreFixture.with_tile))
                (log (world MoreFixture.with_tile)
                 ++ [Print ("File '" +:+ path_name MoreFixture.fpath
                            +:+ "' already exists, skipping...")]))
       (requests MoreFixture.with_tile ++ [Head MoreFixture.url])
       (bars MoreFixture.with_tile)).
Proof.
  apply (download_url_skips_on_equal_size MoreFixture.web MoreFixture.int
           MoreFixture.url MoreFixture.fpath MoreFixture.with_tile 3).
  - apply probe_fixture.
  - reflexivity.
Defined.

Lemma download_url_probe_fails_witness :
  exists e,
    download_url MoreFixture.web_without_length MoreFixture.int
                 MoreFixture.url MoreFixture.fpath true MoreFixture.no_files
    = (Err e,
       mkHttpWorld (world MoreFixture.no_files)
                   (requests MoreFixture.no_files ++ [Head MoreFixture.url])
                   (bars MoreFixture.no_files)).
Proof.
  apply (download_url_probe_fails MoreFixture.web_without_length
           MoreFixture.int MoreFixture.url MoreFixture.fpath true
           MoreFixture.no_files).
  right. exists (mkHeadResponse None). split; [reflexivity|]. left. reflexivity.
Defined.

Lemma download_url_retrieves_witness :
  download_url MoreFixture.web MoreFixture.int MoreFixture.url
               MoreFixture.fpath false MoreFixture.no_files
  = (Ok tt,
     mkHttpWorld
       (mkWorld (<[MoreFixture.fpath := File "abc"]>
                   (nodes (world MoreFixture.no_files)))
                (dir_st_size (world MoreFixture.no_files))
                (log (world MoreFixture.no_files)))
       (requests MoreFixture.no_files
        ++ [Head MoreFixture.url;
            UrlRetrieve MoreFixture.url MoreFixture.fpath])
       (bars MoreFixture.no_files
        ++ [Bar.make (last_segment MoreFixture.url)
                     (8192 * Z.of_nat (length ["ab"; "c"])) (Some 3) false])).
Proof.
  apply (download_url_retrieves MoreFixture.web MoreFixture.int
           MoreFixture.url MoreFixture.fpath false MoreFixture.no_files 3
           (mkTransfer [Ok "ab"; Ok "c"] 3) ["ab"; "c"] None).
  - apply probe_fixture.
  - left. discriminate.
  - reflexivity.
  - reflexivity.
  - reflexivity.
Defined.

Lemma download_url_frame_witness :
  nodes (world (snd (download_url MoreFixture.web MoreFixture.int
                       MoreFixture.url MoreFixture.fpath true
                       MoreFixture.with_tile)))
    !! ["data"]
  = nodes (world MoreFixture.with_tile) !! ["data"].
Proof.
  apply (proj1 (download_url_frame MoreFixture.web MoreFixture.int
                  MoreFixture.url MoreFixture.fpath true
                  MoreFixture.with_tile)).
  discriminate.
Defined.

Example download_url_fixture :
  download_url MoreFixture.web MoreFixture.int MoreFixture.url
               MoreFixture.fpath false MoreFixture.no_files
  = (Ok tt,
     mkHttpWorld
       (mkWorld {[ ["data"] := Dir; MoreFixture.fpath := File "abc" ]}
                (fun _ => 4096) [])
       [Head MoreFixture.url; UrlRetrieve MoreFixture.url MoreFixture.fpath]
       [Bar.make "tile_1.tif" 16384 (Some 3) false]).
Proof. reflexivity. Qed.
